(** * A shallow embedding of the storefront application

  The application is a set of React Native screens (TypeScript) that read
  and write three stores: the device key-value storage (AsyncStorage), the
  remote tables of the hosted backend, and each screen's component state.
  Every handler is embedded as a function over explicit stores; the
  runtime's JSON.stringify / JSON.parse are embedded as a printer and a
  parser on texts. *)

From Stdlib Require Import ZArith String Ascii List Lia Bool.
From Stdlib Require Import DecimalString DecimalPos DecimalFacts.
From stdpp Require Import gmap strings list.

Set Warnings "-register-all".

(** ** JavaScript strings and the JSON text format *)

Module JS.

(** A string is truthy when it is not empty. *)
Definition truthy (s : string) : bool := negb (String.eqb s "").

(** [x ? f(x) : d] on the result of [AsyncStorage.getItem], which is
    [null] or a string. *)
Definition if_truthy {A} (o : option string) (f : string -> A) (d : A) : A :=
  match o with
  | Some s => if truthy s then f s else d
  | None => d
  end.

(** [Array.prototype.findIndex]: the first index whose element satisfies
    the predicate, [-1] when there is none. *)
Fixpoint findIndex_from {A} (f : A -> bool) (l : list A) (i : Z) : Z :=
  match l with
  | [] => (-1)%Z
  | x :: l' => if f x then i else findIndex_from f l' (i + 1)%Z
  end.

Definition findIndex {A} (f : A -> bool) (l : list A) : Z :=
  findIndex_from f l 0%Z.

End JS.

Module JSON.

(** A JavaScript number by the decimal numeral JSON.stringify prints for
    it: a sign, the integer part and the digits of the fraction (none for
    an integer).  The numbers it prints with an exponent (from 1e21 on and
    below 1e-6), and NaN and the infinities, which it prints as null, are
    outside the model. *)
Record number := mkNumber { negative : bool; integer : N; fraction : Decimal.uint }.

Definition of_Z (z : Z) : number := mkNumber (z <? 0)%Z (Z.abs_N z) Decimal.Nil.

(** The integer a number is, if it is one. *)
Definition to_Z (n : number) : option Z :=
  match fraction n with
  | Decimal.Nil => Some (if negative n then - Z.of_N (integer n) else Z.of_N (integer n))%Z
  | _ => None
  end.

(** The values the application stores; an object is its list of
    properties in insertion order. *)
Inductive value : Type :=
| Null
| Bool (b : bool)
| Number (n : number)
| Str (s : string)
| Array (l : list value)
| Object (l : list (string * value)).

Definition dquote : ascii := "034"%char.
Definition backslash : ascii := "092"%char.

Definition is_digit (c : ascii) : bool :=
  (48 <=? N_of_ascii c)%N && (N_of_ascii c <=? 57)%N.

(** *** Printing *)

Definition hex_digit (n : N) : ascii :=
  if (n <? 10)%N then ascii_of_N (48 + n) else ascii_of_N (87 + n).

(** QuoteJSONString of ECMA-262: the two-character escapes, [\u00XX] for
    the other control characters, every other character as it is. *)
Definition escape_char (c : ascii) : string :=
  let n := N_of_ascii c in
  if Ascii.eqb c dquote then String backslash (String dquote "")
  else if Ascii.eqb c backslash then String backslash (String backslash "")
  else if (n =? 8)%N then String backslash "b"
  else if (n =? 9)%N then String backslash "t"
  else if (n =? 10)%N then String backslash "n"
  else if (n =? 12)%N then String backslash "f"
  else if (n =? 13)%N then String backslash "r"
  else if (n <? 32)%N then
    String backslash
      (String "u" (String "0" (String "0"
         (String (hex_digit (n / 16)) (String (hex_digit (n mod 16)) "")))))
  else String c "".

Fixpoint escape (s : string) : string :=
  match s with
  | EmptyString => ""
  | String c s' => escape_char c +:+ escape s'
  end.

Definition quote (s : string) : string :=
  String dquote (escape s +:+ String dquote "").

Definition print_fraction (f : Decimal.uint) : string :=
  match f with
  | Decimal.Nil => ""
  | _ => String "." (NilEmpty.string_of_uint f)
  end.

Definition print_number (n : number) : string :=
  let digits := NilEmpty.string_of_uint (N.to_uint (integer n)) +:+ print_fraction (fraction n) in
  if negative n then String "-" digits else digits.

(** The texts of a list, separated by commas. *)
Fixpoint commas (l : list string) : string :=
  match l with
  | [] => ""
  | [x] => x
  | x :: l' => x +:+ String "," (commas l')
  end.

Fixpoint stringify (v : value) : string :=
  match v with
  | Null => "null"
  | Bool true => "true"
  | Bool false => "false"
  | Number n => print_number n
  | Str s => quote s
  | Array l => String "[" (commas (List.map stringify l) +:+ "]")
  | Object l =>
      String "{"
        (commas (List.map (fun kv => quote (fst kv) +:+ String ":" (stringify (snd kv))) l)
         +:+ "}")
  end.

(** *** Parsing *)

Definition unhex (c : ascii) : option N :=
  let n := N_of_ascii c in
  if is_digit c then Some (n - 48)%N
  else if (97 <=? n)%N && (n <=? 102)%N then Some (n - 87)%N
  else if (65 <=? n)%N && (n <=? 70)%N then Some (n - 55)%N
  else None.

Definition unhex4 (a b c d : ascii) : option N :=
  match unhex a, unhex b, unhex c, unhex d with
  | Some x, Some y, Some z, Some w => Some (((x * 16 + y) * 16 + z) * 16 + w)%N
  | _, _, _, _ => None
  end.

Definition unescape (e : ascii) : option ascii :=
  if Ascii.eqb e dquote then Some dquote
  else if Ascii.eqb e backslash then Some backslash
  else if Ascii.eqb e "/" then Some "/"%char
  else if Ascii.eqb e "b" then Some "008"%char
  else if Ascii.eqb e "t" then Some "009"%char
  else if Ascii.eqb e "n" then Some "010"%char
  else if Ascii.eqb e "f" then Some "012"%char
  else if Ascii.eqb e "r" then Some "013"%char
  else None.

Definition cons_char (c : ascii) (r : option (string * string)) : option (string * string) :=
  match r with
  | Some (s, rest) => Some (String c s, rest)
  | None => None
  end.

(** The characters of a string literal after its opening quote, up to
    the closing quote.  A [\uXXXX] escape above [\u007f] and a raw
    control character are refused. *)
Fixpoint parse_chars (s : string) : option (string * string) :=
  match s with
  | EmptyString => None
  | String c rest =>
      if Ascii.eqb c dquote then Some ("", rest)
      else if Ascii.eqb c backslash then
        match rest with
        | EmptyString => None
        | String e rest1 =>
            if Ascii.eqb e "u" then
              match rest1 with
              | String h1 (String h2 (String h3 (String h4 rest2))) =>
                  match unhex4 h1 h2 h3 h4 with
                  | Some code =>
                      if (code <? 128)%N
                      then cons_char (ascii_of_N code) (parse_chars rest2)
                      else None
                  | None => None
                  end
              | _ => None
              end
            else
              match unescape e with
              | Some ch => cons_char ch (parse_chars rest1)
              | None => None
              end
        end
      else if (N_of_ascii c <? 32)%N then None
      else cons_char c (parse_chars rest)
  end.

Fixpoint span_digits (s : string) : string * string :=
  match s with
  | EmptyString => ("", "")
  | String c rest =>
      if is_digit c
      then let (d, r) := span_digits rest in (String c d, r)
      else ("", s)
  end.

(** The digits of a JSON number: at least one, no leading zero. *)
Definition digits_value (d : string) : option N :=
  match d with
  | EmptyString => None
  | String c d' =>
      if Ascii.eqb c "0" && negb (String.eqb d' "") then None
      else
        match NilEmpty.uint_of_string d with
        | Some u => Some (N.of_uint u)
        | None => None
        end
  end.

(** An exponent after the digits is outside the model. *)
Definition number_end (rest : string) : bool :=
  match rest with
  | EmptyString => true
  | String c _ => negb (Ascii.eqb c "e" || Ascii.eqb c "E")
  end.

(** The fraction of a number: nothing, or a point and at least one
    digit. *)
Definition parse_fraction (rest : string) : option (Decimal.uint * string) :=
  match rest with
  | String c rest1 =>
      if Ascii.eqb c "." then
        let (f, rest2) := span_digits rest1 in
        match NilEmpty.uint_of_string f with
        | Some Decimal.Nil | None => None
        | Some u => Some (u, rest2)
        end
      else Some (Decimal.Nil, rest)
  | EmptyString => Some (Decimal.Nil, rest)
  end.

Definition parse_number (s : string) : option (value * string) :=
  let (neg, body) :=
    match s with
    | String c s' => if Ascii.eqb c "-" then (true, s') else (false, s)
    | EmptyString => (false, s)
    end in
  let (d, rest) := span_digits body in
  match digits_value d with
  | Some n =>
      match parse_fraction rest with
      | Some (f, rest') =>
          if number_end rest' then Some (Number (mkNumber neg n f), rest') else None
      | None => None
      end
  | None => None
  end.

Fixpoint strip_prefix (p s : string) : option string :=
  match p with
  | EmptyString => Some s
  | String a p' =>
      match s with
      | String b s' => if Ascii.eqb a b then strip_prefix p' s' else None
      | EmptyString => None
      end
  end.

Definition keyword (p : string) (v : value) (s : string) : option (value * string) :=
  match strip_prefix p s with
  | Some rest => Some (v, rest)
  | None => None
  end.

(** Recursive descent on a text without white space (the form
    JSON.stringify prints); the fuel bounds the number of nested calls. *)
Fixpoint parse_value (fuel : nat) (s : string) : option (value * string) :=
  match fuel with
  | O => None
  | S fuel =>
      match s with
      | EmptyString => None
      | String c rest =>
          if Ascii.eqb c "n" then keyword "ull" Null rest
          else if Ascii.eqb c "t" then keyword "rue" (Bool true) rest
          else if Ascii.eqb c "f" then keyword "alse" (Bool false) rest
          else if Ascii.eqb c dquote then
            match parse_chars rest with
            | Some (str, rest') => Some (Str str, rest')
            | None => None
            end
          else if Ascii.eqb c "[" then
            match rest with
            | String c' rest' =>
                if Ascii.eqb c' "]" then Some (Array [], rest')
                else
                  match parse_elements fuel rest with
                  | Some (l, rest'') => Some (Array l, rest'')
                  | None => None
                  end
            | EmptyString => None
            end
          else if Ascii.eqb c "{" then
            match rest with
            | String c' rest' =>
                if Ascii.eqb c' "}" then Some (Object [], rest')
                else
                  match parse_members fuel rest with
                  | Some (l, rest'') => Some (Object l, rest'')
                  | None => None
                  end
            | EmptyString => None
            end
          else parse_number s
      end
  end

with parse_elements (fuel : nat) (s : string) : option (list value * string) :=
  match fuel with
  | O => None
  | S fuel =>
      match parse_value fuel s with
      | Some (v, String c rest) =>
          if Ascii.eqb c "]" then Some ([v], rest)
          else if Ascii.eqb c "," then
            match parse_elements fuel rest with
            | Some (l, rest') => Some (v :: l, rest')
            | None => None
            end
          else None
      | _ => None
      end
  end

with parse_members (fuel : nat) (s : string) : option (list (string * value) * string) :=
  match fuel with
  | O => None
  | S fuel =>
      match s with
      | String q s1 =>
          if Ascii.eqb q dquote then
            match parse_chars s1 with
            | Some (k, String colon s2) =>
                if Ascii.eqb colon ":" then
                  match parse_value fuel s2 with
                  | Some (v, String c rest) =>
                      if Ascii.eqb c "}" then Some ([(k, v)], rest)
                      else if Ascii.eqb c "," then
                        match parse_members fuel rest with
                        | Some (l, rest') => Some ((k, v) :: l, rest')
                        | None => None
                        end
                      else None
                  | _ => None
                  end
                else None
            | _ => None
            end
          else None
      | EmptyString => None
      end
  end.

(** [JSON.parse]: [None] stands for the SyntaxError it throws. *)
Definition parse (s : string) : option value :=
  match parse_value (S (String.length s)) s with
  | Some (v, EmptyString) => Some v
  | _ => None
  end.

(** Property lookup [o.k]; [None] is [undefined]. *)
Fixpoint prop (k : string) (l : list (string * value)) : option value :=
  match l with
  | [] => None
  | (k', v) :: l' => if String.eqb k k' then Some v else prop k l'
  end.

(** ToBoolean on a parsed value. *)
Definition truthy (v : value) : bool :=
  match v with
  | Null => false
  | Bool b => b
  | Number n => negb ((integer n =? 0)%N && match fraction n with
                                             | Decimal.Nil => true
                                             | _ => false
                                             end)
  | Str s => negb (String.eqb s "")
  | Array _ | Object _ => true
  end.

End JSON.

Module JSONFuel.
Import JSON.

(** Fuel that suffices to read back the text of a value. *)
Fixpoint need (v : value) : nat :=
  match v with
  | Array l => S (fold_right (fun x acc => S (need x + acc)) 0 l)
  | Object l => S (fold_right (fun kv acc => S (need (snd kv) + acc)) 0 l)
  | _ => 1
  end.

(** A value is followed by a comma, a closing bracket or the end of the
    text. *)
Definition follows (rest : string) : bool :=
  match rest with
  | EmptyString => true
  | String c _ => Ascii.eqb c "," || Ascii.eqb c "]" || Ascii.eqb c "}"
  end.

(** The first character of a number. *)
Definition number_head (c : ascii) : Prop := is_digit c = true \/ c = "-"%char.

(** Reading back the text of [v], whatever follows it, gives [v] and what
    follows. *)
Definition reads_back (v : value) : Prop :=
  forall fuel rest, need v <= fuel -> follows rest = true ->
    parse_value fuel (stringify v +:+ rest) = Some (v, rest).

End JSONFuel.

(** ** Device storage *)

Module AsyncStorage.

(** The key-value store of the device: string keys, string values. *)
Abbreviation t := (gmap string string).

Definition getItem (k : string) (st : t) : option string := st !! k.
Definition setItem (k v : string) (st : t) : t := <[k := v]> st.
Definition removeItem (k : string) (st : t) : t := delete k st.

End AsyncStorage.

(** ** Notifications *)

Inductive ToastType := error | success | info.

Record Toast := mkToast { type : ToastType; text1 : string; text2 : option string }.

Definition toast (ty : ToastType) (msg : string) : Toast := mkToast ty msg None.

(** How a call of an [async] handler ends: its promise resolves, or an
    exception escapes it (nothing after the throwing statement runs). *)
Inductive outcome := Returned | Threw.

(** ** Catalog and cart records *)

Module Product.
(** The fields the screens' [Product] interfaces share. *)
Record t := mk { id : string; name : string; price : JSON.number }.
End Product.

Module CartItem.

(** Modelled from the spec: the declaration of [CartItemType]
    (components/CartItem.tsx) is not among the sources.  The spec calls the
    cart a list of selected products pending checkout; a line item is taken
    as a product with a quantity, which is what [{ ...product, quantity }]
    builds and what the Cart screen reads ([i.id], [i.price],
    [i.quantity]).  The quantity is an integer. *)
Record t := mk { id : string; name : string; price : JSON.number; quantity : Z }.

(** [{ ...product, quantity }] *)
Definition of_product (p : Product.t) (q : Z) : t :=
  mk (Product.id p) (Product.name p) (Product.price p) q.

(** [{ ...i, quantity: q }] *)
Definition with_quantity (q : Z) (i : t) : t := mk (id i) (name i) (price i) q.

(** [i.quantity += n] *)
Definition add_quantity (n : Z) (i : t) : t := with_quantity (quantity i + n) i.

Definition to_json (i : t) : JSON.value :=
  JSON.Object
    [("id", JSON.Str (id i)); ("name", JSON.Str (name i));
     ("price", JSON.Number (price i)); ("quantity", JSON.Number (JSON.of_Z (quantity i)))].

Definition of_json (v : JSON.value) : option t :=
  match v with
  | JSON.Object l =>
      match JSON.prop "id" l, JSON.prop "name" l, JSON.prop "price" l, JSON.prop "quantity" l with
      | Some (JSON.Str i), Some (JSON.Str n), Some (JSON.Number p), Some (JSON.Number q) =>
          match JSON.to_Z q with
          | Some q => Some (mk i n p q)
          | None => None
          end
      | _, _, _, _ => None
      end
  | _ => None
  end.

Definition list_to_json (c : list t) : JSON.value := JSON.Array (List.map to_json c).

Definition list_of_json (v : JSON.value) : option (list t) :=
  match v with
  | JSON.Array l => mapM of_json l
  | _ => None
  end.

(** [JSON.stringify(cart)] *)
Definition stringify (c : list t) : string := JSON.stringify (list_to_json c).

(** [JSON.parse(text)] read as a cart; [None] when parsing throws or the
    value is not a list of line items. *)
Definition parse (text : string) : option (list t) :=
  match JSON.parse text with
  | Some v => list_of_json v
  | None => None
  end.

End CartItem.

Module Location.

Record t := mk { id : string; name : string }.

(** [JSON.stringify({ id, name })] *)
Definition stringify (l : t) : string :=
  JSON.stringify (JSON.Object [("id", JSON.Str (id l)); ("name", JSON.Str (name l))]).

(** [obj?.id ?? null] on a parsed value; the id is a string, as every
    screen declares it. *)
Definition id_of (v : JSON.value) : option string :=
  match v with
  | JSON.Object l =>
      match JSON.prop "id" l with
      | Some (JSON.Str i) => Some i
      | _ => None
      end
  | _ => None
  end.

(** [const currentLocObj = sel ? JSON.parse(sel) : null;
     const currentLocId = currentLocObj?.id ?? null;]
    The outer [None] is JSON.parse throwing. *)
Definition currentLocId (sel : option string) : option (option string) :=
  JS.if_truthy sel
    (fun s => match JSON.parse s with
              | Some v => Some (id_of v)
              | None => None
              end)
    (Some None).

End Location.

(** The keys the application uses. *)
Definition cart_keys : list string := ["cart"; "cartLocationId"].
Definition selected_location_keys : list string := ["selectedLocation"; "location_id"].
Definition pickup_keys : list string := ["selectedPickupTime"; "selectedPickupLabel"].
Definition store_keys : list string := ["selected_store_id"].

(** ** Adding to the cart from the catalog screens *)

Module ProductDetails.
Import AsyncStorage.

(** [handleAddToCart], with the screen's [product] and [quantity] state. *)
Definition handleAddToCart (product : Product.t) (quantity : Z) (st : AsyncStorage.t)
  : AsyncStorage.t * list Toast :=
  let stored := getItem "cart" st in
  match JS.if_truthy stored CartItem.parse (Some []) with
  | Some cart =>
      let idx := JS.findIndex (fun it => String.eqb (CartItem.id it) (Product.id product)) cart in
      let cart' :=
        if (0 <=? idx)%Z
        then alter (CartItem.add_quantity quantity) (Z.to_nat idx) cart
        else cart ++ [CartItem.of_product product quantity] in
      (setItem "cart" (CartItem.stringify cart') st,
       [mkToast success (Product.name product +:+ " added to cart!")
          (Some ("Qty: " +:+ JSON.print_number (JSON.of_Z quantity)))])
  | None => (st, [toast error "Failed to add to cart"])
  end.

End ProductDetails.

Module ProductCard.
Import AsyncStorage.

(** [handleAddToCart], with the [onAddToCart] property of the card: absent,
    or the parent's callback, which is called with the product once the
    card has stored the cart.  The second component tells whether the
    callback was called. *)
Definition handleAddToCart
    (onAddToCart : option (Product.t -> AsyncStorage.t -> AsyncStorage.t))
    (product : Product.t) (st : AsyncStorage.t) : AsyncStorage.t * bool :=
  let storedCart := getItem "cart" st in
  match JS.if_truthy storedCart CartItem.parse (Some []) with
  | Some cart =>
      let existingIndex :=
        JS.findIndex (fun item => String.eqb (CartItem.id item) (Product.id product)) cart in
      let cart' :=
        if negb (existingIndex =? -1)%Z
        then alter (CartItem.add_quantity 1) (Z.to_nat existingIndex) cart
        else cart ++ [CartItem.of_product product 1] in
      let st := setItem "cart" (CartItem.stringify cart') st in
      match onAddToCart with
      | Some callback => (callback product st, true)
      | None => (st, false)
      end
  | None => (st, false)
  end.

End ProductCard.

Module FeatureScreen.
Import AsyncStorage.

(** [JSON.parse((await AsyncStorage.getItem("cart")) || "[]") || []] *)
Definition stored_cart (stored : option string) : option (list CartItem.t) :=
  match JSON.parse (JS.if_truthy stored (fun s => s) "[]") with
  | Some v => if JSON.truthy v then CartItem.list_of_json v else Some []
  | None => None
  end.

Definition handleAddToCart (product : Product.t) (st : AsyncStorage.t)
  : AsyncStorage.t * list Toast :=
  match stored_cart (getItem "cart" st) with
  | Some cart =>
      let idx := JS.findIndex (fun c => String.eqb (CartItem.id c) (Product.id product)) cart in
      let cart' :=
        if (0 <=? idx)%Z
        then alter (CartItem.add_quantity 1) (Z.to_nat idx) cart
        else cart ++ [CartItem.of_product product 1] in
      (setItem "cart" (CartItem.stringify cart') st,
       [toast success (Product.name product +:+ " added to cart!")])
  | None => (st, [toast error "Failed to add to cart."])
  end.

End FeatureScreen.

Module EmployeeView.
Import AsyncStorage.

Definition handleAddToCart (p : Product.t) (st : AsyncStorage.t) : AsyncStorage.t :=
  let stored := getItem "cart" st in
  match JS.if_truthy stored CartItem.parse (Some []) with
  | Some cart =>
      let idx := JS.findIndex (fun x => String.eqb (CartItem.id x) (Product.id p)) cart in
      let cart' :=
        if (0 <=? idx)%Z
        then alter (CartItem.add_quantity 1) (Z.to_nat idx) cart
        else cart ++ [CartItem.of_product p 1] in
      setItem "cart" (CartItem.stringify cart') st
  | None => st
  end.

(** [<ProductCard product={prod} onAddToCart={() => handleAddToCart(prod)} />]
    (lines 761 and 834, the only uses of the card): a press of the card's
    add button runs the card's handler with the screen's handler as its
    callback. *)
Definition pressProductCard (prod : Product.t) (st : AsyncStorage.t) : AsyncStorage.t * bool :=
  ProductCard.handleAddToCart (Some (fun _ => handleAddToCart prod)) prod st.

End EmployeeView.

Module EmployeeHistory.
Import AsyncStorage.

Definition handleAddToCart (p : Product.t) (st : AsyncStorage.t)
  : AsyncStorage.t * list Toast :=
  let stored := JS.if_truthy (getItem "cart" st) (fun s => s) "[]" in
  match CartItem.parse stored with
  | Some cart =>
      let idx := JS.findIndex (fun c => String.eqb (CartItem.id c) (Product.id p)) cart in
      let cart' :=
        if (0 <=? idx)%Z
        then alter (CartItem.add_quantity 1) (Z.to_nat idx) cart
        else cart ++ [CartItem.of_product p 1] in
      (setItem "cart" (CartItem.stringify cart') st,
       [toast success (Product.name p +:+ " added to cart!")])
  | None => (st, [toast error "Failed to add to cart."])
  end.

End EmployeeHistory.

(** ** Order status styles (Account, Orders, OrderDetails) *)

(** A status style of a style sheet: the two properties the status styles
    set. *)
Record Style := mkStyle { backgroundColor : string; color : string }.

Module Account.

(** The status styles of the screen's sheet (lines 276-280). *)
Module styles.
Definition completedStatus : Style := mkStyle "#16a34a" "#fff".
Definition inProgressStatus : Style := mkStyle "#2563eb" "#fff".
Definition readyForPickupStatus : Style := mkStyle "#d97706" "#fff".
Definition pendingStatus : Style := mkStyle "#F3F4F6" "#6B7280".
Definition cancelledStatus : Style := mkStyle "#F3F4F6" "#dc2626".
End styles.

(** The lower case of an ASCII capital. *)
Definition lower_char (c : ascii) : ascii :=
  let n := N_of_ascii c in
  if (65 <=? n)%N && (n <=? 90)%N then ascii_of_N (n + 32) else c.

(** [String.prototype.toLowerCase] on the UTF-8 text, as far as it can
    produce an ASCII letter: the ASCII capitals, and the Kelvin sign
    (U+212A, bytes 226 132 170), the one character outside ASCII whose lower
    case is an ASCII letter.  Every other byte stays: the lower case of
    another character outside ASCII has a character outside ASCII, which is
    all a comparison with an ASCII word needs. *)
Fixpoint toLowerCase (s : string) : string :=
  match s with
  | EmptyString => EmptyString
  | String c s' =>
      match c, s' with
      | "226"%char, String "132"%char (String "170"%char s'') =>
          String "k"%char (toLowerCase s'')
      | _, _ => String (lower_char c) (toLowerCase s')
      end
  end.

Definition getStatusStyle (status : string) : Style :=
  let s := toLowerCase status in
  if String.eqb s "completed" then styles.completedStatus
  else if String.eqb s "processing" || String.eqb s "ready"
          || String.eqb s "awaitingpickup" || String.eqb s "in progress"
  then styles.inProgressStatus
  else if String.eqb s "ready for pickup" then styles.readyForPickupStatus
  else if String.eqb s "pending" then styles.pendingStatus
  else if String.eqb s "cancelled" then styles.cancelledStatus
  else styles.pendingStatus.

End Account.

Module Orders.

(** The status styles of the screen's sheet (lines 254-269); it has no
    [pendingStatus]. *)
Module styles.
Definition completedStatus : Style := mkStyle "#16a34a" "#fff".
Definition inProgressStatus : Style := mkStyle "#2563eb" "#fff".
Definition readyForPickupStatus : Style := mkStyle "#d97706" "#fff".
Definition cancelledStatus : Style := mkStyle "#F3F4F6" "#6B7280".
End styles.

Definition getStatusStyle (status : string) : Style :=
  if String.eqb status "Completed" then styles.completedStatus
  else if String.eqb status "Processing" || String.eqb status "Ready"
          || String.eqb status "AwaitingPickup" || String.eqb status "In Progress"
  then styles.inProgressStatus
  else if String.eqb status "Ready for Pickup" then styles.readyForPickupStatus
  else if String.eqb status "Pending" then styles.cancelledStatus
  else styles.cancelledStatus.

End Orders.

Module OrderDetails.
Import AsyncStorage.

(** The status styles of the screen's sheet (lines 447-462); it has no
    [pendingStatus]. *)
Module styles.
Definition completedStatus : Style := mkStyle "#16a34a" "#fff".
Definition inProgressStatus : Style := mkStyle "#2563eb" "#fff".
Definition readyForPickupStatus : Style := mkStyle "#d97706" "#fff".
Definition cancelledStatus : Style := mkStyle "#F3F4F6" "#6B7280".
End styles.

Definition getStatusStyle (status : string) : Style :=
  if String.eqb status "Completed" then styles.completedStatus
  else if String.eqb status "Processing" || String.eqb status "Ready"
          || String.eqb status "AwaitingPickup" || String.eqb status "In Progress"
  then styles.inProgressStatus
  else if String.eqb status "Ready for Pickup" then styles.readyForPickupStatus
  else if String.eqb status "Pending" then styles.cancelledStatus
  else styles.cancelledStatus.

(** One turn of the [forEach] of [reorderItems]; an [OrderItem] has the
    fields of a line item. *)
Definition reorder_one (cart : list CartItem.t) (item : CartItem.t) : list CartItem.t :=
  let idx := JS.findIndex (fun c => String.eqb (CartItem.id c) (CartItem.id item)) cart in
  if (0 <=? idx)%Z
  then alter (CartItem.add_quantity (CartItem.quantity item)) (Z.to_nat idx) cart
  else cart ++ [item].

(** [reorderItems]; [orderData] is [None] until the order is loaded. *)
Definition reorderItems (orderData : option (list CartItem.t)) (st : AsyncStorage.t)
  : AsyncStorage.t * list Toast :=
  match orderData with
  | None => (st, [])
  | Some items =>
      let stored := getItem "cart" st in
      match JS.if_truthy stored CartItem.parse (Some []) with
      | Some cart =>
          (setItem "cart" (CartItem.stringify (fold_left reorder_one items cart)) st,
           [toast success "Items added to cart"])
      | None => (st, [toast error "Reorder failed"])
      end
  end.

End OrderDetails.

(** ** Profile form *)

Module EditProfile.

(** [s.slice(a, b)] for [0 <= a <= b], and [s.slice(a)]. *)
Definition slice (a b : nat) (s : list ascii) : list ascii := take (b - a) (drop a s).
Definition slice_from (a : nat) (s : list ascii) : list ascii := drop a s.

Definition hyphen : list ascii := ["-"%char].

(** [formatPhoneNumber] on the characters of the value. *)
Definition format (value : list ascii) : list ascii :=
  let digits := slice 0 10 (List.filter JSON.is_digit value) in
  if 6 <? length digits
  then slice 0 3 digits ++ hyphen ++ slice 3 6 digits ++ hyphen ++ slice_from 6 digits
  else if 3 <? length digits
  then slice 0 3 digits ++ hyphen ++ slice_from 3 digits
  else digits.

Definition formatPhoneNumber (value : string) : string :=
  string_of_list_ascii (format (list_ascii_of_string value)).

End EditProfile.

(** ** Store and location selection *)

Module SelectStore.
Import AsyncStorage.

(** [pick]; the second component is the route navigated to. *)
Definition pick (id : string) (st : AsyncStorage.t) : AsyncStorage.t * string :=
  (setItem "selected_store_id" id st, "Login").

End SelectStore.

Module SelectLocation.
Import AsyncStorage.

Definition handleUseCurrentLocation (st : AsyncStorage.t) : AsyncStorage.t * list Toast :=
  let current := Location.mk "current" "Current Location" in
  let st := setItem "selectedLocation" (Location.stringify current) st in
  let st := setItem "location_id" "current" st in
  (st, [toast success "Using current location"]).

Definition handleConfirmLocation (selectedLocationId : option string)
    (locations : list Location.t) (st : AsyncStorage.t) : AsyncStorage.t * list Toast :=
  JS.if_truthy selectedLocationId
    (fun sel =>
       match List.find (fun l => String.eqb (Location.id l) sel) locations with
       | None => (st, [])
       | Some loc =>
           let st :=
             setItem "selectedLocation"
               (Location.stringify (Location.mk (Location.id loc) (Location.name loc))) st in
           let st := setItem "location_id" (Location.id loc) st in
           (st, [toast success "Location confirmed"])
       end)
    (st, [toast error "Select a location first"]).

End SelectLocation.

(** ** Pickup time *)

Module PickUpTime.
Import AsyncStorage.

Record Slot := mkSlot { time : string; capacity : option Z }.

Record DayOption := mkDay { label : string; dateText : string; dayOfWeek : Z }.

(** A row of [location_pickup_schedules]. *)
Record Schedule := mkSchedule {
  location_id : string;
  day_of_week : Z;
  available_hours : option (list Slot)
}.

(** The calls the screen makes on the table; an update carries the list
    it writes. *)
Inductive Call :=
| FetchSchedule
| UpdateSchedule (hours : list Slot).

Record World := mkWorld {
  locationId : option string;
  selectedDate : DayOption;
  selectedSlot : option Slot;
  storage : AsyncStorage.t;
  schedules : list Schedule;
  calls : list Call;
  toasts : list Toast;
  navigated : list string
}.

(** What the handler takes from outside: whether a request fails, and the
    two texts it composes with [Date] and [Number] (the ISO instant of the
    slot and its label). *)
Record Env := mkEnv {
  fetch_error : bool;
  update_error : bool;
  iso : DayOption -> Slot -> string;
  pickup_label : DayOption -> Slot -> string
}.

Definition add_toast (t : Toast) (w : World) : World :=
  mkWorld (locationId w) (selectedDate w) (selectedSlot w) (storage w) (schedules w)
    (calls w) (toasts w ++ [t]) (navigated w).

Definition add_call (c : Call) (w : World) : World :=
  mkWorld (locationId w) (selectedDate w) (selectedSlot w) (storage w) (schedules w)
    (calls w ++ [c]) (toasts w) (navigated w).

Definition set_schedules (s : list Schedule) (w : World) : World :=
  mkWorld (locationId w) (selectedDate w) (selectedSlot w) (storage w) s
    (calls w) (toasts w) (navigated w).

Definition set_storage (st : AsyncStorage.t) (w : World) : World :=
  mkWorld (locationId w) (selectedDate w) (selectedSlot w) st (schedules w)
    (calls w) (toasts w) (navigated w).

Definition navigate (r : string) (w : World) : World :=
  mkWorld (locationId w) (selectedDate w) (selectedSlot w) (storage w) (schedules w)
    (calls w) (toasts w) (navigated w ++ [r]).

(** [.eq("location_id", locationId).eq("day_of_week", selectedDate.dayOfWeek)] *)
Definition selects (w : World) (r : Schedule) : bool :=
  match locationId w with
  | Some l => String.eqb (location_id r) l && (day_of_week r =? dayOfWeek (selectedDate w))%Z
  | None => false
  end.

(** The result of [.maybeSingle()]: an error, no row, or the row. *)
Inductive Fetched := FetchError | NoRow | Row (r : Schedule).

Definition fetch (env : Env) (w : World) : Fetched :=
  if fetch_error env then FetchError
  else match List.filter (selects w) (schedules w) with
       | [] => NoRow
       | [r] => Row r
       | _ => FetchError
       end.

(** The function mapped over [available_hours]. *)
Definition reserve (selected : Slot) (s : Slot) : Slot :=
  match capacity s with
  | Some c => if String.eqb (time s) (time selected) && (0 <? c)%Z
              then mkSlot (time s) (Some (c - 1)%Z)
              else s
  | None => s
  end.

Definition write_back (w : World) (updated : list Slot) (r : Schedule) : Schedule :=
  if selects w r then mkSchedule (location_id r) (day_of_week r) (Some updated) else r.

Definition is_zero (c : option Z) : bool :=
  match c with
  | Some c => (c =? 0)%Z
  | None => false
  end.

Definition confirmSelection (env : Env) (w : World) : World * outcome :=
  match selectedSlot w with
  | None => (add_toast (toast error "Select a time slot") w, Returned)
  | Some slot =>
      if is_zero (capacity slot)
      then (add_toast (toast error "That slot is not available") w, Returned)
      else
        let w := add_call FetchSchedule w in
        match fetch env w with
        | FetchError | NoRow =>
            (add_toast (toast error "Could not update slot availability") w, Returned)
        | Row sched =>
            match available_hours sched with
            | None => (w, Threw)
            | Some hours =>
                let updated := List.map (reserve slot) hours in
                let w := add_call (UpdateSchedule updated) w in
                if update_error env
                then (add_toast (toast error "Failed to reserve spot.") w, Returned)
                else
                  let w := set_schedules (List.map (write_back w updated) (schedules w)) w in
                  let day := selectedDate w in
                  let w := set_storage (setItem "selectedPickupTime" (iso env day slot) (storage w)) w in
                  let w := set_storage
                             (setItem "selectedPickupLabel" (pickup_label env day slot) (storage w)) w in
                  let w := add_toast
                             (toast success ("Pickup time set: " +:+ pickup_label env day slot)) w in
                  (navigate "(tabs)/Cart" w, Returned)
            end
        end
  end.

End PickUpTime.

(** ** Barcode scanning *)

Module ScanBarcode.

(** The columns of [orders] the screen touches. *)
Record Order := mkOrder { id : string; order_number : string; status : string; barcode : string }.

Record Scanned := mkScanned { scanned_id : string; orderNumber : string; scanned_status : string }.

(** An alert and what its OK button does besides closing it. *)
Inductive Alert :=
| AlertResume (title message : string)
| AlertCloseModal (title message : string).

Inductive Call := SelectOrder (barcode : string) | UpdateStatus (id status : string).

(** How a request ends: with data, with an error object, or by throwing. *)
Inductive Fault := NoFault | ErrorResult | Throws.

Record State := mkState {
  isScanning : bool;
  modalVisible : bool;
  currentOrder : option Scanned;
  orders : list Order;
  calls : list Call;
  alerts : list Alert
}.

Definition add_alert (a : Alert) (s : State) : State :=
  mkState (isScanning s) (modalVisible s) (currentOrder s) (orders s) (calls s) (alerts s ++ [a]).

Definition add_call (c : Call) (s : State) : State :=
  mkState (isScanning s) (modalVisible s) (currentOrder s) (orders s) (calls s ++ [c]) (alerts s).

Definition setIsScanning (b : bool) (s : State) : State :=
  mkState b (modalVisible s) (currentOrder s) (orders s) (calls s) (alerts s).

Definition setModalVisible (b : bool) (s : State) : State :=
  mkState (isScanning s) b (currentOrder s) (orders s) (calls s) (alerts s).

Definition openModalForOrder (o : Scanned) (s : State) : State :=
  mkState (isScanning s) true (Some o) (orders s) (calls s) (alerts s).

Definition set_orders (l : list Order) (s : State) : State :=
  mkState (isScanning s) (modalVisible s) (currentOrder s) l (calls s) (alerts s).

(** [.eq("barcode", scannedValue).single()]: the row when exactly one
    matches, an error otherwise. *)
Definition single (scannedValue : string) (l : list Order) : option Order :=
  match List.filter (fun o => String.eqb (barcode o) scannedValue) l with
  | [o] => Some o
  | _ => None
  end.

(** [handleBarcodeScanned].  [isScanning] is the constant of the render
    that made the handler: the guard reads that captured value, not the
    state the setter has since changed, so the handler takes it as an
    argument of its own ([seen]). *)
Definition handleBarcodeScanned (seen : bool) (data : string) (f : Fault) (s : State) : State :=
  if negb seen || negb (JS.truthy data) then s
  else
    let s := setIsScanning false s in
    let s := add_call (SelectOrder data) s in
    match f with
    | Throws => add_alert (AlertResume "Error" "An unexpected error occurred.") s
    | ErrorResult => add_alert (AlertResume "Error" "Barcode not found or fetch failed.") s
    | NoFault =>
        match single data (orders s) with
        | None => add_alert (AlertResume "Error" "Barcode not found or fetch failed.") s
        | Some o => openModalForOrder (mkScanned (id o) (order_number o) (status o)) s
        end
    end.

Definition complete (i : string) (o : Order) : Order :=
  if String.eqb (id o) i then mkOrder (id o) (order_number o) "Completed" (barcode o) else o.

Definition markCompleted (f : Fault) (s : State) : State :=
  match currentOrder s with
  | None => s
  | Some cur =>
      let s := add_call (UpdateStatus (scanned_id cur) "Completed") s in
      match f with
      | Throws => add_alert (AlertCloseModal "Error" "An unexpected error occurred.") s
      | ErrorResult => add_alert (AlertCloseModal "Error" "Failed to mark as completed.") s
      | NoFault =>
          let s := set_orders (List.map (complete (scanned_id cur)) (orders s)) s in
          add_alert (AlertCloseModal "Success" "Order status updated to Completed.") s
      end
  end.

(** The OK button of an alert. *)
Definition pressOK (a : Alert) (s : State) : State :=
  match a with
  | AlertResume _ _ => setIsScanning true s
  | AlertCloseModal _ _ => setIsScanning true (setModalVisible false s)
  end.

(** The Cancel button of the modal, and its [onRequestClose]. *)
Definition closeModal (s : State) : State := setIsScanning true (setModalVisible false s).

(** What can happen on the screen.  A scan comes with the [isScanning] its
    handler captured. *)
Inductive Event :=
| Scan (seen : bool) (data : string) (f : Fault)
| MarkCompleted (f : Fault)
| PressOK (a : Alert)
| CloseModal.

Definition step (e : Event) (s : State) : State :=
  match e with
  | Scan seen data f => handleBarcodeScanned seen data f s
  | MarkCompleted f => markCompleted f s
  | PressOK a => pressOK a s
  | CloseModal => closeModal s
  end.

End ScanBarcode.

(** ** The Cart screen *)

Module Order.
(** The columns of the row [placeOrder] inserts.  The amounts
    ([total_amount], [service_fee], [tax]) and [created_at] are floating
    point and clock values that no other statement reads; the row of the
    model leaves them out. *)
Record t := mk {
  id : string;
  user_id : string;
  location_id : option string;
  status : string;
  barcode : string;
  payment_id : string;
  pickup_time : string
}.
End Order.

Module OrderItem.
Record t := mk {
  order_id : string;
  product_id : string;
  quantity : Z;
  unit_price : JSON.number
}.
End OrderItem.

Module Cart.
Import AsyncStorage.

(** The requests of the screen, in the order they are issued. *)
Inductive Call :=
| AuthGetUser
| InsertOrder (row : Order.t)
| SelectProducts (ids : list string)
| InsertOrderItems (rows : list OrderItem.t).

Record World := mkWorld {
  cart : list CartItem.t;
  selectedPaymentId : option string;
  pickupTime : string;
  storage : AsyncStorage.t;
  orders : list Order.t;
  products : list Product.t;
  order_items : list OrderItem.t;
  calls : list Call;
  toasts : list Toast;
  navigated : list (string * string)
}.

(** What [placeOrder] takes from outside: the signed-in user, the id the
    database gives the new order, the [uuid.v4()] barcode, and which
    requests fail. *)
Record Env := mkEnv {
  user : option string;
  new_order_id : string;
  uuid_v4 : string;
  orders_insert_error : bool;
  products_select_error : bool;
  order_items_insert_error : bool
}.

Definition setCart (c : list CartItem.t) (w : World) : World :=
  mkWorld c (selectedPaymentId w) (pickupTime w) (storage w) (orders w) (products w)
    (order_items w) (calls w) (toasts w) (navigated w).

Definition set_storage (st : AsyncStorage.t) (w : World) : World :=
  mkWorld (cart w) (selectedPaymentId w) (pickupTime w) st (orders w) (products w)
    (order_items w) (calls w) (toasts w) (navigated w).

Definition set_orders (l : list Order.t) (w : World) : World :=
  mkWorld (cart w) (selectedPaymentId w) (pickupTime w) (storage w) l (products w)
    (order_items w) (calls w) (toasts w) (navigated w).

Definition set_order_items (l : list OrderItem.t) (w : World) : World :=
  mkWorld (cart w) (selectedPaymentId w) (pickupTime w) (storage w) (orders w) (products w)
    l (calls w) (toasts w) (navigated w).

Definition add_call (c : Call) (w : World) : World :=
  mkWorld (cart w) (selectedPaymentId w) (pickupTime w) (storage w) (orders w) (products w)
    (order_items w) (calls w ++ [c]) (toasts w) (navigated w).

Definition add_toast (t : Toast) (w : World) : World :=
  mkWorld (cart w) (selectedPaymentId w) (pickupTime w) (storage w) (orders w) (products w)
    (order_items w) (calls w) (toasts w ++ [t]) (navigated w).

Definition navigate (route param : string) (w : World) : World :=
  mkWorld (cart w) (selectedPaymentId w) (pickupTime w) (storage w) (orders w) (products w)
    (order_items w) (calls w) (toasts w) (navigated w ++ [(route, param)]).

(** [savedCartArray.length > 0] on the parsed value: an array has its
    length, a string too; any other value has none ([undefined > 0] is
    false). *)
Definition has_elements (v : JSON.value) : bool :=
  match v with
  | JSON.Array l => 0 <? length l
  | JSON.Str s => 0 <? String.length s
  | _ => false
  end.

(** [savedCartLocId && savedCartLocId !== currentLocId] *)
Definition differs (savedCartLocId currentLocId : option string) : bool :=
  match savedCartLocId with
  | Some saved =>
      JS.truthy saved &&
      match currentLocId with
      | Some cur => negb (String.eqb saved cur)
      | None => true
      end
  | None => false
  end.

(** The first effect of the screen: clear the cart if the location
    changed.  An exception is caught and logged; nothing else happens. *)
Definition clearIfLocationChanged (w : World) : World :=
  let sel := getItem "selectedLocation" (storage w) in
  match Location.currentLocId sel with
  | None => w
  | Some currentLocId =>
      let savedCartLocId := getItem "cartLocationId" (storage w) in
      let savedCartRaw := getItem "cart" (storage w) in
      match JS.if_truthy savedCartRaw JSON.parse (Some (JSON.Array [])) with
      | None => w
      | Some savedCartArray =>
          if has_elements savedCartArray && differs savedCartLocId currentLocId
          then
            let w := setCart [] w in
            let w := set_storage (removeItem "cart" (storage w)) w in
            add_toast (toast info "Location changed – cart was cleared.") w
          else w
      end
  end.

(** The second effect: load the cart from storage. *)
Definition loadCart (w : World) : World :=
  let saved := getItem "cart" (storage w) in
  match JS.if_truthy saved (fun s => Some (CartItem.parse s)) None with
  | Some (Some c) => setCart c w
  | _ => w
  end.

Definition persist (newCart : list CartItem.t) (w : World) : World * outcome :=
  let w := setCart newCart w in
  let w := set_storage (setItem "cart" (CartItem.stringify newCart) (storage w)) w in
  let sel := getItem "selectedLocation" (storage w) in
  match Location.currentLocId sel with
  | None => (w, Threw)
  | Some currentLocId =>
      match currentLocId with
      | Some loc =>
          if (0 <? length newCart) && JS.truthy loc
          then (set_storage (setItem "cartLocationId" loc (storage w)) w, Returned)
          else (set_storage (removeItem "cartLocationId" (storage w)) w, Returned)
      | None => (set_storage (removeItem "cartLocationId" (storage w)) w, Returned)
      end
  end.

Definition increment (id : string) (i : CartItem.t) : CartItem.t :=
  if String.eqb (CartItem.id i) id
  then CartItem.with_quantity (CartItem.quantity i + 1) i
  else i.

Definition decrement (id : string) (i : CartItem.t) : CartItem.t :=
  if String.eqb (CartItem.id i) id && (1 <? CartItem.quantity i)%Z
  then CartItem.with_quantity (CartItem.quantity i - 1) i
  else i.

Definition handleIncrement (id : string) (w : World) : World * outcome :=
  persist (List.map (increment id) (cart w)) w.

Definition handleDecrement (id : string) (w : World) : World * outcome :=
  persist (List.map (decrement id) (cart w)) w.

Definition handleDelete (id : string) (w : World) : World * outcome :=
  let updated := List.filter (fun i => negb (String.eqb (CartItem.id i) id)) (cart w) in
  match persist updated w with
  | (w, Returned) => (add_toast (toast success "Item removed from cart") w, Returned)
  | (w, Threw) => (w, Threw)
  end.

Definition handleClearCart (w : World) : World :=
  let w := setCart [] w in
  let w := set_storage (removeItem "cart" (storage w)) w in
  let w := set_storage (removeItem "cartLocationId" (storage w)) w in
  add_toast (toast success "Cart cleared") w.

(** [.from("products").select("id").in("id", cartIds)]: the rows whose id
    is one of [cartIds]; [None] when the request fails ([data] is null). *)
Definition validProducts (env : Env) (cartIds : list string) (w : World)
  : option (list Product.t) :=
  if products_select_error env then None
  else Some (List.filter (fun p => bool_decide (Product.id p ∈ cartIds)) (products w)).

Definition order_item (orderId : string) (i : CartItem.t) : OrderItem.t :=
  OrderItem.mk orderId (CartItem.id i) (CartItem.quantity i) (CartItem.price i).

Definition placeOrder (env : Env) (w : World) : World * outcome :=
  match selectedPaymentId w with
  | None => (add_toast (toast error "Please select a payment method.") w, Returned)
  | Some payment =>
      if negb (JS.truthy payment)
      then (add_toast (toast error "Please select a payment method.") w, Returned)
      else
      let w := add_call AuthGetUser w in
      let sel := getItem "selectedLocation" (storage w) in
      match Location.currentLocId sel with
      | None => (w, Threw)
      | Some locationId =>
          match user env with
          | None => (w, Threw)
          | Some uid =>
              let row := Order.mk (new_order_id env) uid locationId "Pending"
                           (uuid_v4 env) payment (pickupTime w) in
              let w := add_call (InsertOrder row) w in
              if orders_insert_error env
              then (add_toast (toast error "Failed to create order.") w, Returned)
              else
                let w := set_orders (orders w ++ [row]) w in
                let orderId := Order.id row in
                let cartIds := List.map CartItem.id (cart w) in
                let w := add_call (SelectProducts cartIds) w in
                let found := match validProducts env cartIds w with
                             | Some l => length l
                             | None => 0
                             end in
                if negb (found =? length (cart w))
                then (add_toast (toast error "Some items are no longer available.") w, Returned)
                else
                  let items := List.map (order_item orderId) (cart w) in
                  let w := add_call (InsertOrderItems items) w in
                  if order_items_insert_error env
                  then (add_toast (toast error "Failed to insert items.") w, Returned)
                  else
                    let w := set_order_items (order_items w ++ items) w in
                    let w := setCart [] w in
                    let w := set_storage (removeItem "cart" (storage w)) w in
                    let w := set_storage (removeItem "cartLocationId" (storage w)) w in
                    let w := add_toast (toast success "Order placed successfully!") w in
                    (navigate "OrderDetails" orderId w, Returned)
          end
      end
  end.

Definition handleCheckout (env : Env) (w : World) : World * outcome :=
  if length (cart w) =? 0
  then (add_toast (toast error "Your cart is empty.") w, Returned)
  else
    let w := add_call AuthGetUser w in
    match user env with
    | None => (add_toast (toast error "You must be logged in to place an order.") w, Returned)
    | Some _ =>
        let sel := getItem "selectedLocation" (storage w) in
        JS.if_truthy sel
          (fun _ => placeOrder env w)
          (add_toast (toast error "Please select a location before placing an order.") w,
           Returned)
    end.

(** The quantity buttons and the delete button of a line. *)
Inductive Edit :=
| Increment (id : string)
| Decrement (id : string)
| Delete (id : string).

Definition edit (e : Edit) (w : World) : World :=
  match e with
  | Increment id => fst (handleIncrement id w)
  | Decrement id => fst (handleDecrement id w)
  | Delete id => fst (handleDelete id w)
  end.

(** The cart after a sequence of edits. *)
Definition edits (l : list Edit) (w : World) : World := fold_left (fun w e => edit e w) l w.

End Cart.

(** ** The session cache of the backend client *)

Module SupabaseAuth.
Import AsyncStorage.

(** Modelled from the spec: the client library (supabase-js) is not among
    the sources.  [createClient] (src/auth/apple.ts, second document) gets
    [storage: AsyncStorage] and [persistSession: true], and the spec
    (section 6) names the local storage as the session cache.  The client
    keeps what it stores under keys that start with its storage key; with
    no [storageKey] option, as here, that is "sb-", the first label of the
    host of [SUPABASE_URL], and "-auth-token". *)
Definition storageKey : string := "sb-bwgkpymchviutppyooor-auth-token".

(** What a sign-in, a sign-up or a token refresh does to the storage: the
    client stores a value (the session) under one of its keys. *)
Definition setItem (suffix value : string) (st : AsyncStorage.t) : AsyncStorage.t :=
  AsyncStorage.setItem (storageKey +:+ suffix) value st.

(** What a sign-out does: the client removes one of its keys. *)
Definition removeItem (suffix : string) (st : AsyncStorage.t) : AsyncStorage.t :=
  AsyncStorage.removeItem (storageKey +:+ suffix) st.

End SupabaseAuth.

(** ** Every operation that writes the device storage *)

Module App.

(** The handlers of the screens that call [setItem] or [removeItem]; the
    product card by itself ([ProductCard_handleAddToCart], no callback) and
    as the EmployeeView screen mounts it ([EmployeeView_pressProductCard]);
    and the writes and removals of the backend client.  A token refresh
    that a request of a handler sets off is a client write of its own. *)
Inductive Action :=
| ProductDetails_handleAddToCart (product : Product.t) (quantity : Z)
| ProductCard_handleAddToCart (product : Product.t)
| EmployeeView_pressProductCard (prod : Product.t)
| FeatureScreen_handleAddToCart (product : Product.t)
| EmployeeView_handleAddToCart (p : Product.t)
| EmployeeHistory_handleAddToCart (p : Product.t)
| OrderDetails_reorderItems (orderData : option (list CartItem.t))
| SelectStore_pick (id : string)
| SelectLocation_handleUseCurrentLocation
| SelectLocation_handleConfirmLocation (selectedLocationId : option string)
    (locations : list Location.t)
| PickUpTime_confirmSelection (env : PickUpTime.Env) (w : PickUpTime.World)
| Cart_clearIfLocationChanged (w : Cart.World)
| Cart_edit (e : Cart.Edit) (w : Cart.World)
| Cart_handleClearCart (w : Cart.World)
| Cart_handleCheckout (env : Cart.Env) (w : Cart.World)
| Cart_placeOrder (env : Cart.Env) (w : Cart.World)
| SupabaseAuth_setItem (suffix value : string)
| SupabaseAuth_removeItem (suffix : string).

(** The storage after the action, started on the storage [st] (the storage
    field of a screen's world is replaced by [st]). *)
Definition storage_after (a : Action) (st : AsyncStorage.t) : AsyncStorage.t :=
  match a with
  | ProductDetails_handleAddToCart p q => fst (ProductDetails.handleAddToCart p q st)
  | ProductCard_handleAddToCart p => fst (ProductCard.handleAddToCart None p st)
  | EmployeeView_pressProductCard p => fst (EmployeeView.pressProductCard p st)
  | FeatureScreen_handleAddToCart p => fst (FeatureScreen.handleAddToCart p st)
  | EmployeeView_handleAddToCart p => EmployeeView.handleAddToCart p st
  | EmployeeHistory_handleAddToCart p => fst (EmployeeHistory.handleAddToCart p st)
  | OrderDetails_reorderItems d => fst (OrderDetails.reorderItems d st)
  | SelectStore_pick id => fst (SelectStore.pick id st)
  | SelectLocation_handleUseCurrentLocation => fst (SelectLocation.handleUseCurrentLocation st)
  | SelectLocation_handleConfirmLocation sel locs =>
      fst (SelectLocation.handleConfirmLocation sel locs st)
  | PickUpTime_confirmSelection env w =>
      PickUpTime.storage (fst (PickUpTime.confirmSelection env (PickUpTime.set_storage st w)))
  | Cart_clearIfLocationChanged w =>
      Cart.storage (Cart.clearIfLocationChanged (Cart.set_storage st w))
  | Cart_edit e w => Cart.storage (Cart.edit e (Cart.set_storage st w))
  | Cart_handleClearCart w => Cart.storage (Cart.handleClearCart (Cart.set_storage st w))
  | Cart_handleCheckout env w =>
      Cart.storage (fst (Cart.handleCheckout env (Cart.set_storage st w)))
  | Cart_placeOrder env w =>
      Cart.storage (fst (Cart.placeOrder env (Cart.set_storage st w)))
  | SupabaseAuth_setItem suffix value => SupabaseAuth.setItem suffix value st
  | SupabaseAuth_removeItem suffix => SupabaseAuth.removeItem suffix st
  end.

End App.

(** ** Vocabulary of the statements *)

Module Statements.

(** [cart'] is [cart] after adding [q] of product [p]: the first line of
    that product has its quantity raised by [q] and nothing else changes,
    or, when no line has that product, a new line is appended. *)
Definition added (p : Product.t) (q : Z) (cart cart' : list CartItem.t) : Prop :=
  (exists i it,
      cart !! i = Some it /\ CartItem.id it = Product.id p /\
      (forall j jt, j < i -> cart !! j = Some jt -> CartItem.id jt <> Product.id p) /\
      cart' = <[i := CartItem.mk (CartItem.id it) (CartItem.name it) (CartItem.price it)
                     (CartItem.quantity it + q)%Z]> cart /\
      length cart' = length cart)
  \/ ((forall it, it ∈ cart -> CartItem.id it <> Product.id p) /\
      cart' = cart ++ [CartItem.mk (Product.id p) (Product.name p) (Product.price p) q]).

(** Every line has a quantity of at least one. *)
Definition positive_quantities (cart : list CartItem.t) : Prop :=
  Forall (fun i => (1 <= CartItem.quantity i)%Z) cart.

(** A location is selected: the stored [selectedLocation] has a non-empty
    id. *)
Definition selected (currentLocId : option string) : Prop :=
  exists loc, currentLocId = Some loc /\ loc <> EmptyString.


(** The order shown in the modal of the scan screen is a row of the
    orders table. *)
Definition shown_is_row (s : ScanBarcode.State) : Prop :=
  forall cur, ScanBarcode.currentOrder s = Some cur ->
    exists o, o ∈ ScanBarcode.orders s /\ ScanBarcode.id o = ScanBarcode.scanned_id cur.

(** The statuses the Orders and OrderDetails screens know by name, apart
    from "Pending". *)
Definition named_statuses : list string :=
  ["Completed"; "Processing"; "Ready"; "AwaitingPickup"; "In Progress"; "Ready for Pickup"].

(** Every key a handler of the application writes. *)
Definition written_keys : list string :=
  cart_keys ++ selected_location_keys ++ pickup_keys ++ store_keys.

(** A key of the backend client's session cache: one that starts with its
    storage key. *)
Definition session_key (k : string) : Prop :=
  exists suffix, k = SupabaseAuth.storageKey +:+ suffix.

(** The lower-case words the Account screen knows, apart from "pending". *)
Definition lowered_statuses : list string :=
  ["completed"; "processing"; "ready"; "awaitingpickup"; "in progress"; "ready for pickup";
   "cancelled"].

Definition all_digits (d : list ascii) : Prop :=
  Forall (fun c => JSON.is_digit c = true) d.

(** Digits in groups of three, three and the rest, with hyphens between
    the groups. *)
Definition grouped (d : list ascii) : list ascii :=
  match d with
  | a :: b :: c :: e :: f :: g :: h :: t =>
      [a; b; c; "-"; e; f; g; "-"; h]%char ++ t
  | a :: b :: c :: e :: t => [a; b; c; "-"; e]%char ++ t
  | _ => d
  end.

End Statements.

(** ** Further functions of the screens *)

(** The quantity selector of ProductDetails. *)
Module QuantityStepper.

Inductive Action := increase | decrease.

(** [handleQuantityChange], as the function passed to [setQuantity]. *)
Definition handleQuantityChange (action : Action) (q : Z) : Z :=
  match action with
  | increase => (q + 1)%Z
  | decrease => Z.max 1 (q - 1)
  end.

(** The quantity after a sequence of presses. *)
Definition presses (l : list Action) (q : Z) : Z :=
  fold_left (fun q a => handleQuantityChange a q) l q.

End QuantityStepper.

(** The tabs of the Orders screen. *)
Module OrderTabs.

(** The fields of [OrderType] the tabs and the style read. *)
Record OrderType := mkOrder { id : string; order_number : string; status : string }.

Inductive Tab := all | active | past.

(** [Array.prototype.includes] on strings. *)
Definition includes (l : list string) (s : string) : bool := existsb (String.eqb s) l.

Definition filterOrders (orders : list OrderType) (tab : Tab) : list OrderType :=
  match tab with
  | all => orders
  | active =>
      List.filter
        (fun o => includes ["Ready"; "In Progress"; "Ready for Pickup"; "Pending"] (status o))
        orders
  | past =>
      List.filter
        (fun o => includes ["Failed"; "Completed"; "Refunded"; "Cancelled"] (status o))
        orders
  end.

End OrderTabs.

(** The form of EditProfile. *)
Module ProfileForm.

(** A row of [profiles]; a column may be null. *)
Record UserData := mkUser {
  id : string;
  first_name : option string;
  last_name : option string;
  email : option string;
  phone_number : option string
}.

Record FormData := mkForm {
  firstName : string;
  lastName : string;
  form_email : string;
  phone : string
}.

(** [x || ""] *)
Definition or_empty (x : option string) : string := JS.if_truthy x (fun s => s) EmptyString.

(** The form [fetchUserInfo] fills from the fetched row. *)
Definition fetched (data : UserData) : FormData :=
  mkForm (or_empty (first_name data)) (or_empty (last_name data)) (or_empty (email data))
    (EditProfile.formatPhoneNumber (or_empty (phone_number data))).

(** [handleChange], called with the name of one of the four fields. *)
Definition handleChange (name value : string) (prev : FormData) : FormData :=
  if String.eqb name "phone"
  then mkForm (firstName prev) (lastName prev) (form_email prev)
         (EditProfile.formatPhoneNumber value)
  else if String.eqb name "firstName"
  then mkForm value (lastName prev) (form_email prev) (phone prev)
  else if String.eqb name "lastName"
  then mkForm (firstName prev) value (form_email prev) (phone prev)
  else if String.eqb name "email"
  then mkForm (firstName prev) (lastName prev) value (phone prev)
  else prev.

(** [phone.replace(/-/g, "")] *)
Definition strip_hyphens (s : string) : string :=
  string_of_list_ascii
    (List.filter (fun c => negb (Ascii.eqb c "-")) (list_ascii_of_string s)).

(** [s !== x] for a string [s] and a column [x]: null differs from every
    string. *)
Definition differs (s : string) (x : option string) : bool :=
  match x with
  | Some y => negb (String.eqb s y)
  | None => true
  end.

(** The request and what fails, and [String.prototype.trim], which the
    model takes as it is given. *)
Record Env := mkEnv { trim : string -> string; update_error : bool }.

(** The [changes] object of [handleSubmit]: the columns in the order they
    are set. *)
Definition changes (env : Env) (formData : FormData) (userData : UserData)
  : list (string * string) :=
  let fn := trim env (firstName formData) in
  let ln := trim env (lastName formData) in
  let em := trim env (form_email formData) in
  let ph := strip_hyphens (phone formData) in
  (if differs fn (first_name userData) then [("first_name", fn)] else [])
  ++ (if differs ln (last_name userData) then [("last_name", ln)] else [])
  ++ (if differs em (email userData) then [("email", em)] else [])
  ++ (if negb (String.eqb ph (or_empty (phone_number userData)))
      then [("phone_number", ph)] else []).

(** [{ ...userData, [column]: value }] *)
Definition set_column (u : UserData) (c : string * string) : UserData :=
  let (column, value) := c in
  if String.eqb column "first_name"
  then mkUser (id u) (Some value) (last_name u) (email u) (phone_number u)
  else if String.eqb column "last_name"
  then mkUser (id u) (first_name u) (Some value) (email u) (phone_number u)
  else if String.eqb column "email"
  then mkUser (id u) (first_name u) (last_name u) (Some value) (phone_number u)
  else if String.eqb column "phone_number"
  then mkUser (id u) (first_name u) (last_name u) (email u) (Some value)
  else u.

(** An update of [profiles]: the row id and the columns written. *)
Inductive Call := UpdateProfile (id : string) (columns : list (string * string)).

Record World := mkWorld {
  userData : option UserData;
  formData : FormData;
  calls : list Call;
  toasts : list Toast
}.

Definition add_toast (t : Toast) (w : World) : World :=
  mkWorld (userData w) (formData w) (calls w) (toasts w ++ [t]).

Definition handleSubmit (env : Env) (w : World) : World :=
  match userData w with
  | None => add_toast (toast error "User ID missing.") w
  | Some u =>
      if negb (JS.truthy (id u))
      then add_toast (toast error "User ID missing.") w
      else
        let ch := changes env (formData w) u in
        if length ch =? 0
        then add_toast (toast info "No changes detected.") w
        else
          let w := mkWorld (userData w) (formData w)
                     (calls w ++ [UpdateProfile (id u) ch]) (toasts w) in
          if update_error env
          then add_toast (toast error "Update failed.") w
          else
            let w := add_toast (toast success "Profile updated!") w in
            mkWorld (Some (fold_left set_column ch u)) (formData w) (calls w) (toasts w)
  end.

End ProfileForm.

(** The toast hook (hooks/use-toast.tsx), without its timers. *)
Module UseToast.

(** The module-level handler is registered or null; the queue holds the
    toasts requested meanwhile; [current] is the toast on screen. *)
Record State := mkState {
  globalHandler : bool;
  toastQueue : list Toast;
  current : option Toast
}.

(** [handler]: the toast replaces the one on screen. *)
Definition handler (opts : Toast) (s : State) : State :=
  mkState (globalHandler s) (toastQueue s) (Some opts).

(** [Toast.show] *)
Definition show (opts : Toast) (s : State) : State :=
  if globalHandler s then handler opts s
  else mkState (globalHandler s) (toastQueue s ++ [opts]) (current s).

(** The effect of [useToast]: register the handler, hand it the queued
    toasts in order, empty the queue. *)
Definition mount (s : State) : State :=
  let s := mkState true (toastQueue s) (current s) in
  let s := fold_left (fun s t => handler t s) (toastQueue s) s in
  mkState (globalHandler s) [] (current s).

(** The cleanup of the effect. *)
Definition unmount (s : State) : State := mkState false (toastQueue s) (current s).

(** The end of the fade-out: [setCurrent(null)]. *)
Definition hide (s : State) : State := mkState (globalHandler s) (toastQueue s) None.

Inductive Event := Show (opts : Toast) | Mount | Unmount | Hide.

Definition step (e : Event) (s : State) : State :=
  match e with
  | Show opts => show opts s
  | Mount => mount s
  | Unmount => unmount s
  | Hide => hide s
  end.

Definition run (l : list Event) (s : State) : State := fold_left (fun s e => step e s) l s.

(** The module as it is loaded. *)
Definition initial : State := mkState false [] None.

End UseToast.

(** Product images (the feature screen). *)
Module ImageData.

Record Image := mkImage { url : string; is_primary : bool }.

Definition to_json (i : Image) : JSON.value :=
  JSON.Object [("url", JSON.Str (url i)); ("is_primary", JSON.Bool (is_primary i))].

Definition of_json (v : JSON.value) : option Image :=
  match v with
  | JSON.Object l =>
      match JSON.prop "url" l, JSON.prop "is_primary" l with
      | Some (JSON.Str u), Some (JSON.Bool b) => Some (mkImage u b)
      | _, _ => None
      end
  | _ => None
  end.

(** The [image_data] column as it reaches the screen: null, the list of
    images, or a text. *)
Inductive Raw := Missing | Images (l : list Image) | Text (s : string).

(** [JSON.stringify] of a list of images. *)
Definition stringify (l : list Image) : string :=
  JSON.stringify (JSON.Array (List.map to_json l)).

(** [normalizeImages].  The model covers a missing value, a list of images
    and a text that is the JSON of a list of images; for any other text
    the result depends on the parsed value (or on the [catch]), which the
    model leaves out: [None]. *)
Definition normalizeImages (raw : Raw) : option (list Image) :=
  match raw with
  | Missing => Some []
  | Images l => Some l
  | Text s =>
      if JS.truthy s then
        match JSON.parse s with
        | Some (JSON.Array l) => mapM of_json l
        | _ => None
        end
      else Some []
  end.

Definition placeholder : string := "https://via.placeholder.com/150".

(** [getImageUrl], where [normalizeImages] is covered. *)
Definition getImageUrl (raw : Raw) : option string :=
  match normalizeImages raw with
  | None => None
  | Some imgs =>
      match imgs with
      | [] => Some placeholder
      | first :: _ =>
          match List.find is_primary imgs with
          | Some prim => Some (url prim)
          | None => Some (url first)
          end
      end
  end.

End ImageData.

(** The 12-hour clock of the pickup labels (PickUpTime). *)
Module PickupLabel.

(** [(h % 12) || 12] *)
Definition hour12 (h : Z) : Z :=
  let r := Z.rem h 12 in if (r =? 0)%Z then 12%Z else r.

(** [h >= 12 ? 'PM' : 'AM'] *)
Definition meridiem (h : Z) : string := if (12 <=? h)%Z then "PM" else "AM".

(** [text.padStart(2, '0')] *)
Definition padStart2 (text : string) : string :=
  match String.length text with
  | 0 => "00"
  | 1 => "0" +:+ text
  | _ => text
  end.

(** [`${(h % 12) || 12}:${m.toString().padStart(2, '0')} ${h >= 12 ? 'PM' : 'AM'}`] *)
Definition clock (h m : Z) : string :=
  JSON.print_number (JSON.of_Z (hour12 h)) +:+ ":"
  +:+ padStart2 (JSON.print_number (JSON.of_Z m)) +:+ " " +:+ meridiem h.

Definition start_label (h m : Z) : string := clock h m.
Definition end_label (h m : Z) : string := clock (h + 1) m.

(** [`${selectedDate.label}, ${start} - ${end}`] *)
Definition label (day : string) (h m : Z) : string :=
  day +:+ ", " +:+ start_label h m +:+ " - " +:+ end_label h m.

End PickupLabel.

(** ** The step shared by the add handlers *)

Module CartLines.

(** Raise the first line of product [pid] with [g], or append the line
    [new] when the cart has none: the body every [handleAddToCart] and
    [reorder_one] runs after [findIndex]. *)
Definition merge (pid : string) (g : CartItem.t -> CartItem.t) (new : CartItem.t)
    (cart : list CartItem.t) : list CartItem.t :=
  let idx := JS.findIndex (fun it => String.eqb (CartItem.id it) pid) cart in
  if (0 <=? idx)%Z then alter g (Z.to_nat idx) cart else cart ++ [new].

(** The cart after adding [q] of product [p]. *)
Definition add_one (p : Product.t) (q : Z) (cart : list CartItem.t) : list CartItem.t :=
  merge (Product.id p) (CartItem.add_quantity q) (CartItem.of_product p q) cart.

End CartLines.

(** ** Vocabulary of the further statements *)

Module Statements2.

(** No two lines of the cart have the same product. *)
Definition unique_lines (cart : list CartItem.t) : Prop :=
  NoDup (List.map CartItem.id cart).

(** The units of product [id] in the cart. *)
Definition units (id : string) (cart : list CartItem.t) : Z :=
  fold_right (fun i acc => if String.eqb (CartItem.id i) id
                           then (CartItem.quantity i + acc)%Z else acc) 0%Z cart.

(** Every product of the cart is a row of the products table. *)
Definition all_available (w : Cart.World) : Prop :=
  forall i, i ∈ Cart.cart w -> CartItem.id i ∈ List.map Product.id (Cart.products w).

(** The text is a run of at most ten digits. *)
Definition plain_phone (s : string) : Prop :=
  Statements.all_digits (list_ascii_of_string s) /\ String.length s <= 10.

(** No capacity of the list is negative. *)
Definition capacities_not_negative (hours : list PickUpTime.Slot) : Prop :=
  Forall (fun s => forall c, PickUpTime.capacity s = Some c -> (0 <= c)%Z) hours.

(** The places left in the slots that have a number. *)
Definition places (hours : list PickUpTime.Slot) : Z :=
  fold_right (fun s acc => match PickUpTime.capacity s with
                           | Some c => (c + acc)%Z
                           | None => acc
                           end) 0%Z hours.

(** The action is a quantity or delete button of the Cart screen. *)
Definition cart_edit (a : App.Action) : bool :=
  match a with
  | App.Cart_edit _ _ => true
  | _ => false
  end.

(** The storage after a sequence of actions. *)
Definition storage_after_all (l : list App.Action) (st : AsyncStorage.t) : AsyncStorage.t :=
  fold_left (fun st a => App.storage_after a st) l st.

(** The action adds to the stored cart from a catalog screen, or reorders
    a past order. *)
Definition catalog_add (a : App.Action) : bool :=
  match a with
  | App.ProductDetails_handleAddToCart _ _
  | App.ProductCard_handleAddToCart _
  | App.EmployeeView_pressProductCard _
  | App.FeatureScreen_handleAddToCart _
  | App.EmployeeView_handleAddToCart _
  | App.EmployeeHistory_handleAddToCart _
  | App.OrderDetails_reorderItems _ => true
  | _ => false
  end.

(** The slot has the time of the selected one and a positive number of
    places: the slots a reservation lowers. *)
Definition bookable (selected s : PickUpTime.Slot) : bool :=
  String.eqb (PickUpTime.time s) (PickUpTime.time selected)
  && match PickUpTime.capacity s with
     | Some c => (0 <? c)%Z
     | None => false
     end.

(** A column of the profile that trimming leaves as it is. *)
Definition kept_by_trim (trim : string -> string) (x : option string) : Prop :=
  exists s, x = Some s /\ trim s = s.

(** The fetched profile has nothing for a save to change. *)
Definition settled (env : ProfileForm.Env) (u : ProfileForm.UserData) : Prop :=
  kept_by_trim (ProfileForm.trim env) (ProfileForm.first_name u) /\
  kept_by_trim (ProfileForm.trim env) (ProfileForm.last_name u) /\
  kept_by_trim (ProfileForm.trim env) (ProfileForm.email u) /\
  plain_phone (ProfileForm.or_empty (ProfileForm.phone_number u)).

End Statements2.

(** * Proofs *)

#[local] Arguments String.append !_ _ / : simpl nomatch.

Module JSONFacts.
Import JSON JSONFuel.

Lemma append_assoc (a b c : string) : (a +:+ b) +:+ c = a +:+ (b +:+ c).
Proof. induction a as [ | x a IH ]; simpl; [ reflexivity | now rewrite IH ]. Qed.

Lemma append_cons c (a b : string) : String c a +:+ b = String c (a +:+ b).
Proof. reflexivity. Qed.

Lemma append_nil (b : string) : "" +:+ b = b.
Proof. reflexivity. Qed.

Lemma length_append (a b : string) :
  String.length (a +:+ b) = String.length a + String.length b.
Proof. induction a as [ | x a IH ]; simpl; [ reflexivity | now rewrite IH ]. Qed.

Lemma value_ind' (P : value -> Prop) :
  P Null -> (forall b, P (Bool b)) -> (forall n, P (Number n)) -> (forall s, P (Str s)) ->
  (forall l, Forall P l -> P (Array l)) ->
  (forall l, Forall (fun kv => P (snd kv)) l -> P (Object l)) ->
  forall v, P v.
Proof.
  intros HN HB HZ HS HA HO.
  fix IH 1. intros [ | b | n | s | l | l ].
  - exact HN.
  - apply HB.
  - apply HZ.
  - apply HS.
  - apply HA. induction l as [ | x l IHl ]; constructor; [ apply IH | exact IHl ].
  - apply HO. induction l as [ | [k x] l IHl ]; constructor; [ apply IH | exact IHl ].
Qed.

Lemma parse_chars_escape_char c t :
  parse_chars (escape_char c +:+ t) = cons_char c (parse_chars t).
Proof. destruct c as [[] [] [] [] [] [] [] []]; reflexivity. Qed.

Lemma parse_chars_escape s rest :
  parse_chars (escape s +:+ String dquote rest) = Some (s, rest).
Proof.
  induction s as [ | c s IH ]; [ reflexivity | ].
  change (escape (String c s)) with (escape_char c +:+ escape s).
  now rewrite append_assoc, parse_chars_escape_char, IH.
Qed.

Lemma follows_not_digit rest :
  follows rest = true ->
  span_digits rest = ("", rest) /\ number_end rest = true /\
  parse_fraction rest = Some (Decimal.Nil, rest).
Proof.
  destruct rest as [ | c r ]; [ now repeat split | ].
  unfold follows. intros H.
  destruct (Ascii.eqb_spec c ",") as [-> | _]; [ now repeat split | ].
  destruct (Ascii.eqb_spec c "]") as [-> | _]; [ now repeat split | ].
  destruct (Ascii.eqb_spec c "}") as [-> | _]; [ now repeat split | discriminate ].
Qed.

Lemma span_digits_uint (d : Decimal.uint) rest :
  span_digits rest = ("", rest) ->
  span_digits (NilEmpty.string_of_uint d +:+ rest) = (NilEmpty.string_of_uint d, rest).
Proof.
  intros Hr. induction d; simpl; try exact Hr;
    change (is_digit _) with true; cbv iota; now rewrite IHd.
Qed.

Lemma to_uint_no_leading_zero p d : Pos.to_uint p <> Decimal.D0 d.
Proof.
  intros E.
  pose proof (Unsigned.to_of (Pos.to_uint p)) as H.
  rewrite Unsigned.of_to in H. simpl in H.
  destruct (Decimal.nzhead (Pos.to_uint p)) eqn:Hz;
    [ apply (Unsigned.to_uint_nonzero p); rewrite H;
      unfold Decimal.unorm; now rewrite Hz
    | exact (nzhead_nonzero _ _ Hz)
    | rewrite unorm_nzhead in H by (rewrite Hz; discriminate);
      rewrite Hz in H; rewrite E in H; discriminate H .. ].
Qed.

Lemma digits_value_N n :
  digits_value (NilEmpty.string_of_uint (N.to_uint n)) = Some n.
Proof.
  destruct n as [ | p ]; [ reflexivity | ]. cbn [N.to_uint].
  unfold digits_value.
  destruct (NilEmpty.string_of_uint (Pos.to_uint p)) as [ | c s ] eqn:E.
  - destruct (Pos.to_uint p) eqn:Ep; try discriminate E.
    now destruct (Unsigned.to_uint_nonnil p).
  - assert (Hc : Ascii.eqb c "0" && negb (String.eqb s "") = false).
    { destruct (Pos.to_uint p) as [ | u | u | u | u | u | u | u | u | u | u ] eqn:Ep;
        simpl in E; inversion E; subst; try reflexivity.
      now destruct (to_uint_no_leading_zero p u). }
    rewrite Hc, <- E, NilEmpty.usu. f_equal.
    apply Unsigned.of_to.
Qed.

Lemma to_uint_head n rest :
  exists c s', NilEmpty.string_of_uint (N.to_uint n) +:+ rest = String c s' /\
               is_digit c = true.
Proof.
  destruct n as [ | p ]; [ now eexists _, _ | ]. cbn [N.to_uint].
  destruct (Pos.to_uint p) eqn:E;
    [ now destruct (Unsigned.to_uint_nonnil p) | now eexists _, _ .. ].
Qed.

Lemma parse_fraction_print f rest :
  follows rest = true ->
  span_digits (print_fraction f +:+ rest) = ("", print_fraction f +:+ rest) /\
  parse_fraction (print_fraction f +:+ rest) = Some (f, rest).
Proof.
  intros Hf. destruct (follows_not_digit rest Hf) as (Hs & _ & Hp).
  assert (Hpoint : forall u, u <> Decimal.Nil ->
            print_fraction u = String "." (NilEmpty.string_of_uint u)).
  { intros u Hu. now destruct u. }
  destruct (Decimal.uint_eq_dec f Decimal.Nil) as [-> | Hne]; [ now split | ].
  rewrite (Hpoint f Hne), append_cons. split; [ reflexivity | ].
  unfold parse_fraction. change (Ascii.eqb "." ".") with true. cbv iota.
  rewrite (span_digits_uint f rest Hs), NilEmpty.usu.
  now destruct f.
Qed.

Lemma parse_number_print n rest :
  follows rest = true ->
  parse_number (print_number n +:+ rest) = Some (Number n, rest).
Proof.
  intros Hf. destruct (follows_not_digit rest Hf) as (_ & He & _).
  destruct (parse_fraction_print (fraction n) rest Hf) as [Hspan Hfrac].
  destruct n as [neg int frac]. cbn [negative integer fraction] in *.
  unfold parse_number, print_number. cbn [negative integer fraction].
  set (I := NilEmpty.string_of_uint (N.to_uint int)).
  set (T := print_fraction frac +:+ rest) in *.
  assert (Hbody : span_digits (I +:+ T) = (I, T)) by now apply span_digits_uint.
  destruct neg.
  - rewrite append_cons, append_assoc. fold T.
    change (Ascii.eqb "-" "-") with true. cbv iota.
    rewrite Hbody. unfold I. rewrite digits_value_N, Hfrac, He. reflexivity.
  - rewrite append_assoc. fold T.
    destruct (to_uint_head int T) as (c & s' & E & Hc). fold I in E.
    assert (Hh : match I +:+ T with
                 | String c s' => if Ascii.eqb c "-" then (true, s') else (false, I +:+ T)
                 | EmptyString => (false, I +:+ T)
                 end = (false, I +:+ T)).
    { rewrite E. destruct (Ascii.eqb_spec c "-") as [-> | _]; [ discriminate Hc | ].
      now rewrite <- E. }
    rewrite Hh, Hbody. unfold I. rewrite digits_value_N, Hfrac, He. reflexivity.
Qed.

Lemma print_number_head n rest :
  exists c s', print_number n +:+ rest = String c s' /\ number_head c.
Proof.
  unfold print_number. destruct (negative n).
  - eexists _, _. split; [ reflexivity | now right ].
  - rewrite append_assoc.
    destruct (to_uint_head (integer n) (print_fraction (fraction n) +:+ rest))
      as (c & s' & E & Hc).
    exists c, s'. split; [ exact E | now left ].
Qed.

Lemma parse_value_number fuel c s :
  number_head c -> parse_value (S fuel) (String c s) = parse_number (String c s).
Proof.
  intros [H | H]; destruct c as [[] [] [] [] [] [] [] []];
    cbv in H; try discriminate H; reflexivity.
Qed.

Lemma number_head_not_close c : number_head c -> c <> "]"%char /\ c <> "}"%char.
Proof.
  intros [H | ->]; [ | split; discriminate ].
  split; intros ->; discriminate H.
Qed.

Lemma parse_value_S fuel c rest :
  parse_value (S fuel) (String c rest) =
  if Ascii.eqb c "n" then keyword "ull" Null rest
  else if Ascii.eqb c "t" then keyword "rue" (Bool true) rest
  else if Ascii.eqb c "f" then keyword "alse" (Bool false) rest
  else if Ascii.eqb c dquote then
    match parse_chars rest with
    | Some (str, rest') => Some (Str str, rest')
    | None => None
    end
  else if Ascii.eqb c "[" then
    match rest with
    | String c' rest' =>
        if Ascii.eqb c' "]" then Some (Array [], rest')
        else
          match parse_elements fuel rest with
          | Some (l, rest'') => Some (Array l, rest'')
          | None => None
          end
    | EmptyString => None
    end
  else if Ascii.eqb c "{" then
    match rest with
    | String c' rest' =>
        if Ascii.eqb c' "}" then Some (Object [], rest')
        else
          match parse_members fuel rest with
          | Some (l, rest'') => Some (Object l, rest'')
          | None => None
          end
    | EmptyString => None
    end
  else parse_number (String c rest).
Proof. reflexivity. Qed.

Lemma parse_elements_S fuel s :
  parse_elements (S fuel) s =
  match parse_value fuel s with
  | Some (v, String c rest) =>
      if Ascii.eqb c "]" then Some ([v], rest)
      else if Ascii.eqb c "," then
        match parse_elements fuel rest with
        | Some (l, rest') => Some (v :: l, rest')
        | None => None
        end
      else None
  | _ => None
  end.
Proof. reflexivity. Qed.

Lemma parse_members_S fuel q s1 :
  parse_members (S fuel) (String q s1) =
  if Ascii.eqb q dquote then
    match parse_chars s1 with
    | Some (k, String colon s2) =>
        if Ascii.eqb colon ":" then
          match parse_value fuel s2 with
          | Some (v, String c rest) =>
              if Ascii.eqb c "}" then Some ([(k, v)], rest)
              else if Ascii.eqb c "," then
                match parse_members fuel rest with
                | Some (l, rest') => Some ((k, v) :: l, rest')
                | None => None
                end
              else None
          | _ => None
          end
        else None
    | _ => None
    end
  else None.
Proof. reflexivity. Qed.

(** The text of a value never starts with a closing bracket. *)
Lemma stringify_head v rest :
  exists c s', stringify v +:+ rest = String c s' /\ c <> "]"%char /\ c <> "}"%char.
Proof.
  destruct v as [ | [] | n | s | l | l ];
    try (eexists _, _; split; [ reflexivity | split; discriminate ]).
  destruct (print_number_head n rest) as (c & s' & E & Hc).
  exists c, s'. split; [ exact E | now apply number_head_not_close ].
Qed.

Lemma parse_elements_stringify l :
  Forall reads_back l -> l <> [] ->
  forall fuel rest,
    fold_right (fun x acc => S (need x + acc)) 0 l <= fuel ->
    parse_elements fuel (commas (List.map stringify l) +:+ String "]" rest) = Some (l, rest).
Proof.
  induction 1 as [ | x l Hx Hl IH ]; [ congruence | intros _ fuel rest Hfuel ].
  simpl in Hfuel. destruct fuel as [ | fuel ]; [ lia | ].
  rewrite parse_elements_S.
  destruct l as [ | y l ].
  - simpl. rewrite Hx by (simpl in *; lia || reflexivity). reflexivity.
  - change (commas (List.map stringify (x :: y :: l)))
      with (stringify x +:+ String "," (commas (List.map stringify (y :: l)))).
    rewrite append_assoc. simpl String.append.
    rewrite Hx by (simpl in *; lia || reflexivity).
    simpl Ascii.eqb. cbv iota.
    rewrite IH by (simpl in *; congruence || lia). reflexivity.
Qed.

Lemma parse_members_quote fuel k t :
  parse_members (S fuel) (quote k +:+ String ":" t) =
  match parse_value fuel t with
  | Some (v, String c rest) =>
      if Ascii.eqb c "}" then Some ([(k, v)], rest)
      else if Ascii.eqb c "," then
        match parse_members fuel rest with
        | Some (l, rest') => Some ((k, v) :: l, rest')
        | None => None
        end
      else None
  | _ => None
  end.
Proof.
  unfold quote. rewrite append_cons, parse_members_S.
  change (Ascii.eqb dquote dquote) with true. cbv iota.
  rewrite append_assoc, append_cons, append_nil, parse_chars_escape.
  reflexivity.
Qed.

Lemma parse_members_stringify (l : list (string * value)) :
  Forall (fun kv => reads_back (snd kv)) l -> l <> [] ->
  forall fuel rest,
    fold_right (fun kv acc => S (need (snd kv) + acc)) 0 l <= fuel ->
    parse_members fuel
      (commas (List.map (fun kv => quote (fst kv) +:+ String ":" (stringify (snd kv))) l)
       +:+ String "}" rest) = Some (l, rest).
Proof.
  induction 1 as [ | [k x] l Hx Hl IH ]; [ congruence | intros _ fuel rest Hfuel ].
  simpl in Hfuel, Hx. destruct fuel as [ | fuel ]; [ lia | ].
  set (f := fun kv : string * value => quote (fst kv) +:+ String ":" (stringify (snd kv))) in *.
  destruct l as [ | y l ].
  - change (commas (List.map f [(k, x)])) with (quote k +:+ String ":" (stringify x)).
    rewrite append_assoc, append_cons, parse_members_quote.
    rewrite Hx by (lia || reflexivity). reflexivity.
  - change (commas (List.map f ((k, x) :: y :: l)))
      with ((quote k +:+ String ":" (stringify x)) +:+ String "," (commas (List.map f (y :: l)))).
    rewrite !append_assoc, !append_cons, parse_members_quote.
    rewrite Hx by (lia || reflexivity).
    change (Ascii.eqb "," "}") with false. change (Ascii.eqb "," ",") with true. cbv iota.
    rewrite IH by (simpl in *; congruence || lia). reflexivity.
Qed.

Lemma parse_value_array fuel t c s' :
  t = String c s' -> c <> "]"%char ->
  parse_value (S fuel) (String "[" t) =
  match parse_elements fuel t with
  | Some (l, rest) => Some (Array l, rest)
  | None => None
  end.
Proof.
  intros -> Hc. rewrite parse_value_S.
  change (Ascii.eqb "[" "n") with false. change (Ascii.eqb "[" "t") with false.
  change (Ascii.eqb "[" "f") with false. change (Ascii.eqb "[" dquote) with false.
  change (Ascii.eqb "[" "[") with true. cbv iota.
  destruct (Ascii.eqb_spec c "]"); [ contradiction | reflexivity ].
Qed.

Lemma parse_value_object fuel t c s' :
  t = String c s' -> c <> "}"%char ->
  parse_value (S fuel) (String "{" t) =
  match parse_members fuel t with
  | Some (l, rest) => Some (Object l, rest)
  | None => None
  end.
Proof.
  intros -> Hc. rewrite parse_value_S.
  change (Ascii.eqb "{" "n") with false. change (Ascii.eqb "{" "t") with false.
  change (Ascii.eqb "{" "f") with false. change (Ascii.eqb "{" dquote) with false.
  change (Ascii.eqb "{" "[") with false. change (Ascii.eqb "{" "{") with true.
  cbv iota.
  destruct (Ascii.eqb_spec c "}"); [ contradiction | reflexivity ].
Qed.

Lemma commas_head (x : string) (l : list string) t :
  exists t', commas (x :: l) +:+ t = x +:+ t'.
Proof.
  destruct l as [ | y l ].
  - now exists t.
  - exists (String "," (commas (y :: l)) +:+ t).
    change (commas (x :: y :: l)) with (x +:+ String "," (commas (y :: l))).
    now rewrite append_assoc.
Qed.

Lemma parse_value_stringify v : reads_back v.
Proof.
  induction v as [ | b | n | s | l IH | l IH ] using value_ind';
    intros fuel rest Hfuel Hrest;
    (destruct fuel as [ | fuel ]; [ simpl in Hfuel; lia | ]).
  - reflexivity.
  - destruct b; reflexivity.
  - change (stringify (Number n)) with (print_number n).
    destruct (print_number_head n rest) as (c & s' & E & Hc).
    rewrite E, (parse_value_number fuel c s' Hc), <- E.
    now apply parse_number_print.
  - change (stringify (Str s)) with (quote s). unfold quote.
    rewrite append_cons, parse_value_S.
    change (Ascii.eqb dquote "n") with false. change (Ascii.eqb dquote "t") with false.
    change (Ascii.eqb dquote "f") with false. change (Ascii.eqb dquote dquote) with true.
    cbv iota.
    now rewrite append_assoc, append_cons, append_nil, parse_chars_escape.
  - destruct l as [ | x l ]; [ reflexivity | ].
    change (stringify (Array (x :: l)))
      with (String "[" (commas (List.map stringify (x :: l)) +:+ "]")).
    rewrite append_cons, append_assoc, append_cons, append_nil.
    destruct (commas_head (stringify x) (List.map stringify l) (String "]" rest)) as [t' Et].
    destruct (stringify_head x t') as (c & s' & E & Hc & _).
    change (List.map stringify (x :: l)) with (stringify x :: List.map stringify l).
    rewrite (parse_value_array fuel _ c s' (eq_trans Et E) Hc).
    change (stringify x :: List.map stringify l) with (List.map stringify (x :: l)).
    rewrite parse_elements_stringify; [ reflexivity | exact IH | discriminate | ].
    simpl in Hfuel |- *. lia.
  - destruct l as [ | [k x] l ]; [ reflexivity | ].
    set (f := fun kv : string * value => quote (fst kv) +:+ String ":" (stringify (snd kv))).
    change (stringify (Object ((k, x) :: l)))
      with (String "{" (commas (List.map f ((k, x) :: l)) +:+ "}")).
    rewrite append_cons, append_assoc, append_cons, append_nil.
    destruct (commas_head (f (k, x)) (List.map f l) (String "}" rest)) as [t' Et].
    change (List.map f ((k, x) :: l)) with (f (k, x) :: List.map f l).
    assert (E : exists s', commas (f (k, x) :: List.map f l) +:+ String "}" rest
                           = String dquote s').
    { rewrite Et. unfold f at 1, quote. rewrite !append_cons. eexists; reflexivity. }
    destruct E as [s' E].
    rewrite (parse_value_object fuel _ dquote s' E) by discriminate.
    change (f (k, x) :: List.map f l) with (List.map f ((k, x) :: l)). unfold f.
    rewrite parse_members_stringify; [ reflexivity | exact IH | discriminate | ].
    simpl in Hfuel |- *. lia.
Qed.

Lemma need_le_length v : need v <= String.length (stringify v).
Proof.
  induction v as [ | b | n | s | l IH | l IH ] using value_ind'.
  - simpl. lia.
  - destruct b; simpl; lia.
  - destruct (print_number_head n "") as (c & s' & E & _).
    change (stringify (Number n)) with (print_number n).
    assert (E' : print_number n = String c s').
    { rewrite <- E. clear. induction (print_number n); simpl; congruence. }
    rewrite E'. simpl. lia.
  - simpl. lia.
  - change (stringify (Array l)) with (String "[" (commas (List.map stringify l) +:+ "]")).
    cbn [String.length need]. rewrite length_append.
    enough (fold_right (fun x acc => S (need x + acc)) 0 l
            <= String.length (commas (List.map stringify l)) + 1) by (simpl; lia).
    induction IH as [ | x l Hx Hl IHl ]; [ simpl; lia | ].
    destruct l as [ | y l ]; [ simpl; lia | ].
    change (commas (List.map stringify (x :: y :: l)))
      with (stringify x +:+ String "," (commas (List.map stringify (y :: l)))).
    rewrite length_append. cbn [fold_right String.length] in *. lia.
  - set (f := fun kv : string * value => quote (fst kv) +:+ String ":" (stringify (snd kv))).
    change (stringify (Object l)) with (String "{" (commas (List.map f l) +:+ "}")).
    cbn [String.length need]. rewrite length_append.
    enough (fold_right (fun kv acc => S (need (snd kv) + acc)) 0 l
            <= String.length (commas (List.map f l)) + 1) by (simpl; lia).
    induction IH as [ | [k x] l Hx Hl IHl ]; [ simpl; lia | ].
    assert (Hk : need x <= String.length (f (k, x))).
    { unfold f. rewrite length_append. simpl in *. lia. }
    destruct l as [ | y l ]; [ simpl in *; lia | ].
    change (commas (List.map f ((k, x) :: y :: l)))
      with (f (k, x) +:+ String "," (commas (List.map f (y :: l)))).
    rewrite length_append. cbn [fold_right String.length snd] in *. lia.
Qed.

(** JSON.parse inverts JSON.stringify. *)
Theorem parse_stringify v : parse (stringify v) = Some v.
Proof.
  unfold parse.
  pose proof (parse_value_stringify v (S (String.length (stringify v))) "") as H.
  replace (stringify v +:+ "") with (stringify v) in H
    by (clear; induction (stringify v); simpl; congruence).
  rewrite H; [ reflexivity | pose proof (need_le_length v); lia | reflexivity ].
Qed.

End JSONFacts.

(** ** Reading carts back from storage *)

Module CartFacts.
Import JSON JSONFacts AsyncStorage.

Lemma to_Z_of_Z z : JSON.to_Z (JSON.of_Z z) = Some z.
Proof.
  unfold JSON.to_Z, JSON.of_Z. cbn [JSON.fraction JSON.negative JSON.integer]. f_equal.
  destruct (Z.ltb_spec z 0); rewrite N2Z.inj_abs_N; lia.
Qed.

Lemma of_json_to_json i : CartItem.of_json (CartItem.to_json i) = Some i.
Proof.
  destruct i as [i n p q]. unfold CartItem.of_json, CartItem.to_json.
  cbn -[JSON.to_Z JSON.of_Z]. now rewrite to_Z_of_Z.
Qed.

Lemma list_of_json_to_json c : CartItem.list_of_json (CartItem.list_to_json c) = Some c.
Proof.
  unfold CartItem.list_of_json, CartItem.list_to_json.
  induction c as [ | i c IH ]; [ reflexivity | ].
  cbn [List.map mapM]. rewrite of_json_to_json. cbn. rewrite IH. reflexivity.
Qed.

Lemma parse_stringify_cart c : CartItem.parse (CartItem.stringify c) = Some c.
Proof.
  unfold CartItem.parse, CartItem.stringify.
  rewrite parse_stringify. apply list_of_json_to_json.
Qed.

Lemma stringify_truthy c : JS.truthy (CartItem.stringify c) = true.
Proof. reflexivity. Qed.

Lemma read_stored c d :
  JS.if_truthy (Some (CartItem.stringify c)) CartItem.parse d = Some c.
Proof. unfold JS.if_truthy. rewrite stringify_truthy. apply parse_stringify_cart. Qed.

Lemma alter_as_insert {A} (f : A -> A) (l : list A) i x :
  l !! i = Some x -> alter f i l = <[i := f x]> l.
Proof.
  revert i. induction l as [ | y l IH ]; intros [ | i ] H; simplify_eq/=; try done.
  f_equal. now apply IH.
Qed.

Lemma findIndex_from_spec {A} (f : A -> bool) (l : list A) (k : Z) :
  (0 <= k)%Z ->
  (Forall (fun x => f x = false) l /\ JS.findIndex_from f l k = (-1)%Z)
  \/ (exists n x, l !! n = Some x /\ f x = true /\
                 (forall j y, j < n -> l !! j = Some y -> f y = false) /\
                 JS.findIndex_from f l k = (k + Z.of_nat n)%Z).
Proof.
  revert k. induction l as [ | x l IH ]; intros k Hk; [ left; split; [ constructor | reflexivity ] | ].
  cbn [JS.findIndex_from]. destruct (f x) eqn:Hx.
  - right. exists 0, x. repeat split; [ exact Hx | intros; lia | lia ].
  - destruct (IH (k + 1)%Z ltac:(lia)) as [[Hall E] | (n & y & Hn & Hy & Hlt & E)].
    + left. split; [ constructor; assumption | exact E ].
    + right. exists (S n), y. repeat split; [ exact Hn | exact Hy | | lia ].
      intros [ | j ] z Hj Hz; simplify_eq/=; [ exact Hx | ].
      apply (Hlt j); [ lia | exact Hz ].
Qed.

(** What the three add-to-cart handlers compute on the parsed cart. *)
Lemma add_line_added (p : Product.t) (q : Z) (cart : list CartItem.t) :
  let idx := JS.findIndex (fun it => String.eqb (CartItem.id it) (Product.id p)) cart in
  ((0 <=? idx)%Z = negb (idx =? -1)%Z) /\
  Statements.added p q cart
    (if (0 <=? idx)%Z
     then alter (CartItem.add_quantity q) (Z.to_nat idx) cart
     else cart ++ [CartItem.of_product p q]).
Proof.
  intros idx. subst idx. unfold JS.findIndex.
  destruct (findIndex_from_spec
              (fun it => String.eqb (CartItem.id it) (Product.id p)) cart 0 ltac:(lia))
    as [[Hall E] | (n & x & Hn & Hx & Hlt & E)]; rewrite E.
  - split; [ reflexivity | ]. right. split; [ | reflexivity ].
    intros it Hit. rewrite Forall_forall in Hall.
    apply String.eqb_neq. now apply Hall.
  - replace (0 + Z.of_nat n)%Z with (Z.of_nat n) by lia.
    split; [ rewrite (proj2 (Z.leb_le 0 (Z.of_nat n))) by lia;
             rewrite (proj2 (Z.eqb_neq (Z.of_nat n) (-1))) by lia; reflexivity | ].
    replace (0 <=? Z.of_nat n)%Z with true by (symmetry; apply Z.leb_le; lia).
    rewrite Nat2Z.id. left. exists n, x.
    split; [ exact Hn | ]. split; [ now apply String.eqb_eq | ].
    split; [ intros j jt Hj Hjt; apply String.eqb_neq; now apply (Hlt j) | ].
    rewrite (alter_as_insert _ _ _ _ Hn). split; [ reflexivity | apply length_insert ].
Qed.

(** The feature screen reads the stored cart as the other screens do. *)
Lemma stored_cart_reads stored cart :
  JS.if_truthy stored CartItem.parse (Some []) = Some cart ->
  FeatureScreen.stored_cart stored = Some cart.
Proof.
  unfold FeatureScreen.stored_cart, JS.if_truthy.
  destruct stored as [s | ]; [ destruct (JS.truthy s) | ];
    try (intros [= <-]; reflexivity).
  unfold CartItem.parse. destruct (JSON.parse s) as [v | ]; [ | discriminate ].
  destruct v; try discriminate. intros H. exact H.
Qed.

End CartFacts.

(** ** The Cart screen: persistence *)

Module CartScreenFacts.
Import AsyncStorage Cart.

Lemma persist_cart c w : cart (fst (persist c w)) = c.
Proof.
  unfold persist.
  destruct (Location.currentLocId _) as [[loc | ] | ]; try reflexivity.
  now destruct (_ && _).
Qed.

Lemma persist_sel c w :
  getItem "selectedLocation"
    (storage (set_storage (setItem "cart" (CartItem.stringify c) (storage (setCart c w)))
                (setCart c w)))
  = getItem "selectedLocation" (storage w).
Proof. cbn. unfold getItem, setItem. now rewrite lookup_insert_ne. Qed.

Lemma truthy_spec s : JS.truthy s = true <-> s <> EmptyString.
Proof.
  unfold JS.truthy. destruct (String.eqb_spec s ""); cbn; split; intros; congruence.
Qed.

Lemma length_pos {A} (l : list A) : (0 <? length l) = true <-> l <> [].
Proof. destruct l; cbn; split; intros; congruence || lia. Qed.

End CartScreenFacts.

(** C7. After [persist newCart] the text stored under the cart key parses
    back to [newCart] (and the in-memory cart is [newCart]); when the stored
    selected location can be read, the cart-location key holds the selected
    location's id if [newCart] is not empty and a location is selected, and
    is absent otherwise. *)
Theorem persist_round_trip (newCart : list CartItem.t) (w : Cart.World) :
  let w' := fst (Cart.persist newCart w) in
  Cart.cart w' = newCart /\
  (exists text, AsyncStorage.getItem "cart" (Cart.storage w') = Some text /\
                CartItem.parse text = Some newCart) /\
  forall cur,
    Location.currentLocId (AsyncStorage.getItem "selectedLocation" (Cart.storage w)) = Some cur ->
    snd (Cart.persist newCart w) = Returned /\
    (newCart <> [] /\ Statements.selected cur ->
       AsyncStorage.getItem "cartLocationId" (Cart.storage w') = cur) /\
    (~ (newCart <> [] /\ Statements.selected cur) ->
       AsyncStorage.getItem "cartLocationId" (Cart.storage w') = None).
Proof.
  intros w'. split; [ apply CartScreenFacts.persist_cart | ]. split.
  - exists (CartItem.stringify newCart). split; [ | apply CartFacts.parse_stringify_cart ].
    subst w'. unfold Cart.persist.
    destruct (Location.currentLocId _) as [[loc | ] | ];
      [ destruct (_ && _) | | ]; cbn;
      unfold AsyncStorage.getItem, AsyncStorage.setItem, AsyncStorage.removeItem;
      rewrite ?lookup_insert_ne, ?lookup_delete_ne by discriminate;
      apply lookup_insert_eq.
  - intros cur Hcur. subst w'. unfold Cart.persist.
    rewrite CartScreenFacts.persist_sel, Hcur.
    destruct cur as [loc | ].
    + destruct (0 <? length newCart) eqn:Hlen; destruct (JS.truthy loc) eqn:Hloc; cbn;
        (split; [ reflexivity | ]);
        unfold AsyncStorage.getItem, AsyncStorage.setItem, AsyncStorage.removeItem;
        rewrite ?lookup_insert_eq, ?lookup_delete_eq.
      * split; [ reflexivity | ]. intros []. split.
        -- now apply CartScreenFacts.length_pos.
        -- exists loc. split; [ reflexivity | now apply CartScreenFacts.truthy_spec ].
      * split; [ | reflexivity ]. intros [_ (l & [= <-] & Hl)].
        apply CartScreenFacts.truthy_spec in Hl. congruence.
      * split; [ | reflexivity ]. intros [Hne _].
        apply CartScreenFacts.length_pos in Hne. congruence.
      * split; [ | reflexivity ]. intros [Hne _].
        apply CartScreenFacts.length_pos in Hne. congruence.
    + cbn. split; [ reflexivity | ].
      unfold AsyncStorage.getItem, AsyncStorage.removeItem. rewrite lookup_delete_eq.
      split; [ | reflexivity ]. intros [_ (l & [=] & _)].
Qed.

Lemma persist_round_trip_witness :
  let loc := Location.mk "loc-7" "Main Street" in
  let newCart := [CartItem.mk "p1" "Milk" (JSON.mkNumber false 3 (Decimal.D4 (Decimal.D9 Decimal.Nil))) 2] in
  let w := Cart.mkWorld [] None ""
             {[ "selectedLocation" := Location.stringify loc ]} [] [] [] [] [] [] in
  Location.currentLocId (AsyncStorage.getItem "selectedLocation" (Cart.storage w))
    = Some (Some "loc-7") /\
  snd (Cart.persist newCart w) = Returned /\
  AsyncStorage.getItem "cartLocationId" (Cart.storage (fst (Cart.persist newCart w)))
    = Some "loc-7".
Proof.
  intros loc newCart w.
  assert (H : Location.currentLocId (AsyncStorage.getItem "selectedLocation" (Cart.storage w))
              = Some (Some "loc-7")) by (vm_compute; reflexivity).
  split; [ exact H | ].
  destruct (persist_round_trip newCart w) as (_ & _ & Hloc).
  destruct (Hloc _ H) as (Hret & Hset & _).
  split; [ exact Hret | ]. apply Hset. split; [ discriminate | ].
  exists "loc-7". split; [ reflexivity | discriminate ].
Defined.

(** ** The Cart screen: quantities *)

Module QuantityFacts.
Import AsyncStorage Cart Statements.

Lemma cart_handleDelete id w :
  cart (fst (handleDelete id w))
  = List.filter (fun i => negb (String.eqb (CartItem.id i) id)) (cart w).
Proof.
  unfold handleDelete.
  pose proof (CartScreenFacts.persist_cart
                (List.filter (fun i => negb (String.eqb (CartItem.id i) id)) (cart w)) w) as H.
  destruct (persist _ w) as [w' []]; exact H.
Qed.

Lemma increment_positive id i :
  (1 <= CartItem.quantity i)%Z -> (1 <= CartItem.quantity (increment id i))%Z.
Proof. unfold increment. destruct (String.eqb _ _); cbn; lia. Qed.

Lemma decrement_positive id i :
  (1 <= CartItem.quantity i)%Z -> (1 <= CartItem.quantity (decrement id i))%Z.
Proof.
  unfold decrement. destruct (String.eqb _ _); cbn; [ | lia ].
  destruct (Z.ltb_spec 1 (CartItem.quantity i)); cbn; lia.
Qed.

Lemma edit_positive e w :
  positive_quantities (cart w) -> positive_quantities (cart (edit e w)).
Proof.
  unfold positive_quantities. intros H. destruct e as [id | id | id]; cbn [edit].
  - unfold handleIncrement. rewrite CartScreenFacts.persist_cart.
    apply Forall_forall. intros i Hi. apply list_elem_of_In, in_map_iff in Hi.
    destruct Hi as (j & <- & Hj). apply increment_positive.
    rewrite Forall_forall in H. now apply H, list_elem_of_In.
  - unfold handleDecrement. rewrite CartScreenFacts.persist_cart.
    apply Forall_forall. intros i Hi. apply list_elem_of_In, in_map_iff in Hi.
    destruct Hi as (j & <- & Hj). apply decrement_positive.
    rewrite Forall_forall in H. now apply H, list_elem_of_In.
  - rewrite cart_handleDelete.
    apply Forall_forall. intros i Hi. apply list_elem_of_In, filter_In in Hi.
    rewrite Forall_forall in H. now apply H, list_elem_of_In.
Qed.

Lemma edits_positive l : forall w,
  positive_quantities (cart w) -> positive_quantities (cart (edits l w)).
Proof.
  induction l as [ | e l IH ]; intros w H; [ exact H | ].
  cbn [edits fold_left]. apply IH, edit_positive, H.
Qed.

Lemma filter_bool_prop id (c : list CartItem.t) :
  List.filter (fun i => negb (String.eqb (CartItem.id i) id)) c
  = filter (fun i => CartItem.id i <> id) c.
Proof.
  induction c as [ | i c IH ]; [ reflexivity | ].
  cbn [List.filter]. rewrite filter_cons, IH.
  destruct (String.eqb_spec (CartItem.id i) id); cbn; case_decide; congruence.
Qed.

End QuantityFacts.

(** C8. On a cart whose quantities are all at least 1: [handleIncrement]
    raises the quantity of the lines with the given id by 1 and changes no
    other line; [handleDecrement] lowers it by 1 on the lines with that id
    whose quantity exceeds 1 and leaves every other line (also one at
    quantity 1) as it is, removing none; [handleDelete] keeps exactly the
    lines with another id; and after any sequence of these edits every
    quantity is still at least 1. *)
Theorem cart_edits_keep_quantities_positive (w : Cart.World) :
  Statements.positive_quantities (Cart.cart w) ->
  (forall id,
      let c' := Cart.cart (fst (Cart.handleIncrement id w)) in
      length c' = length (Cart.cart w) /\
      forall n i, Cart.cart w !! n = Some i ->
        c' !! n = Some (if decide (CartItem.id i = id)
                        then CartItem.mk (CartItem.id i) (CartItem.name i) (CartItem.price i)
                               (CartItem.quantity i + 1)%Z
                        else i)) /\
  (forall id,
      let c' := Cart.cart (fst (Cart.handleDecrement id w)) in
      length c' = length (Cart.cart w) /\
      forall n i, Cart.cart w !! n = Some i ->
        c' !! n = Some (if decide (CartItem.id i = id /\ (1 < CartItem.quantity i)%Z)
                        then CartItem.mk (CartItem.id i) (CartItem.name i) (CartItem.price i)
                               (CartItem.quantity i - 1)%Z
                        else i)) /\
  (forall id,
      Cart.cart (fst (Cart.handleDelete id w))
      = filter (fun i => CartItem.id i <> id) (Cart.cart w)) /\
  (forall l, Statements.positive_quantities (Cart.cart (Cart.edits l w))).
Proof.
  intros Hpos. repeat split.
  - unfold Cart.handleIncrement. rewrite CartScreenFacts.persist_cart. apply length_map.
  - intros n i Hn. unfold Cart.handleIncrement. rewrite CartScreenFacts.persist_cart.
    change (List.map ?f ?l) with (f <$> l). rewrite list_lookup_fmap, Hn. cbn. f_equal.
    unfold Cart.increment, CartItem.with_quantity.
    destruct (String.eqb_spec (CartItem.id i) id); destruct (decide _); congruence.
  - unfold Cart.handleDecrement. rewrite CartScreenFacts.persist_cart. apply length_map.
  - intros n i Hn. unfold Cart.handleDecrement. rewrite CartScreenFacts.persist_cart.
    change (List.map ?f ?l) with (f <$> l). rewrite list_lookup_fmap, Hn. cbn. f_equal.
    unfold Cart.decrement, CartItem.with_quantity.
    destruct (String.eqb_spec (CartItem.id i) id);
      destruct (Z.ltb_spec 1 (CartItem.quantity i));
      destruct (decide _) as [[] | Hno]; cbn; try congruence; try lia.
    exfalso. apply Hno. split; [ assumption | lia ].
  - intros id. rewrite QuantityFacts.cart_handleDelete. apply QuantityFacts.filter_bool_prop.
  - intros l. now apply QuantityFacts.edits_positive.
Qed.

Lemma cart_edits_keep_quantities_positive_witness :
  let w := Cart.mkWorld [CartItem.mk "p1" "Milk" (JSON.mkNumber false 3 (Decimal.D4 (Decimal.D9 Decimal.Nil))) 1; CartItem.mk "p2" "Eggs" (JSON.mkNumber false 4 Decimal.Nil) 2]
             None "" ∅ [] [] [] [] [] [] in
  Statements.positive_quantities (Cart.cart w) /\
  Statements.positive_quantities
    (Cart.cart (Cart.edits [Cart.Decrement "p1"; Cart.Decrement "p2"; Cart.Decrement "p2";
                            Cart.Increment "p1"; Cart.Delete "p2"] w)).
Proof.
  intros w.
  assert (H : Statements.positive_quantities (Cart.cart w)).
  { repeat constructor; cbn; lia. }
  split; [ exact H | ].
  apply (cart_edits_keep_quantities_positive w H).
Defined.

(** ** The Cart screen: location change *)

Module LocationChangeFacts.
Import AsyncStorage Cart.



End LocationChangeFacts.



(** ** The Cart screen: placing an order *)

Module PlaceOrderFacts.
Import AsyncStorage Cart.


End PlaceOrderFacts.



(** ** Pickup time *)

Module PickUpTimeFacts.
Import PickUpTime.

Lemma fetch_add_call env c w : fetch env (add_call c w) = fetch env w.
Proof. reflexivity. Qed.

Lemma is_zero_spec c : is_zero c = true <-> c = Some 0%Z.
Proof.
  destruct c as [c | ]; cbn; [ | split; discriminate ].
  destruct (Z.eqb_spec c 0); split; intros; congruence.
Qed.

Lemma reserve_taken selected s c :
  time s = time selected -> capacity s = Some c -> (0 < c)%Z ->
  reserve selected s = mkSlot (time s) (Some (c - 1)%Z).
Proof.
  intros Ht Hc Hpos. unfold reserve. rewrite Hc, Ht, String.eqb_refl.
  now rewrite (proj2 (Z.ltb_lt 0 c) Hpos).
Qed.

Lemma reserve_kept selected s :
  time s <> time selected \/ capacity s = None \/ (exists c, capacity s = Some c /\ (c <= 0)%Z) ->
  reserve selected s = s.
Proof.
  unfold reserve. intros [Ht | [-> | (c & -> & Hc)]]; [ | reflexivity | ].
  - destruct (capacity s); [ | reflexivity ].
    now rewrite (proj2 (String.eqb_neq _ _) Ht).
  - rewrite (proj2 (Z.ltb_ge 0 c) Hc). now rewrite andb_false_r.
Qed.

End PickUpTimeFacts.

(** C2. [confirmSelection] reads the day's schedule once and writes it back
    once, with nothing in between and no second attempt.  With a selected
    slot whose capacity is not 0 and a fetched row, the list it writes has,
    position by position, the fetched slot with its capacity lowered by 1
    where the time is the selected one and the capacity is a positive
    number, and the fetched slot itself everywhere else; the stored rows
    change only in the rows the request selects, and only when the update
    succeeds.  With a selected slot of capacity 0, or a fetch that fails or
    finds no row, it writes nothing. *)
Theorem confirm_selection_read_modify_write
    (env : PickUpTime.Env) (w : PickUpTime.World) (slot : PickUpTime.Slot) :
  PickUpTime.selectedSlot w = Some slot ->
  let w' := fst (PickUpTime.confirmSelection env w) in
  (PickUpTime.capacity slot <> Some 0%Z ->
   forall sched hours,
     PickUpTime.fetch env w = PickUpTime.Row sched ->
     PickUpTime.available_hours sched = Some hours ->
     exists updated,
       PickUpTime.calls w'
         = PickUpTime.calls w ++ [PickUpTime.FetchSchedule; PickUpTime.UpdateSchedule updated] /\
       length updated = length hours /\
       (forall n s, hours !! n = Some s ->
          (forall c, PickUpTime.time s = PickUpTime.time slot ->
                     PickUpTime.capacity s = Some c -> (0 < c)%Z ->
                     updated !! n = Some (PickUpTime.mkSlot (PickUpTime.time s) (Some (c - 1)%Z))) /\
          (PickUpTime.time s <> PickUpTime.time slot \/ PickUpTime.capacity s = None \/
           (exists c, PickUpTime.capacity s = Some c /\ (c <= 0)%Z) ->
           updated !! n = Some s)) /\
       (PickUpTime.update_error env = false ->
        forall n r, PickUpTime.schedules w !! n = Some r ->
          PickUpTime.schedules w' !! n
          = Some (if PickUpTime.selects w r
                  then PickUpTime.mkSchedule (PickUpTime.location_id r)
                         (PickUpTime.day_of_week r) (Some updated)
                  else r)) /\
       (PickUpTime.update_error env = true ->
        PickUpTime.schedules w' = PickUpTime.schedules w)) /\
  (PickUpTime.capacity slot = Some 0%Z \/
   PickUpTime.fetch env w = PickUpTime.FetchError \/
   PickUpTime.fetch env w = PickUpTime.NoRow ->
   PickUpTime.schedules w' = PickUpTime.schedules w /\
   PickUpTime.storage w' = PickUpTime.storage w /\
   (PickUpTime.calls w' = PickUpTime.calls w \/
    PickUpTime.calls w' = PickUpTime.calls w ++ [PickUpTime.FetchSchedule])).
Proof.
  intros Hsel w'. subst w'. unfold PickUpTime.confirmSelection. rewrite Hsel. split.
  - intros Hcap sched hours Hfetch Hhours.
    destruct (PickUpTime.is_zero (PickUpTime.capacity slot)) eqn:Hz;
      [ now apply PickUpTimeFacts.is_zero_spec in Hz | ].
    rewrite PickUpTimeFacts.fetch_add_call, Hfetch, Hhours.
    exists (List.map (PickUpTime.reserve slot) hours).
    split; [ | split; [ apply length_map | split; [ | split ] ] ].
    + destruct (PickUpTime.update_error env); cbn; now rewrite <- app_assoc.
    + intros n s Hn. change (List.map ?f ?l) with (f <$> l).
      rewrite list_lookup_fmap, Hn. cbn. split.
      * intros c Ht Hc Hpos. f_equal. now apply PickUpTimeFacts.reserve_taken.
      * intros H. f_equal. now apply PickUpTimeFacts.reserve_kept.
    + intros -> n r Hn. cbn. change (List.map ?f ?l) with (f <$> l).
      rewrite list_lookup_fmap, Hn. reflexivity.
    + intros ->. reflexivity.
  - intros [Hcap | Hfetch].
    + rewrite (proj2 (PickUpTimeFacts.is_zero_spec _) Hcap). cbn. auto.
    + destruct (PickUpTime.is_zero (PickUpTime.capacity slot)); [ cbn; auto | ].
      rewrite PickUpTimeFacts.fetch_add_call.
      destruct Hfetch as [-> | ->]; cbn; auto.
Qed.

Lemma confirm_selection_read_modify_write_witness :
  let nine := PickUpTime.mkSlot "09:00" (Some 2%Z) in
  let hours := [nine; PickUpTime.mkSlot "10:00" (Some 0%Z); PickUpTime.mkSlot "11:00" None] in
  let env := PickUpTime.mkEnv false false (fun _ _ => "2026-01-05T09:00:00.000Z")
               (fun _ _ => "Today, 9:00 AM - 10:00 AM") in
  let w := PickUpTime.mkWorld (Some "loc-2") (PickUpTime.mkDay "Today" "Jan 5" 1) (Some nine) ∅
             [PickUpTime.mkSchedule "loc-2" 1 (Some hours);
              PickUpTime.mkSchedule "loc-2" 2 (Some hours)] [] [] [] in
  PickUpTime.schedules (fst (PickUpTime.confirmSelection env w))
  = [PickUpTime.mkSchedule "loc-2" 1
       (Some [PickUpTime.mkSlot "09:00" (Some 1%Z); PickUpTime.mkSlot "10:00" (Some 0%Z);
              PickUpTime.mkSlot "11:00" None]);
     PickUpTime.mkSchedule "loc-2" 2 (Some hours)] /\
  exists updated,
    PickUpTime.calls (fst (PickUpTime.confirmSelection env w))
    = [PickUpTime.FetchSchedule; PickUpTime.UpdateSchedule updated].
Proof.
  intros nine hours env w. split; [ reflexivity | ].
  destruct (confirm_selection_read_modify_write env w nine eq_refl) as [Hwrite _].
  destruct (Hwrite ltac:(discriminate) _ hours eq_refl eq_refl) as (updated & Hcalls & _).
  exists updated. exact Hcalls.
Defined.

(** ** Barcode scanning *)

Module ScanBarcodeFacts.
Import ScanBarcode.

Lemma single_elem data l o :
  single data l = Some o -> o ∈ l /\ barcode o = data.
Proof.
  unfold single. intros H.
  assert (Hin : o ∈ List.filter (fun o => String.eqb (barcode o) data) l).
  { destruct (List.filter _ l) as [ | x [ | y t ] ]; simplify_eq. left. }
  apply list_elem_of_In, filter_In in Hin as [Hin Hb].
  split; [ now apply list_elem_of_In | now apply String.eqb_eq ].
Qed.

Lemma handleBarcodeScanned_orders seen data f s :
  orders (handleBarcodeScanned seen data f s) = orders s.
Proof.
  unfold handleBarcodeScanned. destruct (_ || _); [ reflexivity | ].
  destruct f; try reflexivity. cbn. now destruct (single data (orders s)).
Qed.

Lemma complete_id i o : id (complete i o) = id o.
Proof. unfold complete. now destruct (String.eqb _ _). Qed.

Lemma step_shown_is_row e s : Statements.shown_is_row s -> Statements.shown_is_row (step e s).
Proof.
  unfold Statements.shown_is_row. intros Hs cur.
  destruct e as [seen data f | f | a | ]; cbn [step].
  - unfold handleBarcodeScanned. destruct (_ || _); [ apply Hs | ].
    destruct f; cbn; try apply Hs.
    destruct (single data (orders s)) as [o | ] eqn:Ho; cbn; [ | apply Hs ].
    intros [= <-]. exists o. split; [ | reflexivity ].
    now apply single_elem in Ho as [Ho _].
  - unfold markCompleted. destruct (currentOrder s) as [c | ] eqn:Hc; [ | now rewrite Hc ].
    destruct f; cbn; rewrite ?Hc; intros [= <-];
      destruct (Hs c eq_refl) as (o & Ho & Hid); try (now exists o).
    exists (complete (scanned_id c) o). split; [ | now rewrite complete_id ].
    apply list_elem_of_In, in_map. now apply list_elem_of_In.
  - destruct a; cbn; apply Hs.
  - cbn. apply Hs.
Qed.

End ScanBarcodeFacts.

(** C6. When the query by barcode returns an error or no single row,
    [handleBarcodeScanned] (of a render that was scanning, whatever the
    state has become since) has issued that one query and nothing else, shows
    exactly one error alert, opens no modal and leaves the orders table as
    it is.  No scan ever changes the table: an event changes it only if it
    is [markCompleted] succeeding on the order shown in the modal, which
    then sets the status of the rows with that id to "Completed" and changes
    no other row; and the order shown in the modal is always one a
    successful scan fetched. *)
Theorem scan_failure_writes_nothing (s : ScanBarcode.State) :
  (forall data f,
      data <> EmptyString ->
      f = ScanBarcode.ErrorResult \/
      (f = ScanBarcode.NoFault /\ ScanBarcode.single data (ScanBarcode.orders s) = None) ->
      let s' := ScanBarcode.handleBarcodeScanned true data f s in
      ScanBarcode.orders s' = ScanBarcode.orders s /\
      ScanBarcode.calls s' = ScanBarcode.calls s ++ [ScanBarcode.SelectOrder data] /\
      ScanBarcode.alerts s'
        = ScanBarcode.alerts s
          ++ [ScanBarcode.AlertResume "Error" "Barcode not found or fetch failed."] /\
      ScanBarcode.currentOrder s' = ScanBarcode.currentOrder s /\
      ScanBarcode.modalVisible s' = ScanBarcode.modalVisible s) /\
  (forall e,
      ScanBarcode.orders (ScanBarcode.step e s) <> ScanBarcode.orders s ->
      exists cur,
        e = ScanBarcode.MarkCompleted ScanBarcode.NoFault /\
        ScanBarcode.currentOrder s = Some cur /\
        length (ScanBarcode.orders (ScanBarcode.step e s)) = length (ScanBarcode.orders s) /\
        forall n o, ScanBarcode.orders s !! n = Some o ->
          ScanBarcode.orders (ScanBarcode.step e s) !! n
          = Some (if decide (ScanBarcode.id o = ScanBarcode.scanned_id cur)
                  then ScanBarcode.mkOrder (ScanBarcode.id o) (ScanBarcode.order_number o)
                         "Completed" (ScanBarcode.barcode o)
                  else o)) /\
  (forall seen data f cur,
      ScanBarcode.currentOrder (ScanBarcode.handleBarcodeScanned seen data f s) = Some cur ->
      ScanBarcode.currentOrder s = Some cur \/
      (f = ScanBarcode.NoFault /\
       exists o, o ∈ ScanBarcode.orders s /\ ScanBarcode.barcode o = data /\
                 cur = ScanBarcode.mkScanned (ScanBarcode.id o) (ScanBarcode.order_number o)
                         (ScanBarcode.status o))) /\
  (ScanBarcode.currentOrder s = None ->
   forall events cur,
     ScanBarcode.currentOrder (fold_left (fun s e => ScanBarcode.step e s) events s) = Some cur ->
     exists o,
       o ∈ ScanBarcode.orders (fold_left (fun s e => ScanBarcode.step e s) events s) /\
       ScanBarcode.id o = ScanBarcode.scanned_id cur).
Proof.
  split; [ | split; [ | split ] ].
  - intros data f Hdata Hf s'. subst s'. unfold ScanBarcode.handleBarcodeScanned.
    rewrite (proj2 (CartScreenFacts.truthy_spec data) Hdata). cbn [negb orb].
    destruct Hf as [-> | [-> Hnone]]; cbn; [ | rewrite Hnone; cbn ]; repeat split.
  - intros e Hchange. destruct e as [seen data f | f | a | ]; cbn [ScanBarcode.step] in *.
    + now rewrite ScanBarcodeFacts.handleBarcodeScanned_orders in Hchange.
    + unfold ScanBarcode.markCompleted in *.
      destruct (ScanBarcode.currentOrder s) as [cur | ]; [ | congruence ].
      destruct f; cbn in *; try congruence.
      exists cur. split; [ reflexivity | ]. split; [ reflexivity | ].
      split; [ apply length_map | ].
      intros n o Hn. change (List.map ?f ?l) with (f <$> l).
      rewrite list_lookup_fmap, Hn. cbn. f_equal. unfold ScanBarcode.complete.
      destruct (String.eqb_spec (ScanBarcode.id o) (ScanBarcode.scanned_id cur));
        case_decide; congruence.
    + destruct a; cbn in *; congruence.
    + cbn in *; congruence.
  - intros seen data f cur. unfold ScanBarcode.handleBarcodeScanned.
    destruct (_ || _); [ now left | ].
    destruct f; cbn; try (now left).
    destruct (ScanBarcode.single data (ScanBarcode.orders s)) as [o | ] eqn:Ho; cbn;
      [ | now left ].
    intros [= <-]. right. split; [ reflexivity | ]. exists o.
    apply ScanBarcodeFacts.single_elem in Ho as [Hin Hb]. auto.
  - intros Hnone events.
    assert (H0 : Statements.shown_is_row s).
    { intros cur Hcur. congruence. }
    clear Hnone. revert s H0.
    induction events as [ | e events IH ]; intros s H0 cur Hcur; [ now apply H0 | ].
    cbn [fold_left] in *. apply (IH _ (ScanBarcodeFacts.step_shown_is_row e s H0) cur Hcur).
Qed.

Lemma scan_failure_writes_nothing_witness :
  let s := ScanBarcode.mkState true false None
             [ScanBarcode.mkOrder "o1" "A-100" "Pending" "b-1"] [] [] in
  ScanBarcode.single "b-2" (ScanBarcode.orders s) = None /\
  ScanBarcode.orders (ScanBarcode.handleBarcodeScanned true "b-2" ScanBarcode.NoFault s)
    = ScanBarcode.orders s /\
  ScanBarcode.calls (ScanBarcode.handleBarcodeScanned true "b-2" ScanBarcode.NoFault s)
    = [ScanBarcode.SelectOrder "b-2"].
Proof.
  intros s. split; [ reflexivity | ].
  destruct (scan_failure_writes_nothing s) as [Hfail _].
  destruct (Hfail "b-2" ScanBarcode.NoFault ltac:(discriminate)
              (or_intror (conj eq_refl eq_refl))) as (Ho & Hc & _).
  split; [ exact Ho | exact Hc ].
Defined.

(** ** Status styles *)

Module StatusFacts.
Import Statements.

Lemma named_cases (P : string -> Prop) :
  P "Completed" -> P "Processing" -> P "Ready" -> P "AwaitingPickup" ->
  P "In Progress" -> P "Ready for Pickup" ->
  forall s, s ∈ named_statuses -> P s.
Proof.
  intros H1 H2 H3 H4 H5 H6 s Hs. unfold named_statuses in Hs.
  repeat (apply elem_of_cons in Hs as [-> | Hs]; [ assumption | ]).
  now apply elem_of_nil in Hs.
Qed.

Lemma named_agree s :
  s ∈ named_statuses -> Account.getStatusStyle s = Orders.getStatusStyle s.
Proof. revert s. apply named_cases; vm_compute; reflexivity. Qed.

(** A status the Orders screen does not know by name gets its cancelled
    style, "Pending" included. *)
Lemma orders_unnamed s :
  s ∉ named_statuses -> Orders.getStatusStyle s = Orders.styles.cancelledStatus.
Proof.
  intros Hs. unfold Orders.getStatusStyle.
  repeat match goal with
         | |- context [String.eqb s ?n] =>
             destruct (String.eqb_spec s n) as [-> | _];
             [ exfalso; apply Hs; unfold named_statuses; set_solver | ]
         end.
  cbn. now destruct (String.eqb s "Pending").
Qed.

(** The Account screen gives the colours of the others' cancelled style
    exactly to the statuses whose lower case it does not know, "pending"
    apart. *)
Lemma account_grey s :
  Account.getStatusStyle s = Orders.styles.cancelledStatus
  <-> Account.toLowerCase s ∉ lowered_statuses.
Proof.
  unfold Account.getStatusStyle, lowered_statuses.
  set (l := Account.toLowerCase s). split.
  - intros H Hin.
    repeat (apply elem_of_cons in Hin as [E | Hin];
            [ rewrite E in H; vm_compute in H; discriminate H | ]).
    now apply elem_of_nil in Hin.
  - intros Hout.
    repeat match goal with
           | |- context [String.eqb l ?n] =>
               destruct (String.eqb_spec l n) as [E | _];
               [ try (exfalso; apply Hout; rewrite E; set_solver) | ]
           end;
      reflexivity.
Qed.

End StatusFacts.

(** C4 (counterexample).  The three screens do not agree on case: on
    "completed" the Account screen returns its completed style (white on
    green) and the Orders screen its cancelled style (grey on light
    grey). *)
Lemma status_styles_differ_on_lower_case :
  Account.getStatusStyle "completed" = Account.styles.completedStatus /\
  Orders.getStatusStyle "completed" = Orders.styles.cancelledStatus /\
  Account.getStatusStyle "completed" <> Orders.getStatusStyle "completed".
Proof. split; [ reflexivity | ]. split; [ reflexivity | ]. vm_compute. discriminate. Qed.

(** C4 (amended).  The Orders and OrderDetails screens return the same
    style for every status.  The Account screen returns the style the two
    others return exactly when the status is one they know by name
    ("Completed", "Processing", "Ready", "AwaitingPickup", "In Progress",
    "Ready for Pickup", in that spelling) or its lower case is none of
    "completed", "processing", "ready", "awaitingpickup", "in progress",
    "ready for pickup" and "cancelled" (as for "Pending" and for every
    status no screen knows); on "Cancelled" the Account screen's style has
    red text and the others' grey. *)
Theorem status_styles_agreement (status : string) :
  Orders.getStatusStyle status = OrderDetails.getStatusStyle status /\
  (Account.getStatusStyle status = Orders.getStatusStyle status <->
   status ∈ Statements.named_statuses
   \/ Account.toLowerCase status ∉ Statements.lowered_statuses) /\
  Account.getStatusStyle "Pending" = Orders.getStatusStyle "Pending" /\
  color (Account.getStatusStyle "Cancelled") = "#dc2626" /\
  color (Orders.getStatusStyle "Cancelled") = "#6B7280".
Proof.
  split; [ reflexivity | ]. split; [ | repeat split ].
  destruct (decide (status ∈ Statements.named_statuses)) as [Hin | Hout].
  - split; [ now left | intros _; now apply StatusFacts.named_agree ].
  - rewrite (StatusFacts.orders_unnamed _ Hout), StatusFacts.account_grey.
    split; [ now right | intros [ | ]; [ contradiction | assumption ] ].
Qed.

(** ** Storage keys *)

Module StorageFacts.
Import AsyncStorage.

Lemma written_keys_spec k :
  k ∉ Statements.written_keys ->
  k <> "cart" /\ k <> "cartLocationId" /\ k <> "selectedLocation" /\ k <> "location_id" /\
  k <> "selectedPickupTime" /\ k <> "selectedPickupLabel" /\ k <> "selected_store_id".
Proof.
  intros Hk. repeat split; intros ->; apply Hk; vm_compute; set_solver.
Qed.

(** A lookup of a key that no write names is a lookup in the storage the
    writes started from. *)
Ltac frame :=
  unfold AsyncStorage.getItem, AsyncStorage.setItem, AsyncStorage.removeItem;
  repeat first [ rewrite lookup_insert_ne by congruence
               | rewrite lookup_delete_ne by congruence ];
  reflexivity.

End StorageFacts.

(** C5 (counterexample).  [pick] of the SelectStore screen writes the key
    "selected_store_id", which is neither a cart key nor a
    selected-location key. *)
Lemma storage_write_outside_cart_and_location :
  ~ (forall (a : App.Action) (st : AsyncStorage.t) (k : string),
        k ∉ cart_keys ++ selected_location_keys ->
        AsyncStorage.getItem k (App.storage_after a st) = AsyncStorage.getItem k st).
Proof.
  intros H. specialize (H (App.SelectStore_pick "store-1") ∅ "selected_store_id").
  cbn in H. unfold AsyncStorage.getItem, AsyncStorage.setItem in H.
  rewrite lookup_insert_eq, lookup_empty in H. discriminate H.
  intros Hin. repeat (apply elem_of_cons in Hin as [Hin | Hin]; [ discriminate | ]).
  now apply elem_of_nil in Hin.
Qed.

(** C5 (amended).  Every operation that writes the device storage (the
    handlers of the screens, a press of a product card with its callback,
    and the backend client saving or removing what it caches of the
    session) leaves every key as it was other than the cart keys ("cart",
    "cartLocationId"), the selected-location keys ("selectedLocation",
    "location_id"), the pickup-time keys ("selectedPickupTime",
    "selectedPickupLabel"), the store key ("selected_store_id") and the
    keys of the client's session cache, those that start with its storage
    key. *)
Theorem storage_writes_stay_within_written_keys
    (a : App.Action) (st : AsyncStorage.t) (k : string) :
  k ∉ Statements.written_keys -> ~ Statements.session_key k ->
  AsyncStorage.getItem k (App.storage_after a st) = AsyncStorage.getItem k st.
Proof.
  intros Hk Hsession.
  destruct (StorageFacts.written_keys_spec k Hk) as (H1 & H2 & H3 & H4 & H5 & H6 & H7).
  destruct a as [ p q | p | p | p | p | p | d | i | | sel locs | env w | w | e w | w | env w
                | env w | suffix value | suffix ];
    cbn [App.storage_after].
  - unfold ProductDetails.handleAddToCart. repeat case_match; cbn; StorageFacts.frame.
  - unfold ProductCard.handleAddToCart. repeat case_match; cbn; StorageFacts.frame.
  - unfold EmployeeView.pressProductCard, ProductCard.handleAddToCart,
      EmployeeView.handleAddToCart.
    repeat case_match; cbn; StorageFacts.frame.
  - unfold FeatureScreen.handleAddToCart. repeat case_match; cbn; StorageFacts.frame.
  - unfold EmployeeView.handleAddToCart. repeat case_match; cbn; StorageFacts.frame.
  - unfold EmployeeHistory.handleAddToCart. repeat case_match; cbn; StorageFacts.frame.
  - unfold OrderDetails.reorderItems. repeat case_match; cbn; StorageFacts.frame.
  - cbn. StorageFacts.frame.
  - cbn. StorageFacts.frame.
  - unfold SelectLocation.handleConfirmLocation, JS.if_truthy.
    repeat case_match; cbn; StorageFacts.frame.
  - unfold PickUpTime.confirmSelection. repeat case_match; cbn; StorageFacts.frame.
  - unfold Cart.clearIfLocationChanged. repeat case_match; cbn; StorageFacts.frame.
  - destruct e; cbn [Cart.edit];
      unfold Cart.handleIncrement, Cart.handleDecrement, Cart.handleDelete, Cart.persist;
      repeat case_match; simplify_eq/=; StorageFacts.frame.
  - cbn. StorageFacts.frame.
  - unfold Cart.handleCheckout, JS.if_truthy, Cart.placeOrder.
    repeat case_match; cbn; StorageFacts.frame.
  - unfold Cart.placeOrder. repeat case_match; cbn; StorageFacts.frame.
  - unfold SupabaseAuth.setItem, AsyncStorage.getItem, AsyncStorage.setItem.
    apply lookup_insert_ne. intros E. apply Hsession. now exists suffix.
  - unfold SupabaseAuth.removeItem, AsyncStorage.getItem, AsyncStorage.removeItem.
    apply lookup_delete_ne. intros E. apply Hsession. now exists suffix.
Qed.

Lemma storage_writes_stay_within_written_keys_witness :
  let st : AsyncStorage.t := {[ "theme" := "dark" ]} in
  let milk := Product.mk "p1" "Milk" (JSON.mkNumber false 3 (Decimal.D4 (Decimal.D9 Decimal.Nil))) in
  ("theme" ∉ Statements.written_keys) /\
  ~ Statements.session_key "theme" /\
  AsyncStorage.getItem "theme"
    (App.storage_after (App.SupabaseAuth_setItem "" "session")
       (App.storage_after (App.SelectStore_pick "store-1")
          (App.storage_after (App.EmployeeView_pressProductCard milk) st)))
  = Some "dark".
Proof.
  intros st milk.
  assert (H : "theme" ∉ Statements.written_keys).
  { intros Hin. vm_compute in Hin.
    repeat (apply elem_of_cons in Hin as [Hin | Hin]; [ discriminate | ]).
    now apply elem_of_nil in Hin. }
  assert (H' : ~ Statements.session_key "theme").
  { intros (suffix & E). discriminate E. }
  split; [ exact H | ]. split; [ exact H' | ].
  rewrite !(storage_writes_stay_within_written_keys _ _ _ H H').
  apply lookup_singleton_eq.
Defined.

(** ** Phone numbers *)

Module PhoneFacts.
Import EditProfile Statements.

Lemma filter_all_digits d : all_digits d -> List.filter JSON.is_digit d = d.
Proof.
  induction 1 as [ | c d Hc _ IH ]; [ reflexivity | ].
  cbn. now rewrite Hc, IH.
Qed.

Lemma filter_is_all_digits v : all_digits (List.filter JSON.is_digit v).
Proof.
  apply Forall_forall. intros c Hc. now apply list_elem_of_In, filter_In in Hc as [_ Hc].
Qed.

(** The format of the code is the grouping by three, three and the rest. *)
Lemma format_digits d :
  all_digits d -> length d <= 10 ->
  format d = grouped d.
Proof.
  intros Hd Hlen. unfold format, slice, slice_from.
  rewrite (filter_all_digits d Hd). cbn [Nat.sub]. rewrite !drop_0.
  rewrite (take_ge d 10) by lia.
  do 7 (destruct d as [ | ? d ]; [ reflexivity | ]). reflexivity.
Qed.

Lemma filter_grouped d : all_digits d -> List.filter JSON.is_digit (grouped d) = d.
Proof.
  intros Hd. pose proof (filter_all_digits d Hd) as Hf.
  do 7 (destruct d as [ | ? d ]; [ exact Hf | ]).
  repeat match goal with
         | H : all_digits (_ :: _) |- _ => apply Forall_cons in H as [? H]
         end.
  cbn [grouped app]. cbn [List.filter] in *.
  repeat match goal with
         | H : JSON.is_digit ?c = true |- _ => rewrite H in *; clear H
         end.
  change (JSON.is_digit "-") with false. cbv iota. exact Hf.
Qed.

Lemma format_value v :
  let digits := take 10 (List.filter JSON.is_digit v) in
  all_digits digits /\ length digits <= 10 /\ format v = grouped digits.
Proof.
  intros digits.
  assert (Hd : all_digits digits).
  { apply Forall_take, filter_is_all_digits. }
  assert (Hlen : length digits <= 10).
  { subst digits. rewrite length_take. lia. }
  split; [ exact Hd | ]. split; [ exact Hlen | ].
  rewrite <- (format_digits digits Hd Hlen).
  unfold format, slice. cbn [Nat.sub]. rewrite !drop_0.
  rewrite (filter_all_digits digits Hd). fold digits.
  rewrite (take_ge digits 10) by lia. reflexivity.
Qed.

End PhoneFacts.

(** C9. The digits of [formatPhoneNumber value] are the first ten digits of
    [value], in their order; its characters are those digits in groups of
    three, three and the rest, with a hyphen between groups (three and the
    rest for at most six digits, no hyphen for at most three); and
    formatting the result once more gives the result. *)
Theorem format_phone_number_idempotent (value : string) :
  let out := EditProfile.formatPhoneNumber value in
  let digits := take 10 (List.filter JSON.is_digit (list_ascii_of_string value)) in
  length digits <= 10 /\
  List.filter JSON.is_digit (list_ascii_of_string out) = digits /\
  list_ascii_of_string out = Statements.grouped digits /\
  EditProfile.formatPhoneNumber out = out.
Proof.
  intros out digits.
  destruct (PhoneFacts.format_value (list_ascii_of_string value)) as (Hd & Hlen & Hf).
  fold digits in Hd, Hlen, Hf.
  assert (Hout : list_ascii_of_string out = Statements.grouped digits).
  { subst out. unfold EditProfile.formatPhoneNumber.
    now rewrite list_ascii_of_string_of_list_ascii. }
  split; [ exact Hlen | ]. split; [ | split; [ exact Hout | ] ].
  - rewrite Hout. now apply PhoneFacts.filter_grouped.
  - unfold EditProfile.formatPhoneNumber at 1. rewrite Hout.
    destruct (PhoneFacts.format_value (Statements.grouped digits)) as (_ & _ & Hf').
    rewrite Hf', (PhoneFacts.filter_grouped digits Hd), (take_ge digits 10) by lia.
    rewrite <- Hout. apply string_of_list_ascii_of_string.
Qed.

(** * Further properties *)

(** ** Checkout *)

Module CheckoutFacts.
Import AsyncStorage Cart.

Lemma ids_of_filter (ids : list string) (ps : list Product.t) :
  List.map Product.id (List.filter (fun p => bool_decide (Product.id p ∈ ids)) ps)
  = filter (fun x => x ∈ ids) (List.map Product.id ps).
Proof.
  induction ps as [ | p ps IH ]; [ reflexivity | ].
  cbn [List.filter List.map]. rewrite filter_cons.
  destruct (decide (Product.id p ∈ ids)) as [Hin | Hout].
  - rewrite (bool_decide_eq_true_2 _ Hin). cbn. now rewrite IH.
  - rewrite (bool_decide_eq_false_2 _ Hout). exact IH.
Qed.

(** With unique ids on both sides, a cart whose products all exist gets
    one row back per line. *)
Lemma available_product_count (ps : list Product.t) (c : list CartItem.t) :
  NoDup (List.map Product.id ps) -> NoDup (List.map CartItem.id c) ->
  (forall i, i ∈ c -> CartItem.id i ∈ List.map Product.id ps) ->
  length (List.filter (fun p => bool_decide (Product.id p ∈ List.map CartItem.id c)) ps)
  = length c.
Proof.
  intros Hps Hc Hall.
  rewrite <- (length_map Product.id), ids_of_filter, <- (length_map CartItem.id c).
  apply Permutation_length, NoDup_Permutation; [ now apply NoDup_filter | exact Hc | ].
  intros x. rewrite list_elem_of_filter. split; [ now intros [] | ].
  intros Hx. split; [ exact Hx | ].
  apply list_elem_of_In, in_map_iff in Hx as (i & <- & Hi).
  now apply Hall, list_elem_of_In.
Qed.

(** A cart with two lines of one product gets fewer rows back than it has
    lines. *)
Lemma repeated_product_count (ps : list Product.t) (c : list CartItem.t) :
  NoDup (List.map Product.id ps) -> ~ NoDup (List.map CartItem.id c) ->
  length (List.filter (fun p => bool_decide (Product.id p ∈ List.map CartItem.id c)) ps)
  < length c.
Proof.
  intros Hps Hc.
  rewrite <- (length_map Product.id), ids_of_filter, <- (length_map CartItem.id c).
  set (ids := List.map CartItem.id c) in *.
  assert (HF : NoDup (filter (fun x => x ∈ ids) (List.map Product.id ps)))
    by now apply NoDup_filter.
  assert (Hrep : exists i j x, i <> j /\ ids !! i = Some x /\ ids !! j = Some x).
  { clear -Hc. induction ids as [ | a ids IH ]; [ destruct Hc; constructor | ].
    destruct (decide (a ∈ ids)) as [Hin | Hout].
    - apply list_elem_of_lookup in Hin as [k Hk].
      exists 0, (S k), a. repeat split; [ lia | exact Hk ].
    - destruct IH as (i & j & x & Hij & Hi & Hj).
      { intros Hnd. apply Hc. now constructor. }
      exists (S i), (S j), x. repeat split; [ lia | exact Hi | exact Hj ]. }
  destruct Hrep as (i & j & x & Hij & Hi & Hj).
  assert (Hsub : forall y, y ∈ filter (fun x => x ∈ ids) (List.map Product.id ps)
                           -> y ∈ delete j ids).
  { intros y Hy. apply list_elem_of_filter in Hy as [Hy _].
    apply list_elem_of_lookup in Hy as [k Hk].
    apply list_elem_of_lookup.
    destruct (decide (k = j)) as [-> | Hkj].
    - assert (y = x) as -> by congruence.
      destruct (decide (i < j)).
      + exists i. now rewrite list_lookup_delete_lt.
      + exists (i - 1). rewrite list_lookup_delete_ge by lia.
        now replace (S (i - 1)) with i by lia.
    - destruct (decide (k < j)).
      + exists k. now rewrite list_lookup_delete_lt.
      + exists (k - 1). rewrite list_lookup_delete_ge by lia.
        now replace (S (k - 1)) with k by lia. }
  pose proof (submseteq_length _ _ (NoDup_submseteq _ _ HF Hsub)) as Hle.
  rewrite length_delete in Hle by eauto.
  apply lookup_lt_Some in Hj. lia.
Qed.

End CheckoutFacts.

(** X1. With a payment method selected, a signed-in user, a readable
    selected location, unique product ids, every product of the cart in the
    products table, no product twice in the cart and no failing request,
    [placeOrder] inserts the order row and one order item per line (the
    line's product, quantity and price, under the new order id), empties
    the cart, removes both cart keys and no other key, shows one success
    notification and navigates to the new order; its requests are, in
    order, the user, the order, the products and the order items. *)
Theorem place_order_success
    (env : Cart.Env) (w : Cart.World) (payment uid : string) (locationId : option string) :
  Cart.selectedPaymentId w = Some payment -> payment <> EmptyString ->
  Cart.user env = Some uid ->
  Location.currentLocId (AsyncStorage.getItem "selectedLocation" (Cart.storage w))
    = Some locationId ->
  Cart.orders_insert_error env = false ->
  Cart.products_select_error env = false ->
  Cart.order_items_insert_error env = false ->
  NoDup (List.map Product.id (Cart.products w)) ->
  Statements2.unique_lines (Cart.cart w) ->
  Statements2.all_available w ->
  let row := Order.mk (Cart.new_order_id env) uid locationId "Pending"
               (Cart.uuid_v4 env) payment (Cart.pickupTime w) in
  let w' := fst (Cart.placeOrder env w) in
  snd (Cart.placeOrder env w) = Returned /\
  Cart.orders w' = Cart.orders w ++ [row] /\
  length (Cart.order_items w') = length (Cart.order_items w) + length (Cart.cart w) /\
  (forall n i, Cart.cart w !! n = Some i ->
     Cart.order_items w' !! (length (Cart.order_items w) + n)
     = Some (OrderItem.mk (Cart.new_order_id env) (CartItem.id i)
               (CartItem.quantity i) (CartItem.price i))) /\
  Cart.cart w' = [] /\
  AsyncStorage.getItem "cart" (Cart.storage w') = None /\
  AsyncStorage.getItem "cartLocationId" (Cart.storage w') = None /\
  (forall k, k <> "cart" -> k <> "cartLocationId" ->
     AsyncStorage.getItem k (Cart.storage w') = AsyncStorage.getItem k (Cart.storage w)) /\
  Cart.toasts w' = Cart.toasts w ++ [toast success "Order placed successfully!"] /\
  Cart.navigated w' = Cart.navigated w ++ [("OrderDetails", Cart.new_order_id env)] /\
  Cart.calls w' = Cart.calls w ++ [Cart.AuthGetUser; Cart.InsertOrder row;
                                   Cart.SelectProducts (List.map CartItem.id (Cart.cart w));
                                   Cart.InsertOrderItems
                                     (List.map (Cart.order_item (Cart.new_order_id env))
                                        (Cart.cart w))].
Proof.
  intros Hpay Hpay' Huser Hloc Hins Hsel Hitems Hnd Huniq Hall row w'.
  subst w'. unfold Cart.placeOrder.
  rewrite Hpay, (proj2 (CartScreenFacts.truthy_spec payment) Hpay'). cbn [negb].
  cbn [Cart.storage Cart.add_call]. rewrite Hloc, Huser, Hins.
  cbn [Cart.cart Cart.add_call Cart.set_orders Order.id Cart.pickupTime].
  fold row. unfold Cart.validProducts. rewrite Hsel.
  cbn [Cart.products Cart.add_call Cart.set_orders].
  rewrite (CheckoutFacts.available_product_count _ _ Hnd Huniq Hall).
  rewrite Nat.eqb_refl. cbn [negb]. rewrite Hitems. cbn.
  unfold AsyncStorage.getItem, AsyncStorage.removeItem.
  repeat split.
  - now rewrite length_app, length_map.
  - intros n i Hn. rewrite lookup_app_r by lia.
    replace (length (Cart.order_items w) + n - length (Cart.order_items w)) with n by lia.
    change (List.map ?f ?l) with (f <$> l). now rewrite list_lookup_fmap, Hn.
  - rewrite lookup_delete_ne by discriminate. apply lookup_delete_eq.
  - apply lookup_delete_eq.
  - intros k Hk1 Hk2. now rewrite !lookup_delete_ne by congruence.
  - rewrite <- !app_assoc. reflexivity.
Qed.

Lemma place_order_success_witness :
  let price := JSON.mkNumber false 3 (Decimal.D4 (Decimal.D9 Decimal.Nil)) in
  let env := Cart.mkEnv (Some "u1") "o9" "b-42" false false false in
  let w := Cart.mkWorld [CartItem.mk "p1" "Milk" price 2]
             (Some "pay1") "2026-01-05T10:00:00.000Z"
             {[ "cart" := "[]";
                "selectedLocation" := Location.stringify (Location.mk "loc-2" "Harbour") ]}
             [] [Product.mk "p1" "Milk" price; Product.mk "p2" "Eggs" price] [] [] [] [] in
  Cart.order_items (fst (Cart.placeOrder env w)) = [OrderItem.mk "o9" "p1" 2 price] /\
  Cart.cart (fst (Cart.placeOrder env w)) = [] /\
  AsyncStorage.getItem "cart" (Cart.storage (fst (Cart.placeOrder env w))) = None.
Proof.
  intros price env w.
  assert (Hloc : Location.currentLocId
                   (AsyncStorage.getItem "selectedLocation" (Cart.storage w))
                 = Some (Some "loc-2")) by (vm_compute; reflexivity).
  assert (Hnd : NoDup (List.map Product.id (Cart.products w))).
  { apply NoDup_ListNoDup. cbn.
    repeat (constructor; [ cbn; intros H; intuition discriminate | ]). constructor. }
  assert (Hu : Statements2.unique_lines (Cart.cart w)).
  { apply NoDup_ListNoDup. cbn. repeat (constructor; [ cbn; tauto | ]). constructor. }
  assert (Ha : Statements2.all_available w).
  { intros i Hi. cbn in Hi. apply list_elem_of_singleton in Hi as ->. cbn. left. }
  destruct (place_order_success env w "pay1" "u1" (Some "loc-2")
              eq_refl ltac:(discriminate) eq_refl Hloc eq_refl eq_refl eq_refl Hnd Hu Ha)
    as (_ & _ & _ & _ & Hc & Hk & _).
  split; [ reflexivity | ]. split; [ exact Hc | exact Hk ].
Defined.

(** X2. A cart with two lines of one product never checks out: with unique
    product ids, once the order row is inserted the availability check
    fails (the table returns at most one row per product, fewer than the
    cart has lines), even when every product exists and no request fails;
    [placeOrder] shows "Some items are no longer available.", keeps the
    inserted order row, writes no order item and keeps the cart. *)
Theorem repeated_line_blocks_checkout
    (env : Cart.Env) (w : Cart.World) (payment uid : string) (locationId : option string) :
  Cart.selectedPaymentId w = Some payment -> payment <> EmptyString ->
  Cart.user env = Some uid ->
  Location.currentLocId (AsyncStorage.getItem "selectedLocation" (Cart.storage w))
    = Some locationId ->
  Cart.orders_insert_error env = false ->
  NoDup (List.map Product.id (Cart.products w)) ->
  ~ Statements2.unique_lines (Cart.cart w) ->
  let row := Order.mk (Cart.new_order_id env) uid locationId "Pending"
               (Cart.uuid_v4 env) payment (Cart.pickupTime w) in
  let w' := fst (Cart.placeOrder env w) in
  Cart.toasts w' = Cart.toasts w ++ [toast error "Some items are no longer available."] /\
  Cart.orders w' = Cart.orders w ++ [row] /\
  Cart.order_items w' = Cart.order_items w /\
  Cart.cart w' = Cart.cart w /\
  Cart.storage w' = Cart.storage w.
Proof.
  intros Hpay Hpay' Huser Hloc Hins Hnd Hrep row w'.
  subst w'. unfold Cart.placeOrder.
  rewrite Hpay, (proj2 (CartScreenFacts.truthy_spec payment) Hpay'). cbn [negb].
  cbn [Cart.storage Cart.add_call]. rewrite Hloc, Huser, Hins.
  cbn [Cart.cart Cart.add_call Cart.set_orders Order.id Cart.pickupTime].
  fold row.
  match goal with
  | |- context [negb (?n =? length (Cart.cart w))] => set (found := n)
  end.
  assert (Hfound : found < length (Cart.cart w)).
  { subst found. unfold Cart.validProducts. cbn.
    destruct (Cart.products_select_error env).
    - destruct (Cart.cart w); [ destruct Hrep; constructor | cbn; lia ].
    - now apply CheckoutFacts.repeated_product_count. }
  destruct (Nat.eqb_spec found (length (Cart.cart w))) as [ | _ ]; [ lia | ].
  cbn. repeat split.
Qed.

Lemma repeated_line_blocks_checkout_witness :
  let price := JSON.mkNumber false 3 (Decimal.D4 (Decimal.D9 Decimal.Nil)) in
  let env := Cart.mkEnv (Some "u1") "o9" "b-42" false false false in
  let w := Cart.mkWorld [CartItem.mk "p1" "Milk" price 2; CartItem.mk "p1" "Milk" price 1]
             (Some "pay1") "2026-01-05T10:00:00.000Z"
             {[ "selectedLocation" := Location.stringify (Location.mk "loc-2" "Harbour") ]}
             [] [Product.mk "p1" "Milk" price] [] [] [] [] in
  ~ Statements2.unique_lines (Cart.cart w) /\
  Cart.toasts (fst (Cart.placeOrder env w))
    = [toast error "Some items are no longer available."] /\
  Cart.order_items (fst (Cart.placeOrder env w)) = [].
Proof.
  intros price env w.
  assert (Hrep : ~ Statements2.unique_lines (Cart.cart w)).
  { intros H. apply NoDup_ListNoDup in H. cbn in H. inversion H as [ | ? ? Hin _ ].
    apply Hin. now left. }
  assert (Hloc : Location.currentLocId
                   (AsyncStorage.getItem "selectedLocation" (Cart.storage w))
                 = Some (Some "loc-2")) by (vm_compute; reflexivity).
  assert (Hnd : NoDup (List.map Product.id (Cart.products w))).
  { apply NoDup_ListNoDup. cbn. repeat (constructor; [ cbn; tauto | ]). constructor. }
  destruct (repeated_line_blocks_checkout env w "pay1" "u1" (Some "loc-2")
              eq_refl ltac:(discriminate) eq_refl Hloc eq_refl Hnd Hrep)
    as (Ht & _ & Hi & _).
  split; [ exact Hrep | ]. split; [ exact Ht | exact Hi ].
Defined.

(** X3. [handleCheckout] places no order for an empty cart, for a user who
    is not signed in, or with no selected location stored: it shows one
    error notification and changes neither the tables, the storage nor the
    cart, having asked at most for the user.  In every other case it is
    [placeOrder] after that one request. *)
Theorem checkout_guards (env : Cart.Env) (w : Cart.World) :
  let w' := fst (Cart.handleCheckout env w) in
  let sel := AsyncStorage.getItem "selectedLocation" (Cart.storage w) in
  (Cart.cart w = [] \/ Cart.user env = None \/ sel = None \/ sel = Some EmptyString ->
   (exists msg, Cart.toasts w' = Cart.toasts w ++ [toast error msg]) /\
   Cart.orders w' = Cart.orders w /\ Cart.order_items w' = Cart.order_items w /\
   Cart.storage w' = Cart.storage w /\ Cart.cart w' = Cart.cart w /\
   (Cart.calls w' = Cart.calls w \/ Cart.calls w' = Cart.calls w ++ [Cart.AuthGetUser])) /\
  (Cart.cart w <> [] -> Cart.user env <> None ->
   (exists s, sel = Some s /\ s <> EmptyString) ->
   Cart.handleCheckout env w = Cart.placeOrder env (Cart.add_call Cart.AuthGetUser w)).
Proof.
  intros w' sel. subst w'. unfold Cart.handleCheckout. fold sel. split.
  - intros Hcase.
    destruct (Cart.cart w) as [ | i c ] eqn:Hc; cbn [length Nat.eqb].
    { cbn. rewrite Hc. repeat split; eauto. }
    destruct (Cart.user env) as [u | ] eqn:Hu.
    + cbn [Cart.storage Cart.add_call]. fold sel.
      destruct Hcase as [ | [ | [Hs | Hs]]]; try discriminate;
        rewrite Hs; cbn; rewrite ?Hc; repeat split; eauto.
    + cbn. rewrite ?Hc. repeat split; eauto.
  - intros Hc Hu (s & Hs & Hs').
    destruct (Cart.cart w) as [ | i c ]; [ congruence | ]. cbn [length Nat.eqb].
    destruct (Cart.user env); [ | congruence ].
    cbn [Cart.storage Cart.add_call]. fold sel. rewrite Hs. unfold JS.if_truthy.
    now rewrite (proj2 (CartScreenFacts.truthy_spec s) Hs').
Qed.

Lemma checkout_guards_witness :
  let env := Cart.mkEnv None "o9" "b-42" false false false in
  let w := Cart.mkWorld [CartItem.mk "p1" "Milk" (JSON.of_Z 3) 2] (Some "pay1") ""
             ∅ [] [] [] [] [] [] in
  Cart.orders (fst (Cart.handleCheckout env w)) = [] /\
  Cart.calls (fst (Cart.handleCheckout env w)) = [Cart.AuthGetUser].
Proof.
  intros env w.
  destruct (checkout_guards env w) as [Hguard _].
  destruct (Hguard (or_intror (or_introl eq_refl))) as (_ & Ho & _ & _ & _ & Hcalls).
  split; [ exact Ho | ].
  destruct Hcalls as [Hc | Hc]; [ | exact Hc ]. cbn in Hc. discriminate Hc.
Defined.

(** ** The cart across screens and mounts *)

Module MountFacts.
Import AsyncStorage Cart.

Lemma currentLocId_stringify (l : Location.t) :
  Location.currentLocId (Some (Location.stringify l)) = Some (Some (Location.id l)).
Proof.
  unfold Location.currentLocId, Location.stringify, JS.if_truthy.
  replace (JS.truthy _) with true by reflexivity.
  now rewrite JSONFacts.parse_stringify.
Qed.

(** The first effect on a storage whose cart was written by the
    application. *)
Lemma clear_unfold (w : World) (cur : option string) (c : list CartItem.t) :
  Location.currentLocId (getItem "selectedLocation" (storage w)) = Some cur ->
  getItem "cart" (storage w) = Some (CartItem.stringify c) ->
  clearIfLocationChanged w
  = if (0 <? length c) && differs (getItem "cartLocationId" (storage w)) cur
    then add_toast (toast info "Location changed – cart was cleared.")
           (set_storage (removeItem "cart" (storage w)) (setCart [] w))
    else w.
Proof.
  intros Hcur Hcart. unfold clearIfLocationChanged. rewrite Hcur, Hcart.
  unfold JS.if_truthy. rewrite CartFacts.stringify_truthy.
  unfold CartItem.stringify. rewrite JSONFacts.parse_stringify.
  cbn [has_elements CartItem.list_to_json]. rewrite length_map. reflexivity.
Qed.

(** Without a stored cart location the first effect does nothing. *)
Lemma clear_without_cart_location (w : World) :
  getItem "cartLocationId" (storage w) = None -> clearIfLocationChanged w = w.
Proof.
  intros H. unfold clearIfLocationChanged. rewrite H. cbn [differs].
  repeat case_match; try reflexivity. now rewrite andb_false_r in *.
Qed.

Lemma storage_setCart (c : list CartItem.t) (w : World) : storage (setCart c w) = storage w.
Proof. reflexivity. Qed.

Lemma setCart_setCart (c c' : list CartItem.t) (w : World) :
  setCart c (setCart c' w) = setCart c w.
Proof. reflexivity. Qed.

Lemma differs_same (s : string) : differs (Some s) (Some s) = false.
Proof. cbn. rewrite String.eqb_refl. apply andb_false_r. Qed.

Lemma differs_other (s : string) (cur : option string) :
  s <> EmptyString -> cur <> Some s -> differs (Some s) cur = true.
Proof.
  intros Hs Hcur. cbn. rewrite (proj2 (CartScreenFacts.truthy_spec s) Hs). cbn.
  destruct cur as [c | ]; [ | reflexivity ].
  destruct (String.eqb_spec s c); [ congruence | reflexivity ].
Qed.

Lemma load_stored (w : World) (c : list CartItem.t) :
  getItem "cart" (storage w) = Some (CartItem.stringify c) -> loadCart w = setCart c w.
Proof.
  intros H. unfold loadCart. rewrite H. unfold JS.if_truthy.
  now rewrite CartFacts.stringify_truthy, CartFacts.parse_stringify_cart.
Qed.

Lemma load_absent (w : World) : getItem "cart" (storage w) = None -> loadCart w = w.
Proof. intros H. unfold loadCart. now rewrite H. Qed.

(** What [persist] leaves under the three keys the mount effects read. *)
Lemma persist_storage (c : list CartItem.t) (w : World) (cur : option string) :
  Location.currentLocId (getItem "selectedLocation" (storage w)) = Some cur ->
  let st := storage (fst (persist c w)) in
  getItem "cart" st = Some (CartItem.stringify c) /\
  getItem "selectedLocation" st = getItem "selectedLocation" (storage w) /\
  (getItem "cartLocationId" st = None \/
   exists s, cur = Some s /\ c <> [] /\ s <> EmptyString /\ getItem "cartLocationId" st = Some s).
Proof.
  intros Hcur. unfold persist. rewrite CartScreenFacts.persist_sel, Hcur.
  destruct cur as [loc | ].
  - destruct (0 <? length c) eqn:Hlen; cbn [andb].
    + destruct (JS.truthy loc) eqn:Hloc; cbn; unfold getItem, setItem, removeItem.
      * repeat split.
        -- rewrite lookup_insert_ne by discriminate. apply lookup_insert_eq.
        -- now rewrite !lookup_insert_ne by discriminate.
        -- right. exists loc. repeat split.
           ++ now apply CartScreenFacts.length_pos.
           ++ now apply CartScreenFacts.truthy_spec.
           ++ apply lookup_insert_eq.
      * repeat split.
        -- rewrite lookup_delete_ne by discriminate. apply lookup_insert_eq.
        -- rewrite lookup_delete_ne by discriminate. now rewrite lookup_insert_ne by discriminate.
        -- left. apply lookup_delete_eq.
    + cbn; unfold getItem, setItem, removeItem. repeat split.
      * rewrite lookup_delete_ne by discriminate. apply lookup_insert_eq.
      * rewrite lookup_delete_ne by discriminate. now rewrite lookup_insert_ne by discriminate.
      * left. apply lookup_delete_eq.
  - cbn; unfold getItem, setItem, removeItem. repeat split.
    + rewrite lookup_delete_ne by discriminate. apply lookup_insert_eq.
    + rewrite lookup_delete_ne by discriminate. now rewrite lookup_insert_ne by discriminate.
    + left. apply lookup_delete_eq.
Qed.

(** What confirming a listed location leaves in the storage. *)
Lemma confirm_location (id : string) (locations : list Location.t) (st : AsyncStorage.t) :
  id <> EmptyString -> (exists loc, loc ∈ locations /\ Location.id loc = id) ->
  let st' := fst (SelectLocation.handleConfirmLocation (Some id) locations st) in
  Location.currentLocId (getItem "selectedLocation" st') = Some (Some id) /\
  getItem "location_id" st' = Some id /\
  forall k, k <> "selectedLocation" -> k <> "location_id" -> getItem k st' = getItem k st.
Proof.
  intros Hid (loc & Hin & Hloc) st'. subst st'.
  unfold SelectLocation.handleConfirmLocation, JS.if_truthy.
  rewrite (proj2 (CartScreenFacts.truthy_spec id) Hid).
  destruct (List.find _ locations) as [found | ] eqn:Hfind.
  - apply find_some in Hfind as [_ Heq]. apply String.eqb_eq in Heq.
    cbn [fst]. unfold getItem, setItem.
    rewrite lookup_insert_ne by discriminate. rewrite !lookup_insert_eq.
    rewrite (currentLocId_stringify (Location.mk _ _)). cbn [Location.id].
    rewrite Heq. repeat split.
    intros k Hk1 Hk2. now rewrite !lookup_insert_ne by congruence.
  - apply list_elem_of_In in Hin.
    pose proof (find_none _ _ Hfind loc Hin) as Hf. cbn beta in Hf.
    rewrite Hloc, String.eqb_refl in Hf. discriminate Hf.
Qed.

End MountFacts.

(** X4. A cart saved by [persist] survives a remount of the Cart screen
    while the selected location stays as it was: on the storage [persist]
    leaves, whatever cart the fresh screen starts with, the location check
    changes nothing and [loadCart] shows the saved cart again, in either
    order of the two effects. *)
Theorem persisted_cart_survives_remount
    (c c0 : list CartItem.t) (w : Cart.World) (cur : option string) :
  Location.currentLocId (AsyncStorage.getItem "selectedLocation" (Cart.storage w)) = Some cur ->
  let mounted := Cart.setCart c0 (fst (Cart.persist c w)) in
  Cart.clearIfLocationChanged mounted = mounted /\
  Cart.loadCart (Cart.clearIfLocationChanged mounted) = Cart.setCart c mounted /\
  Cart.clearIfLocationChanged (Cart.loadCart mounted) = Cart.setCart c mounted.
Proof.
  intros Hcur mounted.
  destruct (MountFacts.persist_storage c w cur Hcur) as (Hcart & Hsel & Hid).
  assert (Hclear : forall c1, Cart.clearIfLocationChanged
                                (Cart.setCart c1 (fst (Cart.persist c w)))
                              = Cart.setCart c1 (fst (Cart.persist c w))).
  { intros c1. destruct Hid as [Hid | (s & -> & _ & _ & Hid)].
    - now apply MountFacts.clear_without_cart_location.
    - rewrite (MountFacts.clear_unfold _ (Some s) c).
      + rewrite MountFacts.storage_setCart, Hid, MountFacts.differs_same.
        now rewrite andb_false_r.
      + now rewrite MountFacts.storage_setCart, Hsel.
      + exact Hcart. }
  subst mounted.
  split; [ apply Hclear | ]. split.
  - rewrite Hclear. now apply MountFacts.load_stored.
  - rewrite (MountFacts.load_stored _ c) by exact Hcart.
    rewrite MountFacts.setCart_setCart. apply Hclear.
Qed.

Lemma persisted_cart_survives_remount_witness :
  let c := [CartItem.mk "p1" "Milk" (JSON.mkNumber false 3 (Decimal.D4 (Decimal.D9 Decimal.Nil))) 2] in
  let w := Cart.mkWorld [] None ""
             {[ "selectedLocation" := Location.stringify (Location.mk "loc-7" "Main Street") ]}
             [] [] [] [] [] [] in
  Cart.cart (Cart.loadCart (Cart.clearIfLocationChanged
                              (Cart.setCart [] (fst (Cart.persist c w))))) = c.
Proof.
  intros c w.
  destruct (persisted_cart_survives_remount c [] w (Some "loc-7")
              (MountFacts.currentLocId_stringify (Location.mk "loc-7" "Main Street")))
    as (_ & H & _).
  rewrite H. reflexivity.
Defined.

(** X5. Only the quantity and delete buttons of the Cart screen store a
    cart location: after any sequence of other actions (adding from any
    catalog screen, reordering, choosing a store or a location, confirming
    a pickup time, clearing the cart, checking out), a storage without the
    key "cartLocationId" still has none, and the location check of the
    Cart screen then leaves the cart and the storage as they are, whatever
    location is selected. *)
Theorem unedited_cart_is_never_cleared
    (l : list App.Action) (st : AsyncStorage.t) (w : Cart.World) :
  Forall (fun a => Statements2.cart_edit a = false) l ->
  AsyncStorage.getItem "cartLocationId" st = None ->
  let st' := Statements2.storage_after_all l st in
  AsyncStorage.getItem "cartLocationId" st' = None /\
  Cart.clearIfLocationChanged (Cart.set_storage st' w) = Cart.set_storage st' w.
Proof.
  intros Hl Hst st'.
  assert (Hnone : AsyncStorage.getItem "cartLocationId" st' = None).
  { subst st'. unfold Statements2.storage_after_all.
    revert st Hst. induction Hl as [ | a l Ha _ IH ]; intros st Hst; [ exact Hst | ].
    cbn [fold_left]. apply IH.
    destruct a as [ p q | p | p | p | p | p | d | i | | sel locs | env w0 | w0 | e w0 | w0
                  | env w0 | env w0 | suffix value | suffix ];
      try discriminate Ha; cbn [App.storage_after].
    - unfold ProductDetails.handleAddToCart. repeat case_match; cbn; rewrite <- Hst; try StorageFacts.frame.
    - unfold ProductCard.handleAddToCart. repeat case_match; cbn; rewrite <- Hst; StorageFacts.frame.
    - unfold EmployeeView.pressProductCard, ProductCard.handleAddToCart,
        EmployeeView.handleAddToCart.
      repeat case_match; cbn; rewrite <- Hst; StorageFacts.frame.
    - unfold FeatureScreen.handleAddToCart. repeat case_match; cbn; rewrite <- Hst; StorageFacts.frame.
    - unfold EmployeeView.handleAddToCart. repeat case_match; cbn; rewrite <- Hst; StorageFacts.frame.
    - unfold EmployeeHistory.handleAddToCart. repeat case_match; cbn; rewrite <- Hst; StorageFacts.frame.
    - unfold OrderDetails.reorderItems. repeat case_match; cbn; rewrite <- Hst; StorageFacts.frame.
    - cbn. rewrite <- Hst. StorageFacts.frame.
    - cbn. rewrite <- Hst. StorageFacts.frame.
    - unfold SelectLocation.handleConfirmLocation, JS.if_truthy.
      repeat case_match; cbn; rewrite <- Hst; StorageFacts.frame.
    - unfold PickUpTime.confirmSelection. repeat case_match; cbn; rewrite <- Hst; StorageFacts.frame.
    - unfold Cart.clearIfLocationChanged. repeat case_match; cbn; rewrite <- Hst; StorageFacts.frame.
    - cbn. unfold AsyncStorage.getItem, AsyncStorage.removeItem. apply lookup_delete_eq.
    - unfold Cart.handleCheckout, JS.if_truthy, Cart.placeOrder.
      repeat case_match; cbn; try (rewrite <- Hst; StorageFacts.frame);
        unfold AsyncStorage.getItem, AsyncStorage.removeItem; apply lookup_delete_eq.
    - unfold Cart.placeOrder.
      repeat case_match; cbn; try (rewrite <- Hst; StorageFacts.frame);
        unfold AsyncStorage.getItem, AsyncStorage.removeItem; apply lookup_delete_eq.
    - rewrite <- Hst. unfold SupabaseAuth.setItem, SupabaseAuth.storageKey.
      cbn. StorageFacts.frame.
    - rewrite <- Hst. unfold SupabaseAuth.removeItem, SupabaseAuth.storageKey.
      cbn. StorageFacts.frame. }
  split; [ exact Hnone | ]. now apply MountFacts.clear_without_cart_location.
Qed.

Lemma unedited_cart_is_never_cleared_witness :
  let milk := Product.mk "p1" "Milk" (JSON.of_Z 3) in
  let locs := [Location.mk "loc-1" "Main Street"; Location.mk "loc-2" "Harbour"] in
  let l := [App.SelectLocation_handleConfirmLocation (Some "loc-1") locs;
            App.ProductCard_handleAddToCart milk;
            App.EmployeeView_pressProductCard milk;
            App.SupabaseAuth_setItem "" "session";
            App.SelectLocation_handleConfirmLocation (Some "loc-2") locs] in
  let w := Cart.mkWorld [] None "" ∅ [] [] [] [] [] [] in
  let st' := Statements2.storage_after_all l ∅ in
  Cart.clearIfLocationChanged (Cart.set_storage st' w) = Cart.set_storage st' w.
Proof.
  intros milk locs l w st'.
  refine (proj2 (unedited_cart_is_never_cleared l ∅ w _ _)).
  - repeat constructor.
  - reflexivity.
Defined.

(** X6. Confirming a location of the list stores it so that every reader
    finds it: the selected location then reads back with the chosen id,
    "location_id" holds that id, and no other key changes.  With no
    selection, or a selection that is not in the list, nothing is
    written. *)
Theorem confirmed_location_reads_back
    (sel : option string) (locations : list Location.t) (st : AsyncStorage.t) :
  let st' := fst (SelectLocation.handleConfirmLocation sel locations st) in
  (forall id, sel = Some id -> id <> EmptyString ->
     (exists loc, loc ∈ locations /\ Location.id loc = id) ->
     Location.currentLocId (AsyncStorage.getItem "selectedLocation" st') = Some (Some id) /\
     AsyncStorage.getItem "location_id" st' = Some id /\
     forall k, k <> "selectedLocation" -> k <> "location_id" ->
       AsyncStorage.getItem k st' = AsyncStorage.getItem k st) /\
  (sel = None \/ sel = Some EmptyString \/
   (forall loc, loc ∈ locations -> Some (Location.id loc) <> sel) -> st' = st).
Proof.
  intros st'. subst st'. split.
  - intros id -> Hid Hloc. now apply MountFacts.confirm_location.
  - unfold SelectLocation.handleConfirmLocation.
    intros [-> | [-> | Hnone]]; [ reflexivity | reflexivity | ].
    unfold JS.if_truthy. destruct sel as [id | ]; [ | reflexivity ].
    destruct (JS.truthy id); [ | reflexivity ].
    destruct (List.find _ locations) as [found | ] eqn:Hfind; [ | reflexivity ].
    apply find_some in Hfind as [Hin Heq]. apply String.eqb_eq in Heq.
    destruct (Hnone found); [ now apply list_elem_of_In | now rewrite Heq ].
Qed.

Lemma confirmed_location_reads_back_witness :
  let locs := [Location.mk "loc-1" "Main Street"; Location.mk "loc-2" "Harbour"] in
  let st' := fst (SelectLocation.handleConfirmLocation (Some "loc-2") locs ∅) in
  Location.currentLocId (AsyncStorage.getItem "selectedLocation" st') = Some (Some "loc-2") /\
  AsyncStorage.getItem "location_id" st' = Some "loc-2".
Proof.
  intros locs st'.
  assert (Hin : exists loc, loc ∈ locs /\ Location.id loc = "loc-2").
  { exists (Location.mk "loc-2" "Harbour"). split; [ | reflexivity ].
    apply list_elem_of_In. right. left. reflexivity. }
  destruct (confirmed_location_reads_back (Some "loc-2") locs ∅) as [H _].
  destruct (H "loc-2" eq_refl ltac:(discriminate) Hin) as (H1 & H2 & _).
  split; [ exact H1 | exact H2 ].
Defined.

(** X7. A cart saved at one location is cleared when the Cart screen is
    next mounted after another location was confirmed: the screen shows an
    empty cart in either order of its two mount effects, the key "cart" is
    removed and one information notification is shown.  The key
    "cartLocationId" keeps the id of the old location. *)
Theorem changed_location_clears_cart_at_next_mount
    (c c0 : list CartItem.t) (w : Cart.World) (old new : string)
    (locations : list Location.t) :
  c <> [] -> old <> EmptyString -> new <> EmptyString -> new <> old ->
  Location.currentLocId (AsyncStorage.getItem "selectedLocation" (Cart.storage w))
    = Some (Some old) ->
  (exists loc, loc ∈ locations /\ Location.id loc = new) ->
  let saved := fst (Cart.persist c w) in
  let st := fst (SelectLocation.handleConfirmLocation (Some new) locations
                   (Cart.storage saved)) in
  let mounted := Cart.set_storage st (Cart.setCart c0 saved) in
  let w' := Cart.clearIfLocationChanged mounted in
  Cart.cart (Cart.loadCart w') = [] /\
  Cart.cart (Cart.clearIfLocationChanged (Cart.loadCart mounted)) = [] /\
  AsyncStorage.getItem "cart" (Cart.storage w') = None /\
  AsyncStorage.getItem "cartLocationId" (Cart.storage w') = Some old /\
  exists t, Cart.toasts w' = Cart.toasts saved ++ [t] /\ type t = info.
Proof.
  intros Hc Hold Hnew Hne Hcur Hloc saved st mounted w'.
  destruct (MountFacts.persist_storage c w (Some old) Hcur) as (Hcart & _ & Hid).
  fold saved in Hcart, Hid.
  destruct Hid as [Hid | (s & [= <-] & _ & _ & Hid)].
  { exfalso. revert Hid. unfold saved, Cart.persist.
    rewrite CartScreenFacts.persist_sel, Hcur.
    rewrite (proj2 (CartScreenFacts.length_pos c) Hc).
    rewrite (proj2 (CartScreenFacts.truthy_spec old) Hold). cbn.
    unfold AsyncStorage.getItem, AsyncStorage.setItem. now rewrite lookup_insert_eq. }
  destruct (MountFacts.confirm_location new locations (Cart.storage saved) Hnew Hloc)
    as (Hsel' & _ & Hframe).
  fold st in Hsel', Hframe.
  assert (Hcart' : AsyncStorage.getItem "cart" st = Some (CartItem.stringify c)).
  { rewrite Hframe by discriminate. exact Hcart. }
  assert (Hid' : AsyncStorage.getItem "cartLocationId" st = Some old).
  { rewrite Hframe by discriminate. exact Hid. }
  assert (Hfire : forall m, Cart.storage m = st ->
            Cart.clearIfLocationChanged m
            = Cart.add_toast (toast info "Location changed – cart was cleared.")
                (Cart.set_storage (AsyncStorage.removeItem "cart" st) (Cart.setCart [] m))).
  { intros m Hm. rewrite (MountFacts.clear_unfold m (Some new) c); rewrite Hm; try assumption.
    rewrite Hid', (proj2 (CartScreenFacts.length_pos c) Hc).
    rewrite MountFacts.differs_other; [ reflexivity | assumption | congruence ]. }
  assert (Hw' : w' = Cart.add_toast (toast info "Location changed – cart was cleared.")
                       (Cart.set_storage (AsyncStorage.removeItem "cart" st)
                          (Cart.setCart [] mounted))) by (apply Hfire; reflexivity).
  assert (Hgone : AsyncStorage.getItem "cart" (Cart.storage w') = None).
  { rewrite Hw'. cbn. apply lookup_delete_eq. }
  repeat split.
  - rewrite (MountFacts.load_absent w' Hgone). now rewrite Hw'.
  - rewrite (MountFacts.load_stored mounted c) by exact Hcart'.
    now rewrite (Hfire (Cart.setCart c mounted) eq_refl).
  - exact Hgone.
  - rewrite Hw'. cbn. unfold AsyncStorage.getItem, AsyncStorage.removeItem in *.
    now rewrite lookup_delete_ne by discriminate.
  - eexists. rewrite Hw'. cbn. split; reflexivity.
Qed.

Lemma changed_location_clears_cart_at_next_mount_witness :
  let c := [CartItem.mk "p1" "Milk" (JSON.of_Z 3) 2] in
  let locs := [Location.mk "loc-1" "Main Street"; Location.mk "loc-2" "Harbour"] in
  let w := Cart.mkWorld c None ""
             {[ "selectedLocation" := Location.stringify (Location.mk "loc-1" "Main Street") ]}
             [] [] [] [] [] [] in
  let saved := fst (Cart.persist c w) in
  let st := fst (SelectLocation.handleConfirmLocation (Some "loc-2") locs
                   (Cart.storage saved)) in
  let w' := Cart.clearIfLocationChanged (Cart.set_storage st (Cart.setCart [] saved)) in
  Cart.cart (Cart.loadCart w') = [] /\
  AsyncStorage.getItem "cartLocationId" (Cart.storage w') = Some "loc-1".
Proof.
  intros c locs w saved st w'.
  assert (Hin : exists loc, loc ∈ locs /\ Location.id loc = "loc-2").
  { exists (Location.mk "loc-2" "Harbour"). split; [ | reflexivity ].
    apply list_elem_of_In. right. left. reflexivity. }
  destruct (changed_location_clears_cart_at_next_mount c [] w "loc-1" "loc-2" locs
              ltac:(discriminate) ltac:(discriminate) ltac:(discriminate)
              ltac:(discriminate)
              (MountFacts.currentLocId_stringify (Location.mk "loc-1" "Main Street")) Hin)
    as (H1 & _ & _ & H2 & _).
  split; [ exact H1 | exact H2 ].
Defined.

(** X8. The location check compares against a cart location that only
    cart edits refresh, so a stale one clears later additions: on a storage
    with no cart and a stored cart location other than the selected one
    (the state the clearing above leaves), a product added from the
    product page is stored as a one-line cart, and the next mount of the
    Cart screen removes it again. *)
Theorem stale_cart_location_clears_added_product
    (w : Cart.World) (p : Product.t) (q : Z) (s : string) (cur : option string) :
  AsyncStorage.getItem "cart" (Cart.storage w) = None ->
  AsyncStorage.getItem "cartLocationId" (Cart.storage w) = Some s -> s <> EmptyString ->
  Location.currentLocId (AsyncStorage.getItem "selectedLocation" (Cart.storage w)) = Some cur ->
  cur <> Some s ->
  let st' := fst (ProductDetails.handleAddToCart p q (Cart.storage w)) in
  let w' := Cart.clearIfLocationChanged (Cart.set_storage st' w) in
  AsyncStorage.getItem "cart" st' = Some (CartItem.stringify [CartItem.of_product p q]) /\
  Cart.cart w' = [] /\
  AsyncStorage.getItem "cart" (Cart.storage w') = None.
Proof.
  intros Hcart Hid Hs Hcur Hne st' w'.
  assert (Hst' : st' = AsyncStorage.setItem "cart"
                         (CartItem.stringify [CartItem.of_product p q]) (Cart.storage w)).
  { subst st'. unfold ProductDetails.handleAddToCart. now rewrite Hcart. }
  assert (Hadded : AsyncStorage.getItem "cart" st'
                   = Some (CartItem.stringify [CartItem.of_product p q])).
  { rewrite Hst'. apply lookup_insert_eq. }
  split; [ exact Hadded | ].
  subst w'. rewrite (MountFacts.clear_unfold _ cur [CartItem.of_product p q]).
  - replace (AsyncStorage.getItem "cartLocationId" (Cart.storage (Cart.set_storage st' w)))
      with (Some s).
    + rewrite MountFacts.differs_other by assumption. cbn. split; [ reflexivity | ].
      apply lookup_delete_eq.
    + rewrite <- Hid, Hst'. cbn. unfold AsyncStorage.getItem, AsyncStorage.setItem.
      now rewrite lookup_insert_ne by discriminate.
  - rewrite <- Hcur, Hst'. cbn. unfold AsyncStorage.getItem, AsyncStorage.setItem.
    now rewrite lookup_insert_ne by discriminate.
  - exact Hadded.
Qed.

Lemma stale_cart_location_clears_added_product_witness :
  let milk := Product.mk "p1" "Milk" (JSON.of_Z 3) in
  let w := Cart.mkWorld [] None ""
             {[ "cartLocationId" := "loc-1";
                "selectedLocation" := Location.stringify (Location.mk "loc-2" "Harbour") ]}
             [] [] [] [] [] [] in
  let st' := fst (ProductDetails.handleAddToCart milk 1 (Cart.storage w)) in
  AsyncStorage.getItem "cart"
    (Cart.storage (Cart.clearIfLocationChanged (Cart.set_storage st' w))) = None.
Proof.
  intros milk w st'.
  assert (Hcur : Location.currentLocId
                   (AsyncStorage.getItem "selectedLocation" (Cart.storage w))
                 = Some (Some "loc-2")) by (vm_compute; reflexivity).
  exact (proj2 (proj2 (stale_cart_location_clears_added_product w milk 1 "loc-1"
                         (Some "loc-2") eq_refl eq_refl ltac:(discriminate) Hcur
                         ltac:(discriminate)))).
Defined.

(** ** Lines and units of the cart *)

Module LineFacts.
Import AsyncStorage Statements2 CartLines.

Lemma ids_alter (g : CartItem.t -> CartItem.t) (n : nat) (cart : list CartItem.t) :
  (forall i, CartItem.id (g i) = CartItem.id i) ->
  List.map CartItem.id (alter g n cart) = List.map CartItem.id cart.
Proof.
  intros Hg. revert n. induction cart as [ | x cart IH ]; intros [ | n ]; cbn; try reflexivity.
  - now rewrite Hg.
  - f_equal. apply IH.
Qed.

Lemma units_app (id : string) (a b : list CartItem.t) :
  units id (a ++ b) = (units id a + units id b)%Z.
Proof.
  induction a as [ | x a IH ]; cbn; [ reflexivity | ].
  fold (units id (a ++ b)). fold (units id a). rewrite IH. destruct (String.eqb _ _); lia.
Qed.

Lemma units_alter (id : string) (g : CartItem.t -> CartItem.t) (n : nat)
    (cart : list CartItem.t) (x : CartItem.t) :
  cart !! n = Some x -> CartItem.id (g x) = CartItem.id x ->
  units id (alter g n cart)
  = (units id cart + if String.eqb (CartItem.id x) id
                     then CartItem.quantity (g x) - CartItem.quantity x else 0)%Z.
Proof.
  intros Hn Hg. revert n Hn.
  induction cart as [ | y cart IH ]; intros [ | n ] Hn; simplify_eq/=.
  - rewrite Hg. fold (units id cart). destruct (String.eqb _ _); lia.
  - fold (units id (alter g n cart)). fold (units id cart). rewrite (IH n Hn).
    destruct (String.eqb (CartItem.id y) id); lia.
Qed.

Lemma merge_cases (pid : string) g new (cart : list CartItem.t) :
  ((forall it, it ∈ cart -> CartItem.id it <> pid) /\ merge pid g new cart = cart ++ [new])
  \/ (exists n x, cart !! n = Some x /\ CartItem.id x = pid /\
                  merge pid g new cart = alter g n cart).
Proof.
  unfold merge, JS.findIndex.
  destruct (CartFacts.findIndex_from_spec
              (fun it => String.eqb (CartItem.id it) pid) cart 0 ltac:(lia))
    as [[Hall ->] | (n & x & Hn & Hx & _ & ->)].
  - left. split; [ | reflexivity ].
    intros it Hin. rewrite Forall_forall in Hall. specialize (Hall it Hin).
    cbn beta in Hall. now apply String.eqb_neq.
  - right. exists n, x. apply String.eqb_eq in Hx.
    replace (0 <=? 0 + Z.of_nat n)%Z with true by (symmetry; apply Z.leb_le; lia).
    now rewrite Z.add_0_l, Nat2Z.id.
Qed.

Lemma merge_unique (pid : string) g new (cart : list CartItem.t) :
  (forall i, CartItem.id (g i) = CartItem.id i) -> CartItem.id new = pid ->
  unique_lines cart -> unique_lines (merge pid g new cart).
Proof.
  intros Hg Hnew Hu. unfold unique_lines in *.
  destruct (merge_cases pid g new cart) as [[Hnone ->] | (n & x & _ & _ & ->)].
  - change (List.map ?f ?l) with (f <$> l). rewrite fmap_app. apply NoDup_app.
    split; [ exact Hu | ]. split; [ | apply NoDup_singleton ].
    intros i Hi Hi'. cbn in Hi'. apply list_elem_of_singleton in Hi'. subst i.
    apply list_elem_of_fmap in Hi as (it & Hit & Hin). apply (Hnone it Hin). congruence.
  - now rewrite ids_alter.
Qed.

Lemma merge_units (pid : string) g new (cart : list CartItem.t) (q : Z) (id : string) :
  (forall i, CartItem.id (g i) = CartItem.id i) ->
  (forall i, CartItem.quantity (g i) = (CartItem.quantity i + q)%Z) ->
  CartItem.id new = pid -> CartItem.quantity new = q ->
  units id (merge pid g new cart)
  = (units id cart + if String.eqb pid id then q else 0)%Z.
Proof.
  intros Hg Hq Hnew Hnewq.
  destruct (merge_cases pid g new cart) as [[_ ->] | (n & x & Hn & Hx & ->)].
  - rewrite units_app. cbn. rewrite Hnew, Hnewq. destruct (String.eqb pid id); lia.
  - rewrite (units_alter id g n cart x Hn (Hg x)), Hx, Hq.
    destruct (String.eqb pid id); lia.
Qed.

Lemma reorder_one_merge (cart : list CartItem.t) (item : CartItem.t) :
  OrderDetails.reorder_one cart item
  = merge (CartItem.id item) (CartItem.add_quantity (CartItem.quantity item)) item cart.
Proof. reflexivity. Qed.

Lemma reorder_unique (items : list CartItem.t) : forall cart,
  unique_lines cart -> unique_lines (fold_left OrderDetails.reorder_one items cart).
Proof.
  induction items as [ | item items IH ]; intros cart Hu; [ exact Hu | ].
  cbn [fold_left]. apply IH. rewrite reorder_one_merge. now apply merge_unique.
Qed.

Lemma reorder_units (id : string) (items : list CartItem.t) : forall cart,
  units id (fold_left OrderDetails.reorder_one items cart)
  = (units id cart + units id items)%Z.
Proof.
  induction items as [ | item items IH ]; intros cart; cbn [fold_left].
  - cbn. lia.
  - rewrite IH, reorder_one_merge.
    rewrite (merge_units _ _ _ _ (CartItem.quantity item) id) by reflexivity.
    cbn. fold (units id items). destruct (String.eqb _ _); lia.
Qed.

Lemma read_empty_default (stored : option string) (cart : list CartItem.t) :
  JS.if_truthy stored CartItem.parse (Some []) = Some cart ->
  CartItem.parse (JS.if_truthy stored (fun s => s) "[]") = Some cart.
Proof.
  unfold JS.if_truthy. destruct stored as [s | ]; [ destruct (JS.truthy s) | ]; intros H;
    try exact H; injection H as <-; reflexivity.
Qed.

Lemma details_stores p q st cart :
  JS.if_truthy (getItem "cart" st) CartItem.parse (Some []) = Some cart ->
  fst (ProductDetails.handleAddToCart p q st)
  = setItem "cart" (CartItem.stringify (add_one p q cart)) st.
Proof. intros H. unfold ProductDetails.handleAddToCart. now rewrite H. Qed.

Lemma card_stores onAddToCart p st cart :
  JS.if_truthy (getItem "cart" st) CartItem.parse (Some []) = Some cart ->
  ProductCard.handleAddToCart onAddToCart p st
  = let st' := setItem "cart" (CartItem.stringify (add_one p 1 cart)) st in
    match onAddToCart with
    | Some callback => (callback p st', true)
    | None => (st', false)
    end.
Proof.
  intros H. unfold ProductCard.handleAddToCart. rewrite H.
  destruct (CartFacts.add_line_added p 1 cart) as [<- _]. reflexivity.
Qed.

Lemma feature_stores p st cart :
  JS.if_truthy (getItem "cart" st) CartItem.parse (Some []) = Some cart ->
  fst (FeatureScreen.handleAddToCart p st)
  = setItem "cart" (CartItem.stringify (add_one p 1 cart)) st.
Proof.
  intros H. unfold FeatureScreen.handleAddToCart.
  now rewrite (CartFacts.stored_cart_reads _ _ H).
Qed.

Lemma employee_view_stores p st cart :
  JS.if_truthy (getItem "cart" st) CartItem.parse (Some []) = Some cart ->
  EmployeeView.handleAddToCart p st
  = setItem "cart" (CartItem.stringify (add_one p 1 cart)) st.
Proof. intros H. unfold EmployeeView.handleAddToCart. now rewrite H. Qed.

Lemma employee_history_stores p st cart :
  JS.if_truthy (getItem "cart" st) CartItem.parse (Some []) = Some cart ->
  fst (EmployeeHistory.handleAddToCart p st)
  = setItem "cart" (CartItem.stringify (add_one p 1 cart)) st.
Proof.
  intros H. unfold EmployeeHistory.handleAddToCart.
  now rewrite (read_empty_default _ _ H).
Qed.

Lemma reorder_stores items st cart :
  JS.if_truthy (getItem "cart" st) CartItem.parse (Some []) = Some cart ->
  fst (OrderDetails.reorderItems (Some items) st)
  = setItem "cart" (CartItem.stringify (fold_left OrderDetails.reorder_one items cart)) st.
Proof. intros H. unfold OrderDetails.reorderItems. now rewrite H. Qed.

Lemma add_one_unique p q cart : unique_lines cart -> unique_lines (add_one p q cart).
Proof. intros Hu. now apply merge_unique. Qed.

Lemma add_one_added p q cart : Statements.added p q cart (add_one p q cart).
Proof. exact (proj2 (CartFacts.add_line_added p q cart)). Qed.

Lemma findIndex_alter {A} (f : A -> bool) (g : A -> A) (n : nat) (l : list A) : forall k,
  (forall x, f (g x) = f x) ->
  JS.findIndex_from f (alter g n l) k = JS.findIndex_from f l k.
Proof.
  intros k Hg. revert n k.
  induction l as [ | x l IH ]; intros [ | n ] k; cbn; try reflexivity.
  - now rewrite Hg.
  - now rewrite IH.
Qed.

Lemma findIndex_last {A} (f : A -> bool) (l : list A) (x : A) : forall k,
  Forall (fun y => f y = false) l -> f x = true ->
  JS.findIndex_from f (l ++ [x]) k = (k + Z.of_nat (length l))%Z.
Proof.
  intros k Hl Hx. revert k. induction Hl as [ | y l Hy _ IH ]; intros k; cbn.
  - rewrite Hx. lia.
  - rewrite Hy, IH. lia.
Qed.

Lemma alter_last {A} (g : A -> A) (l : list A) (x : A) :
  alter g (length l) (l ++ [x]) = l ++ [g x].
Proof. induction l as [ | y l IH ]; cbn; [ reflexivity | now rewrite IH ]. Qed.

(** Adding [q1] and then [q2] of a product is adding [q1 + q2] of it. *)
Lemma add_one_twice p q1 q2 cart :
  add_one p q2 (add_one p q1 cart) = add_one p (q1 + q2) cart.
Proof.
  unfold add_one, merge, JS.findIndex.
  set (f := fun it => String.eqb (CartItem.id it) (Product.id p)).
  destruct (CartFacts.findIndex_from_spec f cart 0 ltac:(lia))
    as [[Hall E] | (n & x & Hn & Hx & _ & E)]; rewrite E.
  - cbn [Z.leb Z.compare].
    rewrite (findIndex_last f cart (CartItem.of_product p q1) 0 Hall)
      by (unfold f; cbn; apply String.eqb_refl).
    replace (0 <=? 0 + Z.of_nat (length cart))%Z with true
      by (symmetry; apply Z.leb_le; lia).
    rewrite Z.add_0_l, Nat2Z.id.
    rewrite alter_last. reflexivity.
  - replace (0 <=? 0 + Z.of_nat n)%Z with true by (symmetry; apply Z.leb_le; lia).
    rewrite findIndex_alter by reflexivity. rewrite E.
    replace (0 <=? 0 + Z.of_nat n)%Z with true by (symmetry; apply Z.leb_le; lia).
    rewrite Z.add_0_l, Nat2Z.id, list_alter_alter_eq.
    apply list_alter_ext; [ | reflexivity ]. intros y _.
    unfold CartItem.add_quantity, CartItem.with_quantity. cbn. f_equal. lia.
Qed.

(** A press of a product card of the EmployeeView screen stores what the
    product page stores for a quantity of two. *)
Lemma press_stores p st cart :
  JS.if_truthy (getItem "cart" st) CartItem.parse (Some []) = Some cart ->
  EmployeeView.pressProductCard p st
  = (setItem "cart" (CartItem.stringify (add_one p (1 + 1) cart)) st, true).
Proof.
  intros H. unfold EmployeeView.pressProductCard.
  rewrite (card_stores _ p st cart H). cbn zeta. f_equal.
  rewrite (employee_view_stores p _ (add_one p 1 cart)).
  - rewrite add_one_twice. unfold setItem. apply insert_insert_eq.
  - unfold getItem, setItem. rewrite lookup_insert_eq. apply CartFacts.read_stored.
Qed.

Lemma reads_after_set (c : list CartItem.t) (st : AsyncStorage.t) :
  JS.if_truthy (getItem "cart" (setItem "cart" (CartItem.stringify c) st))
    CartItem.parse (Some []) = Some c.
Proof.
  unfold getItem, setItem. rewrite lookup_insert_eq. apply CartFacts.read_stored.
Qed.

End LineFacts.

(** ** Adding to the cart *)

(** C1. On a storage whose cart reads as [cart] (the text of a cart, or
    nothing stored for the empty cart), the add-to-cart handlers of
    ProductDetails and of the feature screen, and the handler of
    ProductCard by itself, store a cart in which the first line of the
    product has its quantity raised (by the selected quantity, by 1, by 1)
    with the number of lines unchanged, or, when the product has no line
    yet, a new line with the product and that quantity at the end.  A press
    on a product card where the application mounts it, on the EmployeeView
    screen with the screen's handler as [onAddToCart], stores the cart with
    2 added: the card's handler adds 1 and the callback adds 1 again. *)
Theorem add_to_cart_increments_or_appends
    (cart : list CartItem.t) (p : Product.t) (q : Z) (st : AsyncStorage.t) :
  JS.if_truthy (AsyncStorage.getItem "cart" st) CartItem.parse (Some []) = Some cart ->
  exists details feature card pressed : list CartItem.t,
    AsyncStorage.getItem "cart" (fst (ProductDetails.handleAddToCart p q st))
      = Some (CartItem.stringify details) /\
    AsyncStorage.getItem "cart" (fst (FeatureScreen.handleAddToCart p st))
      = Some (CartItem.stringify feature) /\
    AsyncStorage.getItem "cart" (fst (ProductCard.handleAddToCart None p st))
      = Some (CartItem.stringify card) /\
    AsyncStorage.getItem "cart" (fst (EmployeeView.pressProductCard p st))
      = Some (CartItem.stringify pressed) /\
    Statements.added p q cart details /\
    Statements.added p 1 cart feature /\
    Statements.added p 1 cart card /\
    Statements.added p 2 cart pressed.
Proof.
  intros Hst.
  exists (CartLines.add_one p q cart), (CartLines.add_one p 1 cart),
    (CartLines.add_one p 1 cart), (CartLines.add_one p 2 cart).
  rewrite (LineFacts.details_stores p q st cart Hst).
  rewrite (LineFacts.feature_stores p st cart Hst).
  rewrite (LineFacts.card_stores None p st cart Hst).
  rewrite (LineFacts.press_stores p st cart Hst). cbn [fst].
  unfold AsyncStorage.getItem, AsyncStorage.setItem. rewrite !lookup_insert_eq.
  split_and!; try reflexivity; apply LineFacts.add_one_added.
Qed.

Lemma add_to_cart_increments_or_appends_witness :
  let price := JSON.mkNumber false 3 (Decimal.D4 (Decimal.D9 Decimal.Nil)) in
  let milk := Product.mk "p1" "Milk" price in
  let cart := [CartItem.mk "p0" "Eggs" (JSON.mkNumber false 4 Decimal.Nil) 2;
               CartItem.mk "p1" "Milk" price 1] in
  let st : AsyncStorage.t := {[ "cart" := CartItem.stringify cart ]} in
  JS.if_truthy (AsyncStorage.getItem "cart" st) CartItem.parse (Some []) = Some cart /\
  exists details feature card pressed : list CartItem.t,
    AsyncStorage.getItem "cart" (fst (ProductDetails.handleAddToCart milk 5 st))
      = Some (CartItem.stringify details) /\
    AsyncStorage.getItem "cart" (fst (FeatureScreen.handleAddToCart milk st))
      = Some (CartItem.stringify feature) /\
    AsyncStorage.getItem "cart" (fst (ProductCard.handleAddToCart None milk st))
      = Some (CartItem.stringify card) /\
    AsyncStorage.getItem "cart" (fst (EmployeeView.pressProductCard milk st))
      = Some (CartItem.stringify pressed) /\
    Statements.added milk 5 cart details /\
    Statements.added milk 1 cart feature /\
    Statements.added milk 1 cart card /\
    Statements.added milk 2 cart pressed.
Proof.
  intros price milk cart st.
  assert (H : JS.if_truthy (AsyncStorage.getItem "cart" st) CartItem.parse (Some [])
              = Some cart) by (vm_compute; reflexivity).
  split; [ exact H | ].
  exact (add_to_cart_increments_or_appends cart milk 5 st H).
Defined.

(** C1 (the failing input).  With one unit of a product stored, a press on
    its product card on the EmployeeView screen stores three units, not the
    two that adding 1 gives. *)
Lemma product_card_press_adds_two :
  let price := JSON.mkNumber false 3 (Decimal.D4 (Decimal.D9 Decimal.Nil)) in
  let milk := Product.mk "p1" "Milk" price in
  let cart := [CartItem.mk "p1" "Milk" price 1] in
  let st : AsyncStorage.t := {[ "cart" := CartItem.stringify cart ]} in
  AsyncStorage.getItem "cart" (fst (EmployeeView.pressProductCard milk st))
    = Some (CartItem.stringify [CartItem.mk "p1" "Milk" price 3]) /\
  ~ (exists card,
       AsyncStorage.getItem "cart" (fst (EmployeeView.pressProductCard milk st))
         = Some (CartItem.stringify card) /\
       Statements.added milk 1 cart card).
Proof.
  intros price milk cart st.
  assert (H : AsyncStorage.getItem "cart" (fst (EmployeeView.pressProductCard milk st))
              = Some (CartItem.stringify [CartItem.mk "p1" "Milk" price 3]))
    by (vm_compute; reflexivity).
  split; [ exact H | ].
  intros (card & Hcard & Hadded).
  pose proof (eq_trans (eq_sym H) Hcard) as E.
  apply (f_equal (fun o => match o with Some s => CartItem.parse s | None => None end)) in E.
  cbn beta iota in E. rewrite !CartFacts.parse_stringify_cart in E. injection E as <-.
  destruct Hadded as [(i & it & Hi & _ & _ & E' & _) | [Hnone _]].
  - destruct i as [ | i ]; [ | discriminate Hi ]. injection Hi as <-.
    cbn in E'. discriminate E'.
  - apply (Hnone (CartItem.mk "p1" "Milk" price 1)); [ left | reflexivity ].
Qed.

Module EditFacts.
Import Statements2.

Lemma ids_map (f : CartItem.t -> CartItem.t) (c : list CartItem.t) :
  (forall i, CartItem.id (f i) = CartItem.id i) ->
  List.map CartItem.id (List.map f c) = List.map CartItem.id c.
Proof. intros Hf. rewrite List.map_map. apply List.map_ext. exact Hf. Qed.

Lemma increment_id id i : CartItem.id (Cart.increment id i) = CartItem.id i.
Proof. unfold Cart.increment. now destruct (String.eqb _ _). Qed.

Lemma decrement_id id i : CartItem.id (Cart.decrement id i) = CartItem.id i.
Proof. unfold Cart.decrement. now destruct (_ && _). Qed.

Lemma filter_unique (f : CartItem.t -> bool) (c : list CartItem.t) :
  unique_lines c -> unique_lines (List.filter f c).
Proof.
  unfold unique_lines. induction c as [ | x c IH ]; [ trivial | ].
  cbn [List.map List.filter]. rewrite NoDup_cons. intros [Hx Hc].
  destruct (f x); [ | now apply IH ].
  cbn [List.map]. apply NoDup_cons. split; [ | now apply IH ].
  intros Hin. apply Hx. apply list_elem_of_In in Hin. apply list_elem_of_In.
  apply in_map_iff in Hin as (y & Hy & Hin). apply in_map_iff. exists y.
  split; [ exact Hy | ]. now apply List.filter_In in Hin as [Hin _].
Qed.

Lemma edit_unique (e : Cart.Edit) (w : Cart.World) :
  unique_lines (Cart.cart w) -> unique_lines (Cart.cart (Cart.edit e w)).
Proof.
  intros Hu. destruct e as [id | id | id]; cbn [Cart.edit].
  - unfold Cart.handleIncrement. rewrite CartScreenFacts.persist_cart.
    unfold unique_lines. now rewrite ids_map by apply increment_id.
  - unfold Cart.handleDecrement. rewrite CartScreenFacts.persist_cart.
    unfold unique_lines. now rewrite ids_map by apply decrement_id.
  - rewrite QuantityFacts.cart_handleDelete. now apply filter_unique.
Qed.

End EditFacts.

(** X9. No action gives the cart two lines of one product.  When the
    stored cart reads as a cart without repeated products, it still does
    after an add from any catalog screen and after a reorder (also of an
    order that lists a product twice); and the quantity and delete buttons
    of the Cart screen, in any sequence, keep the shown cart free of
    repeated products. *)
Theorem cart_lines_stay_unique :
  (forall (a : App.Action) (st : AsyncStorage.t) (cart : list CartItem.t),
     Statements2.catalog_add a = true ->
     JS.if_truthy (AsyncStorage.getItem "cart" st) CartItem.parse (Some []) = Some cart ->
     Statements2.unique_lines cart ->
     exists cart',
       JS.if_truthy (AsyncStorage.getItem "cart" (App.storage_after a st))
         CartItem.parse (Some []) = Some cart' /\
       Statements2.unique_lines cart') /\
  (forall (l : list Cart.Edit) (w : Cart.World),
     Statements2.unique_lines (Cart.cart w) ->
     Statements2.unique_lines (Cart.cart (Cart.edits l w))).
Proof.
  split.
  - intros a st cart Ha Hread Hu.
    destruct a as [ p q | p | p | p | p | p | [items | ] | i | | sel locs | env w0 | w0 | e w0
                  | w0 | env w0 | env w0 | suffix value | suffix ];
      try discriminate Ha; cbn [App.storage_after].
    + rewrite (LineFacts.details_stores p q st cart Hread). eexists.
      split; [ apply LineFacts.reads_after_set | now apply LineFacts.add_one_unique ].
    + rewrite (LineFacts.card_stores None p st cart Hread). eexists.
      split; [ apply LineFacts.reads_after_set | now apply LineFacts.add_one_unique ].
    + rewrite (LineFacts.press_stores p st cart Hread). eexists.
      split; [ apply LineFacts.reads_after_set | now apply LineFacts.add_one_unique ].
    + rewrite (LineFacts.feature_stores p st cart Hread). eexists.
      split; [ apply LineFacts.reads_after_set | now apply LineFacts.add_one_unique ].
    + rewrite (LineFacts.employee_view_stores p st cart Hread). eexists.
      split; [ apply LineFacts.reads_after_set | now apply LineFacts.add_one_unique ].
    + rewrite (LineFacts.employee_history_stores p st cart Hread). eexists.
      split; [ apply LineFacts.reads_after_set | now apply LineFacts.add_one_unique ].
    + rewrite (LineFacts.reorder_stores items st cart Hread). eexists.
      split; [ apply LineFacts.reads_after_set | now apply LineFacts.reorder_unique ].
    + exists cart. split; [ exact Hread | exact Hu ].
  - intros l. unfold Cart.edits.
    induction l as [ | e l IH ]; intros w Hu; [ exact Hu | ].
    cbn [fold_left]. apply IH. now apply EditFacts.edit_unique.
Qed.

Lemma cart_lines_stay_unique_witness :
  let milk := CartItem.mk "p1" "Milk" (JSON.of_Z 3) 2 in
  let st : AsyncStorage.t := {[ "cart" := CartItem.stringify [milk] ]} in
  exists cart',
    JS.if_truthy (AsyncStorage.getItem "cart"
                    (App.storage_after (App.OrderDetails_reorderItems (Some [milk; milk])) st))
      CartItem.parse (Some []) = Some cart' /\
    Statements2.unique_lines cart'.
Proof.
  intros milk st.
  apply (proj1 cart_lines_stay_unique (App.OrderDetails_reorderItems (Some [milk; milk]))
           st [milk] eq_refl).
  - unfold st, AsyncStorage.getItem. rewrite lookup_singleton_eq.
    apply CartFacts.read_stored.
  - apply NoDup_singleton.
Defined.

(** X10. A reorder adds exactly the ordered units to the stored cart: for
    every product, the units of it in the cart stored after [reorderItems]
    are the units stored before plus the units of it in the order.  Before
    the order is loaded the handler writes nothing. *)
Theorem reorder_adds_ordered_units
    (items cart : list CartItem.t) (st : AsyncStorage.t) :
  JS.if_truthy (AsyncStorage.getItem "cart" st) CartItem.parse (Some []) = Some cart ->
  (exists cart',
     AsyncStorage.getItem "cart" (fst (OrderDetails.reorderItems (Some items) st))
       = Some (CartItem.stringify cart') /\
     forall id, Statements2.units id cart'
                = (Statements2.units id cart + Statements2.units id items)%Z) /\
  OrderDetails.reorderItems None st = (st, []).
Proof.
  intros Hread. split; [ | reflexivity ].
  rewrite (LineFacts.reorder_stores items st cart Hread). eexists. split.
  - apply lookup_insert_eq.
  - intros id. apply LineFacts.reorder_units.
Qed.

Lemma reorder_adds_ordered_units_witness :
  let milk := CartItem.mk "p1" "Milk" (JSON.of_Z 3) 2 in
  let eggs := CartItem.mk "p2" "Eggs" (JSON.of_Z 4) 1 in
  exists cart',
    AsyncStorage.getItem "cart" (fst (OrderDetails.reorderItems (Some [eggs; milk; eggs]) ∅))
      = Some (CartItem.stringify cart') /\
    Statements2.units "p2" cart' = 2%Z.
Proof.
  intros milk eggs.
  assert (Hread : JS.if_truthy (AsyncStorage.getItem "cart" ∅) CartItem.parse (Some [])
                  = Some []) by (unfold AsyncStorage.getItem; now rewrite lookup_empty).
  destruct (reorder_adds_ordered_units [eggs; milk; eggs] [] ∅ Hread)
    as [(cart' & Hst & Hunits) _].
  exists cart'. split; [ exact Hst | ]. rewrite Hunits. reflexivity.
Defined.



(** X12. The handlers part ways on a stored text that is valid JSON for a
    falsy value (such as null): the feature screen takes it for an empty
    cart and stores a cart of the one added product, while the product
    page, the product card, the employee view and the employee history
    write nothing. *)
Theorem falsy_stored_cart_splits_handlers
    (p : Product.t) (st : AsyncStorage.t) (text : string) (v : JSON.value) :
  AsyncStorage.getItem "cart" st = Some text -> text <> EmptyString ->
  JSON.parse text = Some v -> JSON.truthy v = false ->
  fst (FeatureScreen.handleAddToCart p st)
    = AsyncStorage.setItem "cart" (CartItem.stringify [CartItem.of_product p 1]) st /\
  (forall q, ProductDetails.handleAddToCart p q st = (st, [toast error "Failed to add to cart"])) /\
  (forall onAddToCart, ProductCard.handleAddToCart onAddToCart p st = (st, false)) /\
  EmployeeView.handleAddToCart p st = st /\
  fst (EmployeeHistory.handleAddToCart p st) = st.
Proof.
  intros Hst Htext Hparse Hfalsy.
  assert (Hnot : CartItem.parse text = None).
  { unfold CartItem.parse. rewrite Hparse. destruct v; try reflexivity. discriminate Hfalsy. }
  assert (Ht : JS.truthy text = true) by now apply CartScreenFacts.truthy_spec.
  unfold FeatureScreen.handleAddToCart, FeatureScreen.stored_cart,
    ProductDetails.handleAddToCart, ProductCard.handleAddToCart,
    EmployeeView.handleAddToCart, EmployeeHistory.handleAddToCart.
  rewrite Hst. unfold JS.if_truthy. rewrite Ht, Hparse, Hfalsy, Hnot.
  repeat split.
Qed.

Lemma falsy_stored_cart_splits_handlers_witness :
  let milk := Product.mk "p1" "Milk" (JSON.of_Z 3) in
  let st : AsyncStorage.t := {[ "cart" := "null" ]} in
  fst (FeatureScreen.handleAddToCart milk st)
    = AsyncStorage.setItem "cart" (CartItem.stringify [CartItem.of_product milk 1]) st /\
  EmployeeView.pressProductCard milk st = (st, false).
Proof.
  intros milk st.
  assert (Hst : AsyncStorage.getItem "cart" st = Some "null")
    by (unfold st, AsyncStorage.getItem; now rewrite lookup_singleton_eq).
  destruct (falsy_stored_cart_splits_handlers milk st "null" JSON.Null
              Hst ltac:(discriminate) ltac:(vm_compute; reflexivity) eq_refl)
    as (H1 & _ & H2 & _).
  split; [ exact H1 | apply H2 ].
Defined.

(** ** The quantity selector *)

Module StepperFacts.
Import QuantityStepper CartLines.

Lemma press_positive (a : Action) (q : Z) : (1 <= q)%Z -> (1 <= handleQuantityChange a q)%Z.
Proof. destruct a; cbn; lia. Qed.

Lemma presses_positive (l : list Action) : forall q, (1 <= q)%Z -> (1 <= presses l q)%Z.
Proof.
  unfold presses. induction l as [ | a l IH ]; intros q Hq; [ exact Hq | ].
  cbn [fold_left]. apply IH. now apply press_positive.
Qed.

Lemma add_one_positive (p : Product.t) (q : Z) (cart : list CartItem.t) :
  (1 <= q)%Z -> Statements.positive_quantities cart ->
  Statements.positive_quantities (add_one p q cart).
Proof.
  intros Hq Hpos. unfold add_one, Statements.positive_quantities in *.
  destruct (LineFacts.merge_cases (Product.id p) (CartItem.add_quantity q)
              (CartItem.of_product p q) cart) as [[_ ->] | (n & x & _ & _ & ->)].
  - apply Forall_app. split; [ exact Hpos | ]. repeat constructor. exact Hq.
  - apply Forall_alter; [ exact Hpos | ]. intros y _ Hy. cbn. lia.
Qed.

End StepperFacts.

(** X13. The quantity selector of the product page never goes below one:
    from the initial quantity 1, after any presses of its two buttons the
    quantity is at least 1, a decrease at 1 stays at 1, and adding that
    quantity to a stored cart whose quantities are all positive stores a
    cart whose quantities are all positive. *)
Theorem product_page_adds_positive_quantity
    (l : list QuantityStepper.Action) (p : Product.t) (st : AsyncStorage.t)
    (cart : list CartItem.t) :
  JS.if_truthy (AsyncStorage.getItem "cart" st) CartItem.parse (Some []) = Some cart ->
  Statements.positive_quantities cart ->
  let q := QuantityStepper.presses l 1 in
  (1 <= q)%Z /\
  QuantityStepper.handleQuantityChange QuantityStepper.decrease 1 = 1%Z /\
  exists cart',
    AsyncStorage.getItem "cart" (fst (ProductDetails.handleAddToCart p q st))
      = Some (CartItem.stringify cart') /\
    Statements.positive_quantities cart'.
Proof.
  intros Hread Hpos q.
  assert (Hq : (1 <= q)%Z) by (apply StepperFacts.presses_positive; lia).
  split; [ exact Hq | ]. split; [ reflexivity | ].
  rewrite (LineFacts.details_stores p q st cart Hread). eexists. split.
  - apply lookup_insert_eq.
  - now apply StepperFacts.add_one_positive.
Qed.

Lemma product_page_adds_positive_quantity_witness :
  let milk := Product.mk "p1" "Milk" (JSON.of_Z 3) in
  let l := [QuantityStepper.decrease; QuantityStepper.increase; QuantityStepper.decrease;
            QuantityStepper.decrease] in
  QuantityStepper.presses l 1 = 1%Z /\
  exists cart',
    AsyncStorage.getItem "cart"
      (fst (ProductDetails.handleAddToCart milk (QuantityStepper.presses l 1) ∅))
      = Some (CartItem.stringify cart') /\
    Statements.positive_quantities cart'.
Proof.
  intros milk l.
  assert (Hread : JS.if_truthy (AsyncStorage.getItem "cart" ∅) CartItem.parse (Some [])
                  = Some []) by (unfold AsyncStorage.getItem; now rewrite lookup_empty).
  split; [ reflexivity | ].
  exact (proj2 (proj2 (product_page_adds_positive_quantity l milk ∅ [] Hread
                         (Forall_nil_2 _)))).
Defined.

(** ** Scanning again *)

Module RescanFacts.
Import ScanBarcode.

Lemma barcode_complete i o : barcode (complete i o) = barcode o.
Proof. unfold complete. now destruct (String.eqb _ _). Qed.

Lemma filter_complete data i (l : list Order) :
  List.filter (fun o => String.eqb (barcode o) data) (List.map (complete i) l)
  = List.map (complete i) (List.filter (fun o => String.eqb (barcode o) data) l).
Proof.
  induction l as [ | o l IH ]; [ reflexivity | ].
  cbn [List.map List.filter]. rewrite barcode_complete, IH.
  now destruct (String.eqb (barcode o) data).
Qed.

Lemma single_complete data i (l : list Order) :
  single data (List.map (complete i) l) = option_map (complete i) (single data l).
Proof.
  unfold single. rewrite filter_complete.
  now destruct (List.filter _ l) as [ | x [ | y t ] ].
Qed.

Lemma complete_twice i o : complete i (complete i o) = complete i o.
Proof.
  unfold complete. destruct (String.eqb (id o) i) eqn:E; cbn; now rewrite E.
Qed.

Lemma scan_handled data f s :
  data <> EmptyString ->
  handleBarcodeScanned true data f s
  = let s := add_call (SelectOrder data) (setIsScanning false s) in
    match f with
    | Throws => add_alert (AlertResume "Error" "An unexpected error occurred.") s
    | ErrorResult => add_alert (AlertResume "Error" "Barcode not found or fetch failed.") s
    | NoFault =>
        match single data (orders s) with
        | None => add_alert (AlertResume "Error" "Barcode not found or fetch failed.") s
        | Some o => openModalForOrder (mkScanned (id o) (order_number o) (status o)) s
        end
    end.
Proof.
  intros Hd. unfold handleBarcodeScanned.
  now rewrite (proj2 (CartScreenFacts.truthy_spec data) Hd).
Qed.

Lemma orders_markCompleted s cur :
  currentOrder s = Some cur ->
  orders (markCompleted NoFault s) = List.map (complete (scanned_id cur)) (orders s).
Proof. intros H. unfold markCompleted. now rewrite H. Qed.

Lemma scan_ignored data f s : handleBarcodeScanned false data f s = s.
Proof. reflexivity. Qed.

(** What a handled scan does to the flag and to the requests. *)
Lemma scan_handled_calls data f s :
  data <> EmptyString ->
  isScanning (handleBarcodeScanned true data f s) = false /\
  calls (handleBarcodeScanned true data f s) = calls s ++ [SelectOrder data].
Proof.
  intros Hd. rewrite (scan_handled data f s Hd). cbn.
  destruct f; cbn; try (split; reflexivity).
  destruct (single data (orders s)); split; reflexivity.
Qed.

End RescanFacts.

(** X14. The scan guard works from one render to the next, not within
    one.  A scan handled by a render that was scanning turns the scanning
    off and issues one order query; once the screen has rendered again,
    every further scan, whatever its data and outcome, changes nothing
    until an alert's OK button or the closing of the modal turns the
    scanning on again.  A second scan that reaches the handler of the same
    render still sees the scanning on and issues a second query.  A scan
    with empty data is ignored. *)
Theorem scans_wait_for_the_next_render
    (s : ScanBarcode.State) (data data' : string) (f f' : ScanBarcode.Fault) :
  data <> EmptyString -> data' <> EmptyString ->
  let s1 := ScanBarcode.handleBarcodeScanned true data f s in
  ScanBarcode.isScanning s1 = false /\
  ScanBarcode.calls s1 = ScanBarcode.calls s ++ [ScanBarcode.SelectOrder data] /\
  (forall later : list (string * ScanBarcode.Fault),
     fold_left (fun s scan =>
                  ScanBarcode.handleBarcodeScanned (ScanBarcode.isScanning s)
                    (fst scan) (snd scan) s)
       later s1 = s1) /\
  ScanBarcode.calls (ScanBarcode.handleBarcodeScanned true data' f' s1)
    = ScanBarcode.calls s ++ [ScanBarcode.SelectOrder data; ScanBarcode.SelectOrder data'] /\
  (forall a, ScanBarcode.isScanning (ScanBarcode.pressOK a s1) = true) /\
  ScanBarcode.isScanning (ScanBarcode.closeModal s1) = true /\
  (forall seen f'', ScanBarcode.handleBarcodeScanned seen EmptyString f'' s = s).
Proof.
  intros Hd Hd' s1.
  destruct (RescanFacts.scan_handled_calls data f s Hd) as [Hoff Hcalls].
  fold s1 in Hoff, Hcalls. split_and!; try assumption.
  - intros later. induction later as [ | [d g] later IH ]; [ reflexivity | ].
    cbn [fold_left fst snd]. now rewrite Hoff, RescanFacts.scan_ignored.
  - destruct (RescanFacts.scan_handled_calls data' f' s1 Hd') as [_ ->].
    now rewrite Hcalls, <- app_assoc.
  - now intros [t m | t m].
  - reflexivity.
  - intros seen f''. unfold ScanBarcode.handleBarcodeScanned. cbn. now rewrite orb_true_r.
Qed.

Lemma scans_wait_for_the_next_render_witness :
  let s := ScanBarcode.mkState true false None
             [ScanBarcode.mkOrder "o1" "1001" "Pending" "b-1"] [] [] in
  let s1 := ScanBarcode.handleBarcodeScanned true "b-1" ScanBarcode.NoFault s in
  ScanBarcode.handleBarcodeScanned (ScanBarcode.isScanning s1) "b-2" ScanBarcode.NoFault s1 = s1 /\
  ScanBarcode.calls (ScanBarcode.handleBarcodeScanned true "b-2" ScanBarcode.NoFault s1)
    = [ScanBarcode.SelectOrder "b-1"; ScanBarcode.SelectOrder "b-2"].
Proof.
  intros s s1.
  destruct (scans_wait_for_the_next_render s "b-1" "b-2" ScanBarcode.NoFault
              ScanBarcode.NoFault ltac:(discriminate) ltac:(discriminate))
    as (_ & _ & H & H' & _).
  split; [ exact (H [("b-2", ScanBarcode.NoFault)]) | exact H' ].
Defined.

(** X15. Completing an order shows at the next scan.  After a scan finds
    an order, a successful [markCompleted] and the alert's OK button, the
    screen scans again with the modal closed; the orders table has the same
    rows with the status of the rows of that id set to "Completed" and
    every other row as it was; scanning the same barcode again shows the
    order as "Completed", and completing it once more changes no row. *)
Theorem completed_order_scans_as_completed
    (s : ScanBarcode.State) (data : string) (o : ScanBarcode.Order) :
  ScanBarcode.isScanning s = true -> data <> EmptyString ->
  ScanBarcode.single data (ScanBarcode.orders s) = Some o ->
  let shown := ScanBarcode.handleBarcodeScanned (ScanBarcode.isScanning s) data
                 ScanBarcode.NoFault s in
  let done :=
    ScanBarcode.pressOK
      (ScanBarcode.AlertCloseModal "Success" "Order status updated to Completed.")
      (ScanBarcode.markCompleted ScanBarcode.NoFault shown) in
  let again := ScanBarcode.handleBarcodeScanned (ScanBarcode.isScanning done) data
                 ScanBarcode.NoFault done in
  ScanBarcode.currentOrder shown
    = Some (ScanBarcode.mkScanned (ScanBarcode.id o) (ScanBarcode.order_number o)
              (ScanBarcode.status o)) /\
  ScanBarcode.isScanning done = true /\ ScanBarcode.modalVisible done = false /\
  length (ScanBarcode.orders done) = length (ScanBarcode.orders s) /\
  (forall n r, ScanBarcode.orders s !! n = Some r ->
     ScanBarcode.orders done !! n
     = Some (if decide (ScanBarcode.id r = ScanBarcode.id o)
             then ScanBarcode.mkOrder (ScanBarcode.id r) (ScanBarcode.order_number r)
                    "Completed" (ScanBarcode.barcode r)
             else r)) /\
  ScanBarcode.currentOrder again
    = Some (ScanBarcode.mkScanned (ScanBarcode.id o) (ScanBarcode.order_number o)
              "Completed") /\
  ScanBarcode.orders (ScanBarcode.markCompleted ScanBarcode.NoFault again)
    = ScanBarcode.orders done.
Proof.
  intros Hs Hd Ho shown done again.
  assert (Hshown : shown = ScanBarcode.openModalForOrder
                             (ScanBarcode.mkScanned (ScanBarcode.id o)
                                (ScanBarcode.order_number o) (ScanBarcode.status o))
                             (ScanBarcode.add_call (ScanBarcode.SelectOrder data)
                                (ScanBarcode.setIsScanning false s))).
  { subst shown. rewrite Hs, (RescanFacts.scan_handled data _ s Hd). cbn. now rewrite Ho. }
  assert (Hdone : ScanBarcode.orders done
                  = List.map (ScanBarcode.complete (ScanBarcode.id o)) (ScanBarcode.orders s)
                    /\ ScanBarcode.isScanning done = true
                    /\ ScanBarcode.modalVisible done = false).
  { subst done. rewrite Hshown. cbn. repeat split. }
  destruct Hdone as (Horders & Hon & Hclosed).
  assert (Hagain : again = ScanBarcode.openModalForOrder
                             (ScanBarcode.mkScanned (ScanBarcode.id o)
                                (ScanBarcode.order_number o) "Completed")
                             (ScanBarcode.add_call (ScanBarcode.SelectOrder data)
                                (ScanBarcode.setIsScanning false done))).
  { subst again. rewrite Hon, (RescanFacts.scan_handled data _ done Hd).
    cbn [ScanBarcode.orders ScanBarcode.add_call ScanBarcode.setIsScanning].
    rewrite Horders, RescanFacts.single_complete, Ho. cbn [option_map].
    unfold ScanBarcode.complete. now rewrite String.eqb_refl. }
  split_and!.
  - now rewrite Hshown.
  - exact Hon.
  - exact Hclosed.
  - now rewrite Horders, length_map.
  - intros n r Hn. rewrite Horders.
    change (List.map ?g ?l) with (g <$> l). rewrite list_lookup_fmap, Hn. cbn.
    unfold ScanBarcode.complete.
    destruct (String.eqb_spec (ScanBarcode.id r) (ScanBarcode.id o)) as [E | E];
      now destruct (decide (ScanBarcode.id r = ScanBarcode.id o)).
  - now rewrite Hagain.
  - rewrite (RescanFacts.orders_markCompleted again
               (ScanBarcode.mkScanned (ScanBarcode.id o) (ScanBarcode.order_number o)
                  "Completed")) by now rewrite Hagain.
    unfold again. rewrite ScanBarcodeFacts.handleBarcodeScanned_orders.
    cbn [ScanBarcode.scanned_id]. rewrite Horders, List.map_map.
    apply List.map_ext. intros r. apply RescanFacts.complete_twice.
Qed.

Lemma completed_order_scans_as_completed_witness :
  let s := ScanBarcode.mkState true false None
             [ScanBarcode.mkOrder "o1" "1001" "Pending" "b-1";
              ScanBarcode.mkOrder "o2" "1002" "Ready" "b-2"] [] [] in
  let done :=
    ScanBarcode.pressOK
      (ScanBarcode.AlertCloseModal "Success" "Order status updated to Completed.")
      (ScanBarcode.markCompleted ScanBarcode.NoFault
         (ScanBarcode.handleBarcodeScanned true "b-2" ScanBarcode.NoFault s)) in
  ScanBarcode.currentOrder
    (ScanBarcode.handleBarcodeScanned true "b-2" ScanBarcode.NoFault done)
  = Some (ScanBarcode.mkScanned "o2" "1002" "Completed").
Proof.
  intros s done.
  destruct (completed_order_scans_as_completed s "b-2"
              (ScanBarcode.mkOrder "o2" "1002" "Ready" "b-2")
              eq_refl ltac:(discriminate) eq_refl) as (_ & _ & _ & _ & _ & H & _).
  exact H.
Defined.

(** ** Places of a pickup schedule *)

Module ReservationFacts.
Import PickUpTime Statements2.

Lemma reserve_time selected s : time (reserve selected s) = time s.
Proof. unfold reserve. destruct (capacity s); [ destruct (_ && _) | ]; reflexivity. Qed.

Lemma reserve_bookable selected s :
  bookable selected s = true ->
  exists c, capacity s = Some c /\ (0 < c)%Z /\ time s = time selected /\
            reserve selected s = mkSlot (time s) (Some (c - 1)%Z).
Proof.
  unfold bookable, reserve. intros H. apply andb_true_iff in H as [Ht Hc].
  destruct (capacity s) as [c | ]; [ | discriminate ]. exists c.
  rewrite Ht, Hc. apply String.eqb_eq in Ht. apply Z.ltb_lt in Hc. repeat split; trivial.
Qed.

Lemma reserve_not_bookable selected s : bookable selected s = false -> reserve selected s = s.
Proof.
  unfold bookable, reserve. intros H. destruct (capacity s) as [c | ]; [ | reflexivity ].
  now rewrite H.
Qed.

Lemma reserve_none selected (hours : list Slot) :
  existsb (bookable selected) hours = false -> List.map (reserve selected) hours = hours.
Proof.
  induction hours as [ | s hours IH ]; [ reflexivity | ].
  cbn [existsb List.map]. intros H. apply orb_false_iff in H as [Hs Hrest].
  now rewrite (reserve_not_bookable _ _ Hs), IH.
Qed.

Lemma reserve_not_negative selected (hours : list Slot) :
  capacities_not_negative hours -> capacities_not_negative (List.map (reserve selected) hours).
Proof.
  unfold capacities_not_negative. intros H. apply Forall_forall. intros s' Hin.
  apply list_elem_of_In, in_map_iff in Hin as (s & <- & Hin). apply list_elem_of_In in Hin.
  rewrite Forall_forall in H. specialize (H s Hin).
  destruct (bookable selected s) eqn:Hb.
  - destruct (reserve_bookable _ _ Hb) as (c & Hc & Hpos & _ & ->). cbn.
    intros c' [= <-]. lia.
  - now rewrite (reserve_not_bookable _ _ Hb).
Qed.

Lemma other_times_not_bookable selected s (hours : list Slot) :
  time s = time selected -> time s ∉ List.map time hours ->
  existsb (bookable selected) hours = false.
Proof.
  intros Ht Hnot. induction hours as [ | x hours IH ]; [ reflexivity | ].
  cbn [existsb]. apply orb_false_iff. split.
  - unfold bookable. destruct (String.eqb_spec (time x) (time selected)) as [E | E];
      [ | reflexivity ].
    exfalso. apply Hnot. cbn. rewrite Ht, <- E. left.
  - apply IH. intros Hin. apply Hnot. cbn. now right.
Qed.

Lemma places_reserve selected (hours : list Slot) :
  NoDup (List.map time hours) ->
  places (List.map (reserve selected) hours)
  = (places hours - if existsb (bookable selected) hours then 1 else 0)%Z.
Proof.
  induction hours as [ | s hours IH ]; [ reflexivity | ].
  cbn [List.map]. rewrite NoDup_cons. intros [Hs Hnd].
  cbn [existsb places fold_right]. fold (places hours).
  fold (places (List.map (reserve selected) hours)).
  destruct (bookable selected s) eqn:Hb; cbn [orb].
  - destruct (reserve_bookable _ _ Hb) as (c & Hc & _ & Ht & ->). cbn [capacity].
    rewrite Hc, (reserve_none selected hours); [ lia | ].
    now apply (other_times_not_bookable selected s).
  - rewrite (reserve_not_bookable _ _ Hb), (IH Hnd). destruct (capacity s); lia.
Qed.




End ReservationFacts.

(** X16. A reservation never makes a capacity negative and takes at most
    one place.  With a selected slot whose capacity is not 0 and a fetched
    row whose slots have distinct times and no negative capacity, the list
    [confirmSelection] writes has the same times in the same order, no
    negative capacity, and as many places as the fetched list less one
    when the fetched list has a slot of the selected time with a positive
    capacity, and exactly as many otherwise. *)
Theorem reservation_takes_at_most_one_place
    (env : PickUpTime.Env) (w : PickUpTime.World) (slot : PickUpTime.Slot)
    (sched : PickUpTime.Schedule) (hours : list PickUpTime.Slot) :
  PickUpTime.selectedSlot w = Some slot -> PickUpTime.capacity slot <> Some 0%Z ->
  PickUpTime.fetch env w = PickUpTime.Row sched ->
  PickUpTime.available_hours sched = Some hours ->
  NoDup (List.map PickUpTime.time hours) ->
  Statements2.capacities_not_negative hours ->
  exists updated,
    PickUpTime.calls (fst (PickUpTime.confirmSelection env w))
      = PickUpTime.calls w ++ [PickUpTime.FetchSchedule; PickUpTime.UpdateSchedule updated] /\
    List.map PickUpTime.time updated = List.map PickUpTime.time hours /\
    Statements2.capacities_not_negative updated /\
    Statements2.places updated
    = (Statements2.places hours
       - if existsb (Statements2.bookable slot) hours then 1 else 0)%Z.
Proof.
  intros Hsel Hcap Hfetch Hhours Hnd Hpos.
  exists (List.map (PickUpTime.reserve slot) hours). split_and!.
  - unfold PickUpTime.confirmSelection. rewrite Hsel.
    destruct (PickUpTime.is_zero (PickUpTime.capacity slot)) eqn:Hz;
      [ now apply PickUpTimeFacts.is_zero_spec in Hz | ].
    rewrite PickUpTimeFacts.fetch_add_call, Hfetch, Hhours.
    destruct (PickUpTime.update_error env); cbn; now rewrite <- app_assoc.
  - rewrite List.map_map. apply List.map_ext. apply ReservationFacts.reserve_time.
  - now apply ReservationFacts.reserve_not_negative.
  - now apply ReservationFacts.places_reserve.
Qed.

Lemma reservation_takes_at_most_one_place_witness :
  let nine := PickUpTime.mkSlot "09:00" (Some 2%Z) in
  let hours := [nine; PickUpTime.mkSlot "10:00" (Some 0%Z); PickUpTime.mkSlot "11:00" None] in
  let env := PickUpTime.mkEnv false false (fun _ _ => "2026-01-05T09:00:00.000Z")
               (fun _ _ => "Today, 9:00 AM - 10:00 AM") in
  let w := PickUpTime.mkWorld (Some "loc-2") (PickUpTime.mkDay "Today" "Jan 5" 1) (Some nine) ∅
             [PickUpTime.mkSchedule "loc-2" 1 (Some hours)] [] [] [] in
  exists updated,
    PickUpTime.calls (fst (PickUpTime.confirmSelection env w))
      = [PickUpTime.FetchSchedule; PickUpTime.UpdateSchedule updated] /\
    Statements2.places updated = 1%Z.
Proof.
  intros nine hours env w.
  assert (Hnd : NoDup (List.map PickUpTime.time hours)).
  { apply NoDup_ListNoDup. cbn.
    repeat (constructor; [ cbn; intros H; intuition discriminate | ]). constructor. }
  assert (Hpos : Statements2.capacities_not_negative hours).
  { repeat constructor; cbn; intros c [= <-]; lia. }
  destruct (reservation_takes_at_most_one_place env w nine
              (PickUpTime.mkSchedule "loc-2" 1 (Some hours)) hours
              eq_refl ltac:(discriminate) eq_refl eq_refl Hnd Hpos)
    as (updated & Hcalls & _ & _ & Hplaces).
  exists updated. split; [ exact Hcalls | exact Hplaces ].
Defined.



(** ** The clock of the pickup label *)

(** X18. The 12-hour clock of the pickup label names the hour: for an hour
    of the day (0 to 23) the shown hour is between 1 and 12 and, with
    AM or PM, gives the hour back, so two hours of the day never read the
    same.  The end of the label is computed for the hour after the slot's,
    which for the 23 o'clock slot is 24: that end reads as the end of the
    11 o'clock slot does, 12 PM. *)
Theorem pickup_clock_names_the_hour (h : Z) :
  (0 <= h <= 23)%Z ->
  (1 <= PickupLabel.hour12 h <= 12)%Z /\
  h = (PickupLabel.hour12 h mod 12
       + if String.eqb (PickupLabel.meridiem h) "PM" then 12 else 0)%Z /\
  (forall h', (0 <= h' <= 23)%Z ->
     PickupLabel.hour12 h' = PickupLabel.hour12 h ->
     PickupLabel.meridiem h' = PickupLabel.meridiem h -> h' = h) /\
  (forall m, PickupLabel.end_label 23 m = PickupLabel.end_label 11 m) /\
  PickupLabel.hour12 (23 + 1) = 12%Z /\ PickupLabel.meridiem (23 + 1) = "PM".
Proof.
  intros Hh.
  assert (Hback : forall k, (0 <= k <= 23)%Z ->
            (1 <= PickupLabel.hour12 k <= 12)%Z /\
            k = (PickupLabel.hour12 k mod 12
                 + if String.eqb (PickupLabel.meridiem k) "PM" then 12 else 0)%Z).
  { intros k Hk. unfold PickupLabel.hour12, PickupLabel.meridiem.
    rewrite Z.rem_mod_nonneg by lia.
    pose proof (Z.mod_pos_bound k 12 ltac:(lia)) as Hb.
    destruct (Z.eqb_spec (k mod 12) 0) as [E | E];
      destruct (Z.leb_spec 12 k) as [L | L]; cbn [String.eqb Ascii.eqb Bool.eqb andb];
      rewrite ?Z.mod_same, ?Z.mod_mod by lia;
      pose proof (Z.div_mod k 12 ltac:(lia)) as Hd;
      assert (k / 12 = 0 \/ k / 12 = 1)%Z as [Hq | Hq]
        by (assert (0 <= k / 12 < 2)%Z
              by (split; [ apply Z.div_pos; lia | apply Z.div_lt_upper_bound; lia ]); lia);
      rewrite Hq in Hd; split; lia. }
  destruct (Hback h Hh) as [Hrange Hvalue].
  split; [ exact Hrange | ]. split; [ exact Hvalue | ]. split.
  - intros h' Hh' H12 Hm. destruct (Hback h' Hh') as [_ E'].
    rewrite Hvalue, E', H12, Hm. reflexivity.
  - split; [ reflexivity | ]. split; reflexivity.
Qed.

Lemma pickup_clock_names_the_hour_witness :
  PickupLabel.hour12 13 = 1%Z /\ PickupLabel.meridiem 13 = "PM" /\
  (1 <= PickupLabel.hour12 0 <= 12)%Z.
Proof.
  split; [ reflexivity | ]. split; [ reflexivity | ].
  exact (proj1 (pickup_clock_names_the_hour 0 ltac:(lia))).
Defined.

(** ** The tabs of the Orders screen *)

Module TabFacts.
Import OrderTabs.

Lemma active_not_past (s : string) :
  includes ["Ready"; "In Progress"; "Ready for Pickup"; "Pending"] s = true ->
  includes ["Failed"; "Completed"; "Refunded"; "Cancelled"] s = false.
Proof.
  unfold includes. cbn [existsb]. intros H.
  repeat (apply orb_true_iff in H as [H | H]; [ apply String.eqb_eq in H; now subst | ]).
  discriminate H.
Qed.

Lemma filter_length_split {A} (f g : A -> bool) (l : list A) :
  (forall x, f x = true -> g x = false) ->
  length (List.filter f l) + length (List.filter g l) <= length l.
Proof.
  intros Hfg. induction l as [ | x l IH ]; [ reflexivity | ].
  cbn [List.filter]. destruct (f x) eqn:Hf.
  - rewrite (Hfg x Hf). cbn. lia.
  - destruct (g x); cbn; lia.
Qed.

End TabFacts.

(** X19. The tabs of the Orders screen: "all" shows every order; no order
    is on both the "active" and the "past" tab, and both show orders of
    the list only, so together they show at most as many orders as there
    are.  They do not show every order: an order whose status is
    "Processing" or "AwaitingPickup", which the same screen styles as in
    progress, is on neither of the two. *)
Theorem order_tabs_split_the_orders (orders : list OrderTabs.OrderType) :
  OrderTabs.filterOrders orders OrderTabs.all = orders /\
  (forall o, o ∈ OrderTabs.filterOrders orders OrderTabs.active ->
     (o ∈ orders) /\ (o ∉ OrderTabs.filterOrders orders OrderTabs.past)) /\
  (forall o, o ∈ OrderTabs.filterOrders orders OrderTabs.past -> o ∈ orders) /\
  length (OrderTabs.filterOrders orders OrderTabs.active)
    + length (OrderTabs.filterOrders orders OrderTabs.past) <= length orders /\
  (forall o, OrderTabs.status o = "Processing" \/ OrderTabs.status o = "AwaitingPickup" ->
     Orders.getStatusStyle (OrderTabs.status o) = Orders.styles.inProgressStatus /\
     (o ∉ OrderTabs.filterOrders orders OrderTabs.active) /\
     (o ∉ OrderTabs.filterOrders orders OrderTabs.past)).
Proof.
  unfold OrderTabs.filterOrders. split_and!.
  - reflexivity.
  - intros o Hin. apply list_elem_of_In, filter_In in Hin as [Hin Hactive].
    split; [ now apply list_elem_of_In | ].
    intros Hpast. apply list_elem_of_In, filter_In in Hpast as [_ Hpast].
    cbn beta in Hactive, Hpast. now rewrite (TabFacts.active_not_past _ Hactive) in Hpast.
  - intros o Hin. apply list_elem_of_In, filter_In in Hin as [Hin _].
    now apply list_elem_of_In.
  - apply TabFacts.filter_length_split. intros o. apply TabFacts.active_not_past.
  - intros o Hs.
    split_and!.
    + destruct Hs as [-> | ->]; reflexivity.
    + intros Hin. apply list_elem_of_In, filter_In in Hin as [_ Hin].
      destruct Hs as [Hs | Hs]; rewrite Hs in Hin; discriminate Hin.
    + intros Hin. apply list_elem_of_In, filter_In in Hin as [_ Hin].
      destruct Hs as [Hs | Hs]; rewrite Hs in Hin; discriminate Hin.
Qed.

(** ** Saving the profile *)

Module ProfileFacts.
Import ProfileForm Statements Statements2.

Lemma or_empty_some (s : string) : or_empty (Some s) = s.
Proof.
  unfold or_empty, JS.if_truthy, JS.truthy.
  destruct (String.eqb_spec s ""); cbn; congruence.
Qed.

Lemma differs_false (s : string) (x : option string) : differs s x = false <-> x = Some s.
Proof.
  unfold differs. destruct x as [y | ]; [ | split; discriminate ].
  destruct (String.eqb_spec s y); cbn; split; intros; congruence.
Qed.

#[local] Abbreviation keep := (fun c : ascii => negb (Ascii.eqb c "-")).

Lemma digit_kept (c : ascii) : JSON.is_digit c = true -> keep c = true.
Proof.
  cbn beta. destruct (Ascii.eqb_spec c "-") as [-> | ]; [ | reflexivity ].
  intros H. discriminate H.
Qed.

Lemma digits_kept (d : list ascii) : all_digits d -> List.filter keep d = d.
Proof.
  induction 1 as [ | c d Hc _ IH ]; [ reflexivity | ].
  cbn [List.filter]. now rewrite (digit_kept c Hc), IH.
Qed.

Lemma grouped_kept (d : list ascii) : List.filter keep (grouped d) = List.filter keep d.
Proof.
  destruct d as [ | a [ | b [ | c [ | e [ | f [ | g [ | h t ] ] ] ] ] ] ]; reflexivity.
Qed.

(** Removing the hyphens of a formatted number leaves its digits. *)
Lemma strip_format (value : string) :
  strip_hyphens (EditProfile.formatPhoneNumber value)
  = string_of_list_ascii (take 10 (List.filter JSON.is_digit (list_ascii_of_string value))).
Proof.
  unfold strip_hyphens, EditProfile.formatPhoneNumber.
  rewrite list_ascii_of_string_of_list_ascii.
  destruct (PhoneFacts.format_value (list_ascii_of_string value)) as (Hd & _ & ->).
  now rewrite grouped_kept, digits_kept.
Qed.

Lemma length_list_ascii (s : string) : length (list_ascii_of_string s) = String.length s.
Proof. induction s as [ | c s IH ]; cbn; congruence. Qed.

Lemma strip_format_fixed (p : string) :
  strip_hyphens (EditProfile.formatPhoneNumber p) = p <-> plain_phone p.
Proof.
  rewrite strip_format. unfold plain_phone. split.
  - intros H. apply (f_equal list_ascii_of_string) in H.
    rewrite list_ascii_of_string_of_list_ascii in H.
    assert (Hall : all_digits (list_ascii_of_string p)).
    { rewrite <- H. unfold all_digits. apply Forall_take.
      apply PhoneFacts.filter_is_all_digits. }
    split; [ exact Hall | ].
    rewrite <- length_list_ascii, <- H, length_take. lia.
  - intros [Hall Hlen]. rewrite (PhoneFacts.filter_all_digits _ Hall).
    rewrite take_ge by (rewrite length_list_ascii; lia).
    apply string_of_list_ascii_of_string.
Qed.

(** The changes of a save of the form as it was fetched. *)
Lemma untouched_changes (env : Env) (u : UserData) :
  changes env (fetched u) u = [] <-> settled env u.
Proof.
  unfold changes, fetched, settled, kept_by_trim.
  cbn [firstName lastName form_email phone].
  split.
  - intros H.
    destruct (differs _ (first_name u)) eqn:H1; [ discriminate H | ].
    destruct (differs _ (last_name u)) eqn:H2; [ discriminate H | ].
    destruct (differs _ (email u)) eqn:H3; [ discriminate H | ].
    destruct (String.eqb_spec (strip_hyphens (EditProfile.formatPhoneNumber
                                                (or_empty (phone_number u))))
                (or_empty (phone_number u))) as [H4 | ]; [ | discriminate H ].
    apply differs_false in H1, H2, H3.
    split_and!.
    + destruct (first_name u) as [s | ]; [ | discriminate H1 ].
      exists s. split; [ reflexivity | ]. rewrite or_empty_some in H1. congruence.
    + destruct (last_name u) as [s | ]; [ | discriminate H2 ].
      exists s. split; [ reflexivity | ]. rewrite or_empty_some in H2. congruence.
    + destruct (email u) as [s | ]; [ | discriminate H3 ].
      exists s. split; [ reflexivity | ]. rewrite or_empty_some in H3. congruence.
    + now apply strip_format_fixed.
  - intros ((f & Hf & Hf') & (l & Hl & Hl') & (e & He & He') & Hp).
    rewrite Hf, Hl, He, !or_empty_some, Hf', Hl', He'.
    rewrite !(proj2 (differs_false _ _) eq_refl).
    rewrite (proj2 (strip_format_fixed _) Hp), String.eqb_refl. reflexivity.
Qed.

Lemma id_set_columns (ch : list (string * string)) : forall u,
  id (fold_left set_column ch u) = id u.
Proof.
  induction ch as [ | [c v] ch IH ]; intros u; [ reflexivity | ].
  cbn [fold_left]. rewrite IH. unfold set_column.
  repeat destruct (String.eqb c _); reflexivity.
Qed.

(** After the changes of a save are merged into the row, the same form
    has nothing left to change. *)
Lemma changes_settle (env : Env) (form : FormData) (u : UserData) :
  changes env form (fold_left set_column (changes env form u) u) = [].
Proof.
  unfold changes.
  destruct (differs (trim env (firstName form)) (first_name u)) eqn:H1;
    destruct (differs (trim env (lastName form)) (last_name u)) eqn:H2;
    destruct (differs (trim env (form_email form)) (email u)) eqn:H3;
    destruct (String.eqb_spec (strip_hyphens (phone form)) (or_empty (phone_number u)))
      as [H4 | H4];
    cbn [negb app fold_left set_column String.eqb Ascii.eqb Bool.eqb andb
         first_name last_name email phone_number];
    rewrite ?or_empty_some, ?H1, ?H2, ?H3, ?String.eqb_refl;
    rewrite ?(proj2 (differs_false _ _) eq_refl);
    try rewrite (proj2 (String.eqb_eq _ _) H4);
    reflexivity.
Qed.

Lemma submit_loaded (env : Env) (w : World) (u : UserData) :
  userData w = Some u -> id u <> EmptyString ->
  handleSubmit env w
  = let ch := changes env (formData w) u in
    if length ch =? 0
    then add_toast (toast info "No changes detected.") w
    else if update_error env
    then add_toast (toast error "Update failed.")
           (mkWorld (Some u) (formData w) (calls w ++ [UpdateProfile (id u) ch]) (toasts w))
    else mkWorld (Some (fold_left set_column ch u)) (formData w)
           (calls w ++ [UpdateProfile (id u) ch])
           (toasts w ++ [toast success "Profile updated!"]).
Proof.
  intros Hu Hid. unfold handleSubmit.
  rewrite Hu, (proj2 (CartScreenFacts.truthy_spec _) Hid). reflexivity.
Qed.

End ProfileFacts.

(** X20. Saving the profile form exactly as it was fetched is not always
    "no changes".  Right after [fetchUserInfo], [handleSubmit] reports that
    nothing changed precisely when the first name, the last name and the
    email of the row are not null and are left as they are by trimming,
    and the phone number of the row is null, empty or a run of at most ten
    digits; for every other row (a null name, a phone number stored with
    hyphens or with more than ten digits) it sends an update although the
    user typed nothing. *)
Theorem untouched_profile_save (env : ProfileForm.Env) (u : ProfileForm.UserData) :
  ProfileForm.id u <> EmptyString ->
  let w := ProfileForm.mkWorld (Some u) (ProfileForm.fetched u) [] [] in
  (Statements2.settled env u ->
   ProfileForm.handleSubmit env w
   = ProfileForm.add_toast (toast info "No changes detected.") w) /\
  (~ Statements2.settled env u ->
   exists columns,
     columns <> [] /\
     ProfileForm.calls (ProfileForm.handleSubmit env w)
     = [ProfileForm.UpdateProfile (ProfileForm.id u) columns]).
Proof.
  intros Hid w. subst w. unfold ProfileForm.handleSubmit.
  cbn [ProfileForm.userData ProfileForm.formData].
  rewrite (proj2 (CartScreenFacts.truthy_spec _) Hid). cbn [negb].
  split.
  - intros Hs. now rewrite (proj2 (ProfileFacts.untouched_changes env u) Hs).
  - intros Hs. exists (ProfileForm.changes env (ProfileForm.fetched u) u).
    assert (Hch : ProfileForm.changes env (ProfileForm.fetched u) u <> []).
    { intros E. apply Hs. now apply ProfileFacts.untouched_changes. }
    split; [ exact Hch | ].
    destruct (ProfileForm.changes env (ProfileForm.fetched u) u) as [ | c ch ];
      [ congruence | ].
    cbn [length Nat.eqb]. now destruct (ProfileForm.update_error env).
Qed.

Lemma untouched_profile_save_witness :
  let env := ProfileForm.mkEnv (fun s => s) false in
  let u := ProfileForm.mkUser "u1" (Some "Ada") None (Some "ada@example.org")
             (Some "555-123-4567") in
  exists columns,
    columns <> [] /\
    ProfileForm.calls
      (ProfileForm.handleSubmit env
         (ProfileForm.mkWorld (Some u) (ProfileForm.fetched u) [] []))
    = [ProfileForm.UpdateProfile "u1" columns].
Proof.
  intros env u.
  apply (proj2 (untouched_profile_save env u ltac:(discriminate))).
  intros (_ & (s & Hs & _) & _). discriminate Hs.
Defined.

(** X21. A saved profile needs no second save.  With a loaded row that has
    an id, after [handleSubmit] succeeds (or finds nothing to change) a
    second [handleSubmit] on the same form sends no update and reports
    that nothing changed; after a failed update the row is as it was and
    the second save sends the same update again. *)
Theorem saved_profile_needs_no_second_save
    (env : ProfileForm.Env) (w : ProfileForm.World) (u : ProfileForm.UserData) :
  ProfileForm.userData w = Some u -> ProfileForm.id u <> EmptyString ->
  let saved := ProfileForm.handleSubmit env w in
  (ProfileForm.update_error env = false ->
   ProfileForm.handleSubmit env saved
   = ProfileForm.add_toast (toast info "No changes detected.") saved) /\
  (ProfileForm.update_error env = true ->
   ProfileForm.userData saved = Some u /\
   forall columns,
     ProfileForm.calls saved
       = ProfileForm.calls w ++ [ProfileForm.UpdateProfile (ProfileForm.id u) columns] ->
     ProfileForm.calls (ProfileForm.handleSubmit env saved)
       = ProfileForm.calls saved ++ [ProfileForm.UpdateProfile (ProfileForm.id u) columns]).
Proof.
  intros Hu Hid saved. subst saved.
  rewrite (ProfileFacts.submit_loaded env w u Hu Hid). cbn zeta.
  destruct (ProfileForm.changes env (ProfileForm.formData w) u) as [ | c ch ] eqn:Hch;
    cbn [length Nat.eqb].
  - split.
    + intros _.
      rewrite (ProfileFacts.submit_loaded env
                 (ProfileForm.add_toast (toast info "No changes detected.") w) u Hu Hid).
      cbn zeta. cbn [ProfileForm.formData ProfileForm.add_toast]. now rewrite Hch.
    + intros _. split; [ exact Hu | ]. intros columns Hcalls. exfalso.
      cbn in Hcalls. rewrite <- (app_nil_r (ProfileForm.calls w)) in Hcalls at 1.
      apply app_inv_head in Hcalls. discriminate Hcalls.
  - split.
    + intros Herr. rewrite Herr.
      match goal with
      | |- context [ProfileForm.handleSubmit env ?x] =>
          rewrite (ProfileFacts.submit_loaded env x _ eq_refl)
            by now rewrite ProfileFacts.id_set_columns
      end.
      cbn zeta. cbn [ProfileForm.formData].
      rewrite <- Hch, ProfileFacts.changes_settle. reflexivity.
    + intros Herr. rewrite Herr. split; [ reflexivity | ]. intros columns Hcalls.
      cbn in Hcalls. apply app_inv_head in Hcalls. injection Hcalls as <-.
      match goal with
      | |- context [ProfileForm.handleSubmit env ?x] =>
          rewrite (ProfileFacts.submit_loaded env x u eq_refl Hid)
      end.
      cbn zeta. cbn [ProfileForm.formData ProfileForm.add_toast]. rewrite Hch, Herr.
      cbn [length Nat.eqb]. reflexivity.
Qed.

Lemma saved_profile_needs_no_second_save_witness :
  let env := ProfileForm.mkEnv (fun s => s) false in
  let u := ProfileForm.mkUser "u1" (Some "Ada") None (Some "ada@example.org")
             (Some "5551234567") in
  let w := ProfileForm.mkWorld (Some u)
             (ProfileForm.handleChange "phone" "555 987 6543" (ProfileForm.fetched u)) [] [] in
  ProfileForm.calls (ProfileForm.handleSubmit env (ProfileForm.handleSubmit env w))
  = ProfileForm.calls (ProfileForm.handleSubmit env w).
Proof.
  intros env u w.
  rewrite (proj1 (saved_profile_needs_no_second_save env w u eq_refl ltac:(discriminate))
             eq_refl).
  reflexivity.
Defined.

(** ** The toast hook *)

Module ToastFacts.
Import UseToast.

Lemma handlers_current (ts : list Toast) : forall s,
  fold_left (fun s t => handler t s) ts s
  = mkState (globalHandler s) (toastQueue s)
      (match last ts with Some t => Some t | None => current s end).
Proof.
  induction ts as [ | t ts IH ]; intros s; [ now destruct s | ].
  cbn [fold_left]. rewrite IH. cbn [handler globalHandler toastQueue current].
  destruct ts as [ | t' ts ]; [ reflexivity | ].
  rewrite last_cons_cons.
  destruct (last (t' :: ts)) eqn:E; [ reflexivity | ].
  apply last_None in E. discriminate E.
Qed.

Lemma shows_queue (ts : list Toast) : forall s,
  globalHandler s = false ->
  fold_left (fun s e => step e s) (List.map Show ts) s
  = mkState false (toastQueue s ++ ts) (current s).
Proof.
  induction ts as [ | t ts IH ]; intros s Hs; cbn [List.map fold_left].
  - rewrite app_nil_r. destruct s. cbn in Hs. now subst.
  - rewrite IH.
    + cbn [step]. unfold show. rewrite Hs. cbn. now rewrite <- app_assoc.
    + cbn [step]. unfold show. now rewrite Hs.
Qed.

Lemma step_registered (e : Event) (s : State) :
  (globalHandler s = true -> toastQueue s = []) ->
  globalHandler (step e s) = true -> toastQueue (step e s) = [].
Proof.
  intros Hs. destruct e as [opts | | | ]; cbn [step].
  - unfold show. destruct (globalHandler s) eqn:Hg; cbn; [ auto | congruence ].
  - reflexivity.
  - cbn. discriminate.
  - cbn. exact Hs.
Qed.

End ToastFacts.

(** X22. With one user of the toast hook: whatever is shown, mounted,
    unmounted or hidden from the loaded module on, the queue is empty
    whenever the handler is registered.  Toasts requested while no handler
    is registered are queued in the order of the requests and none is on
    screen; the mount that follows empties the queue and leaves only the
    last of them on screen. *)
Theorem toast_queue_is_flushed_at_mount (l : list UseToast.Event) (ts : list Toast) :
  let s := UseToast.run l UseToast.initial in
  (UseToast.globalHandler s = true -> UseToast.toastQueue s = []) /\
  (UseToast.globalHandler s = false ->
   let queued := UseToast.run (List.map UseToast.Show ts) s in
   UseToast.toastQueue queued = UseToast.toastQueue s ++ ts /\
   UseToast.current queued = UseToast.current s /\
   UseToast.mount queued
   = UseToast.mkState true []
       (match last (UseToast.toastQueue s ++ ts) with
        | Some t => Some t
        | None => UseToast.current s
        end)).
Proof.
  intros s. split.
  - subst s. unfold UseToast.run. rewrite <- (rev_involutive l).
    induction (rev l) as [ | e l' IH ]; [ discriminate | ].
    cbn [rev]. rewrite fold_left_app. cbn [fold_left].
    now apply ToastFacts.step_registered.
  - intros Hs queued. subst queued. unfold UseToast.run at 1 2 3.
    rewrite (ToastFacts.shows_queue ts s Hs). cbn [UseToast.toastQueue UseToast.current].
    split; [ reflexivity | ]. split; [ reflexivity | ].
    unfold UseToast.mount. cbn [UseToast.toastQueue UseToast.current UseToast.globalHandler].
    now rewrite ToastFacts.handlers_current.
Qed.

Lemma toast_queue_is_flushed_at_mount_witness :
  let early := [toast info "Loading"; toast error "Offline"] in
  UseToast.mount (UseToast.run (List.map UseToast.Show early)
                    (UseToast.run [UseToast.Mount; UseToast.Unmount] UseToast.initial))
  = UseToast.mkState true [] (Some (toast error "Offline")).
Proof.
  intros early.
  exact (proj2 (proj2 (proj2 (toast_queue_is_flushed_at_mount
                                [UseToast.Mount; UseToast.Unmount] early) eq_refl))).
Defined.

(** ** Product images *)

Module ImageFacts.
Import ImageData.

Lemma image_of_json_to_json (i : Image) : of_json (to_json i) = Some i.
Proof. now destruct i. Qed.

Lemma images_of_json (l : list Image) : mapM of_json (List.map to_json l) = Some l.
Proof.
  induction l as [ | i l IH ]; [ reflexivity | ].
  cbn [List.map mapM]. rewrite image_of_json_to_json. cbn. rewrite IH. reflexivity.
Qed.

Lemma normalize_text (l : list Image) : normalizeImages (Text (stringify l)) = Some l.
Proof.
  unfold normalizeImages, stringify.
  replace (JS.truthy _) with true by reflexivity.
  rewrite JSONFacts.parse_stringify. apply images_of_json.
Qed.

End ImageFacts.

(** X23. [getImageUrl] gives the same address for a list of images and for
    its JSON text.  For no value, an empty text or an empty list it is the
    placeholder; for other lists it is the address of the first image
    marked primary, and of the first image when none is marked. *)
Theorem image_url_prefers_the_primary (l : list ImageData.Image) :
  ImageData.getImageUrl (ImageData.Text (ImageData.stringify l))
    = ImageData.getImageUrl (ImageData.Images l) /\
  ImageData.getImageUrl ImageData.Missing = Some ImageData.placeholder /\
  ImageData.getImageUrl (ImageData.Text EmptyString) = Some ImageData.placeholder /\
  ImageData.getImageUrl (ImageData.Images []) = Some ImageData.placeholder /\
  (forall n img,
     l !! n = Some img -> ImageData.is_primary img = true ->
     (forall j other, j < n -> l !! j = Some other -> ImageData.is_primary other = false) ->
     ImageData.getImageUrl (ImageData.Images l) = Some (ImageData.url img)) /\
  (forall first,
     l !! 0 = Some first ->
     (forall other, other ∈ l -> ImageData.is_primary other = false) ->
     ImageData.getImageUrl (ImageData.Images l) = Some (ImageData.url first)).
Proof.
  split.
  { unfold ImageData.getImageUrl. now rewrite ImageFacts.normalize_text. }
  split; [ reflexivity | ]. split; [ reflexivity | ]. split; [ reflexivity | ]. split.
  - intros n img Hn Hp Hbefore.
    assert (Hfind : List.find ImageData.is_primary l = Some img).
    { clear -Hn Hp Hbefore. revert n Hn Hbefore.
      induction l as [ | x l IH ]; intros [ | n ] Hn Hbefore; simplify_eq/=.
      - now rewrite Hp.
      - rewrite (Hbefore 0 x ltac:(lia) eq_refl).
        apply (IH n Hn). intros j other Hj Ho. apply (Hbefore (S j) other); [ lia | exact Ho ]. }
    unfold ImageData.getImageUrl. cbn [ImageData.normalizeImages].
    destruct l as [ | x l' ]; [ discriminate Hn | ]. now rewrite Hfind.
  - intros first Hfirst Hnone.
    assert (Hfind : List.find ImageData.is_primary l = None).
    { clear -Hnone. induction l as [ | x l IH ]; [ reflexivity | ].
      cbn. rewrite (Hnone x ltac:(left)). apply IH. intros o Ho. apply Hnone. now right. }
    unfold ImageData.getImageUrl. cbn [ImageData.normalizeImages].
    destruct l as [ | x l' ]; [ discriminate Hfirst | ].
    rewrite Hfind. now injection Hfirst as ->.
Qed.

(** ** The location of an order *)

Module OrderLocationFacts.
Import AsyncStorage Cart.

(** The insert request of [placeOrder], once it gets that far. *)
Lemma place_order_inserts env w payment uid locationId :
  selectedPaymentId w = Some payment -> payment <> EmptyString ->
  user env = Some uid ->
  Location.currentLocId (getItem "selectedLocation" (storage w)) = Some locationId ->
  exists rest,
    calls (fst (placeOrder env w))
    = calls w ++ [AuthGetUser;
                  InsertOrder (Order.mk (new_order_id env) uid locationId "Pending"
                                 (uuid_v4 env) payment (pickupTime w))] ++ rest.
Proof.
  intros Hpay Hpay' Huser Hloc. unfold placeOrder.
  rewrite Hpay, (proj2 (CartScreenFacts.truthy_spec payment) Hpay'). cbn [negb].
  cbn [storage add_call]. rewrite Hloc, Huser.
  destruct (orders_insert_error env).
  { exists []. cbn. now rewrite <- app_assoc. }
  cbn [cart add_call set_orders]. destruct (negb _).
  { exists [SelectProducts (List.map CartItem.id (cart w))]. cbn.
    now rewrite <- !app_assoc. }
  destruct (order_items_insert_error env); eexists; cbn; rewrite <- !app_assoc; reflexivity.
Qed.

End OrderLocationFacts.

(** X24. The order carries the location chosen last on the SelectLocation
    screen.  With a payment method selected and a signed-in user, the row
    [placeOrder] inserts after a location of the list was confirmed has
    that location's id; after "use current location" it has the id
    "current". *)
Theorem order_carries_the_chosen_location
    (env : Cart.Env) (w : Cart.World) (payment uid : string) :
  Cart.selectedPaymentId w = Some payment -> payment <> EmptyString ->
  Cart.user env = Some uid ->
  let row := fun id => Order.mk (Cart.new_order_id env) uid (Some id) "Pending"
                         (Cart.uuid_v4 env) payment (Cart.pickupTime w) in
  (forall id locations,
     id <> EmptyString -> (exists loc, loc ∈ locations /\ Location.id loc = id) ->
     let st := fst (SelectLocation.handleConfirmLocation (Some id) locations
                      (Cart.storage w)) in
     Cart.InsertOrder (row id)
       ∈ Cart.calls (fst (Cart.placeOrder env (Cart.set_storage st w)))) /\
  (let st := fst (SelectLocation.handleUseCurrentLocation (Cart.storage w)) in
   Cart.InsertOrder (row "current")
     ∈ Cart.calls (fst (Cart.placeOrder env (Cart.set_storage st w)))).
Proof.
  intros Hpay Hpay' Huser row. split.
  - intros id locations Hid Hloc st.
    destruct (MountFacts.confirm_location id locations (Cart.storage w) Hid Hloc)
      as (Hcur & _).
    destruct (OrderLocationFacts.place_order_inserts env (Cart.set_storage st w)
                payment uid (Some id) Hpay Hpay' Huser Hcur) as (rest & ->).
    apply elem_of_app. right. right. left.
  - intros st.
    assert (Hcur : Location.currentLocId
                     (AsyncStorage.getItem "selectedLocation"
                        (Cart.storage (Cart.set_storage st w)))
                   = Some (Some "current")).
    { cbn [Cart.storage Cart.set_storage]. subst st.
      unfold SelectLocation.handleUseCurrentLocation. cbn [fst].
      unfold AsyncStorage.getItem, AsyncStorage.setItem.
      rewrite lookup_insert_ne by discriminate. rewrite lookup_insert_eq.
      apply (MountFacts.currentLocId_stringify (Location.mk "current" "Current Location")). }
    destruct (OrderLocationFacts.place_order_inserts env (Cart.set_storage st w)
                payment uid (Some "current") Hpay Hpay' Huser Hcur) as (rest & ->).
    apply elem_of_app. right. right. left.
Qed.

Lemma order_carries_the_chosen_location_witness :
  let env := Cart.mkEnv (Some "u1") "o9" "b-42" false false false in
  let w := Cart.mkWorld [] (Some "pay1") "2026-01-05T10:00:00.000Z" ∅ [] [] [] [] [] [] in
  let st := fst (SelectLocation.handleUseCurrentLocation (Cart.storage w)) in
  Cart.InsertOrder (Order.mk "o9" "u1" (Some "current") "Pending" "b-42" "pay1"
                      "2026-01-05T10:00:00.000Z")
    ∈ Cart.calls (fst (Cart.placeOrder env (Cart.set_storage st w))).
Proof.
  intros env w st.
  exact (proj2 (order_carries_the_chosen_location env w "pay1" "u1" eq_refl
                  ltac:(discriminate) eq_refl)).
Defined.

